(** * Faculty attendance tracking: attendance-to-payroll reconciliation

    A shallow embedding of the TypeScript sources
      - [components/MonthlyActions.tsx]: monthly casual-leave allocation,
      - [useSummaryData] of [hooks/useFacultyData.ts]: monthly summary and
        casual-leave deduction,
      - [useLeaveApprovalData] of [hooks/useLeaveApprovalData.ts]: approve
        and reject a leave,
      - [useFacultyDetailData], the hook of the faculty detail page:
        delete a leave,
    over a typed model of the Firebase Realtime Database they talk to,
    and of the components around them:
      - [useFacultyData] of [hooks/useFacultyData.ts], [useHolidays] and
        [useAttendanceData] of [hooks/useLeaveApprovalData.ts],
        [useUserManagementData]: the faculty list, the holiday calendar,
        the reading of attendance sheets, the user accounts,
      - [ManualAttendance] of [components/MonthlyActions.tsx] and
        [SettingsProvider] of [components/SettingsContext.tsx].

    Conventions.
      - JavaScript numbers that hold counts are [Z]; day quantities that
        may be half days are [Q]; money is an IEEE-754 binary64 [float].
      - A field that may be missing or non-numeric ([undefined], [NaN])
        is an [option]; [x || 0] is [orZero].
      - Children of [faculty/] and [attendance/] are keyed by the employee
        id.  The application writes these keys as the decimal rendering of
        a number and reads them back with [parseInt]; the model keys the
        two collections by that number.
      - Every [await]ed database call either resolves or rejects; the
        verdicts are read from a schedule carried by the [World].
      - [Object.keys] and [for ... in] enumerate a snapshot in the order
        of [map_to_list]; the paths of one multi-path update are applied
        together, and no statement below depends on their order when they
        come from such an enumeration.
      - The ids, months and dates that the handlers put into a path are
        valid keys: not empty, and without [.], [$], [#], [[], []] and [/].
      - JavaScript orders strings by code unit and the model by byte,
        which is the same order on the ASCII text of dates and times.
      - What the host decides (an ordering that depends on the locale, the
        time zone, the rendering of a number) is a parameter of the
        handler, a [Host]. *)

From Stdlib Require Import ZArith QArith Qminmax Qround String Ascii List Lia.
From Stdlib Require Import PrimFloat FloatOps SpecFloat FloatAxioms Uint63.
From stdpp Require Import base gmap strings list pretty.

Local Open Scope string_scope.
Local Open Scope list_scope.
Local Open Scope Z_scope.

(* ===================================================================== *)
(** ** The [types] module

    The TypeScript declarations of [FacultyRecord], [AttendanceRecord],
    [AttendanceStatus], [LeaveApplicationRecord], [Holiday] and
    [MonthlySummary] are imported by every source file; their fields are
    taken from the places that read and write them. *)

Inductive AttendanceStatus := OnTime | Late | Absent | OnDuty.

Inductive LeaveStatus := Pending | Approved | Rejected.

#[global] Instance AttendanceStatus_eq_dec : EqDecision AttendanceStatus.
Proof. solve_decision. Defined.

#[global] Instance LeaveStatus_eq_dec : EqDecision LeaveStatus.
Proof. solve_decision. Defined.

(** [x || 0] on a count. *)
Definition orZero (x : option Z) : Z := default 0 x.

(** [x || 0] on a binary64 number: [undefined], [NaN] and both zeros are
    falsy. *)
Definition orZeroF (x : option float) : float :=
  match x with
  | Some v => if (PrimFloat.is_nan v || PrimFloat.is_zero v)%bool then 0%float else v
  | None => 0%float
  end.

(** The value stored under [faculty/{empId}]. *)
Record FacultyNode := mkFacultyNode {
  name : option string;
  dept : option string;
  designation : option string;
  salary : option float;
  casualLeaves : option Z
}.

(** [{ empId: parseInt(empId), ...facultyData[empId] }] *)
Record FacultyRecord := mkFacultyRecord {
  empId : Z;
  details :> FacultyNode
}.

(** The value stored under [attendance/{empId}/records/{date}]. *)
Record AttendanceNode := mkAttendanceNode {
  inTime : string;
  status : AttendanceStatus;
  leaveApplicationId : option string
}.

(** A leave application, as the hooks keep it in memory. *)
Record LeaveApplicationRecord := mkLeaveApplicationRecord {
  la_id : string;
  la_empId : Z;
  startDate : string;
  endDate : string;
  submissionTimestamp : string;
  la_status : LeaveStatus
}.

(** The value stored under [leaveApplications/{id}]: a whole record, or
    the node with the single child [status] that a status write below an
    id without a record creates. *)
Inductive LeaveNode :=
| FullLeave (r : LeaveApplicationRecord)
| StatusOnly (s : LeaveStatus).

Definition nodeStatus (n : LeaveNode) : LeaveStatus :=
  match n with
  | FullLeave r => la_status r
  | StatusOnly s => s
  end.

(** A flattened attendance record, as the hooks keep it in memory. *)
Record AttendanceRecord := mkAttendanceRecord {
  ar_id : string;
  ar_empId : Z;
  ar_name : option string;
  ar_dept : option string;
  date : string;
  ar_inTime : string;
  ar_status : AttendanceStatus;
  ar_leaveApplicationId : option string
}.

Record Holiday := mkHoliday {
  h_id : string;
  h_date : string;
  description : string
}.

(** One row of the monthly summary. *)
Record MonthlySummary := mkMonthlySummary {
  ms_empId : Z;
  ms_name : option string;
  ms_dept : option string;
  ms_designation : option string;
  monthlySalary : option float;
  presentDays : Z;
  permissions : Z;
  halfDayLeaves : Z;
  casualLeavesAvailable : Z;
  casualLeavesUsed : Z;
  unpaidLeave : Z;
  totalLeaves : Q;
  payableDays : Q;
  calculatedSalary : float
}.

(** The value stored under [monthlyAllocations/{month}]. *)
Record AllocationNode := mkAllocationNode {
  completed : bool;
  timestamp : string;
  updatedCount : Z
}.

(* ===================================================================== *)
(** ** The database *)

Record Db := mkDb {
  faculty : gmap Z FacultyNode;
  attendance : gmap Z (gmap string AttendanceNode);
  leaveApplications : gmap string LeaveNode;
  monthlyAllocations : gmap string AllocationNode
}.

Definition emptyDb : Db := mkDb ∅ ∅ ∅ ∅.

(** [attendance/{empId}/records/{date}] *)
Definition attendanceAt (d : Db) (e : Z) (date : string) : option AttendanceNode :=
  attendance d !! e ≫= (λ records, records !! date).

(** One entry of the object handed to [update(ref(db), updates)], or the
    argument of a [set]:
    - [SetCasualLeaves e v]   is  [updates[`faculty/${e}/casualLeaves`] = v];
    - [RemoveAttendance e d]  is  [updates[`attendance/${e}/records/${d}`] = null];
    - [SetLeaveStatus i s]    is  [updates[`leaveApplications/${i}/status`] = s];
    - [RemoveLeave i]         is  [updates[`leaveApplications/${i}`] = null];
    - [SetAllocation m a]     is  [set(ref(db, `monthlyAllocations/${m}`), a)]. *)
Inductive DbWrite :=
| SetCasualLeaves (e : Z) (v : Z)
| RemoveAttendance (e : Z) (date : string)
| SetLeaveStatus (id : string) (s : LeaveStatus)
| RemoveLeave (id : string)
| SetAllocation (month : string) (a : AllocationNode).

(** Writing a leaf below a node that does not exist creates the node with
    that single child. *)
Definition writeCasualLeaves (v : Z) (o : option FacultyNode) : option FacultyNode :=
  Some match o with
       | Some n => mkFacultyNode (name n) (dept n) (designation n) (salary n) (Some v)
       | None => mkFacultyNode None None None None (Some v)
       end.

Definition setStatus (s : LeaveStatus) (r : LeaveApplicationRecord) : LeaveApplicationRecord :=
  mkLeaveApplicationRecord (la_id r) (la_empId r) (startDate r) (endDate r)
    (submissionTimestamp r) s.

Definition writeLeaveStatus (s : LeaveStatus) (o : option LeaveNode) : option LeaveNode :=
  Some match o with
       | Some (FullLeave r) => FullLeave (setStatus s r)
       | _ => StatusOnly s
       end.

Definition applyWrite (d : Db) (w : DbWrite) : Db :=
  match w with
  | SetCasualLeaves e v =>
      mkDb (partial_alter (writeCasualLeaves v) e (faculty d))
           (attendance d) (leaveApplications d) (monthlyAllocations d)
  | RemoveAttendance e date =>
      mkDb (faculty d) (alter (delete date) e (attendance d))
           (leaveApplications d) (monthlyAllocations d)
  | SetLeaveStatus id s =>
      mkDb (faculty d) (attendance d)
           (partial_alter (writeLeaveStatus s) id (leaveApplications d))
           (monthlyAllocations d)
  | RemoveLeave id =>
      mkDb (faculty d) (attendance d) (delete id (leaveApplications d))
           (monthlyAllocations d)
  | SetAllocation month a =>
      mkDb (faculty d) (attendance d) (leaveApplications d)
           (<[month := a]> (monthlyAllocations d))
  end.

(** A multi-path update is applied as a whole; entries are taken in the
    order in which the handler assigned them. *)
Definition applyWrites (ws : list DbWrite) (d : Db) : Db := foldl applyWrite d ws.

(** The kinds of entries that the statements tell apart. *)
Definition isCasualLeavesWrite (w : DbWrite) : Prop :=
  match w with SetCasualLeaves _ _ => True | _ => False end.

Definition isAttendanceRemoval (w : DbWrite) : Prop :=
  match w with RemoveAttendance _ _ => True | _ => False end.

(* ===================================================================== *)
(** ** Handlers: component state, database, exceptions *)

(** A call issued to the database. *)
Inductive Call :=
| Get (path : string)
| Update (ws : list DbWrite)
| Set_ (w : DbWrite).

Definition isWrite (c : Call) : bool :=
  match c with Get _ => false | _ => true end.

(** The database, the verdicts of the coming calls ([Some msg]: the
    promise rejects with [Error(msg)] and nothing is applied; [None], or
    an exhausted schedule: it resolves), and the calls issued so far. *)
Record World := mkWorld {
  db : Db;
  net : list (option string);
  log : list Call
}.

(** The verdict of the next call: [Some msg] when it rejects. *)
Definition verdict (w : World) : option string := mjoin (head (net w)).

(** Outcome of a handler: a value, or a thrown [Error] with its message. *)
Inductive Result (A : Type) :=
| Ok (a : A)
| Throw (msg : string).
Arguments Ok {A} a.
Arguments Throw {A} msg.

(** A handler of a component whose state has type [St].  State set before
    an exception is thrown stays set. *)
Definition Eff (St A : Type) : Type := St → World → Result A * St * World.

Section Eff.
Context {St : Type}.

Definition ret {A} (a : A) : Eff St A := λ s w, (Ok a, s, w).

Definition bind {A B} (m : Eff St A) (k : A → Eff St B) : Eff St B :=
  λ s w, match m s w with
         | (Ok a, s', w') => k a s' w'
         | (Throw e, s', w') => (Throw e, s', w')
         end.

Definition throw {A} (msg : string) : Eff St A := λ s w, (Throw msg, s, w).

(** [try { m } catch (err) { h(err.message) }] *)
Definition tryCatch {A} (m : Eff St A) (h : string → Eff St A) : Eff St A :=
  λ s w, match m s w with
         | (Throw e, s', w') => h e s' w'
         | r => r
         end.

Definition getState : Eff St St := λ s w, (Ok s, s, w).

Definition setState (f : St → St) : Eff St unit := λ s w, (Ok tt, f s, w).

(** [await call]: the call is logged and the next verdict is consumed; a
    resolved call applies [effect] and answers [reply] of the database
    it found, a rejected one applies nothing. *)
Definition await {A} (c : Call) (effect : Db → Db) (reply : Db → A) : Eff St A :=
  λ s w,
    match verdict w with
    | Some msg => (Throw msg, s, mkWorld (db w) (tail (net w)) (log w ++ [c]))
    | None => (Ok (reply (db w)), s, mkWorld (effect (db w)) (tail (net w)) (log w ++ [c]))
    end.

(** [await get(ref(db, path))] followed by [snapshot.val()] *)
Definition fb_get {A} (path : string) (val : Db → A) : Eff St A :=
  await (Get path) id val.

(** [await update(ref(db), updates)] *)
Definition fb_update (updates : list DbWrite) : Eff St unit :=
  await (Update updates) (applyWrites updates) (λ _, tt).

(** [await set(ref(db, path), value)] *)
Definition fb_set (w : DbWrite) : Eff St unit :=
  await (Set_ w) (λ d, applyWrite d w) (λ _, tt).
End Eff.

Declare Scope eff_scope.
Delimit Scope eff_scope with eff.
Notation "x <- m ;; k" := (bind m (λ x, k))
  (at level 100, m at next level, right associativity) : eff_scope.
Notation "m ;; k" := (bind m (λ _, k))
  (at level 100, right associativity) : eff_scope.
Local Open Scope eff_scope.

(** The calls of a log that write. *)
Definition writesOf (l : list Call) : list Call := List.filter isWrite l.

(* ===================================================================== *)
(** ** JavaScript numbers used for money *)

(** The binary64 number of an integer; exact below [2^53]. *)
Definition Z2float (z : Z) : float :=
  if z <? 0 then PrimFloat.opp (PrimFloat.of_uint63 (Uint63.of_Z (- z)))
  else PrimFloat.of_uint63 (Uint63.of_Z z).

(** The binary64 number nearest to a rational (one correctly rounded
    division); exact on the integers and half integers that day counts
    take. *)
Definition Q2float (q : Q) : float :=
  PrimFloat.div (Z2float (Qnum q)) (Z2float (Zpos (Qden q))).

(** [parseFloat(x.toFixed(2))].

    [toFixed(2)] prints the integer [n] nearest to [100 * |x|] (the larger
    one on a tie) with two decimals, and the sign of [x] when [x < 0];
    [parseFloat] reads the nearest binary64 back.  From [2^46] on, two
    decimals are finer than half the gap between neighbouring binary64
    numbers, so the round trip returns [x]; below, [n < 2^53] and the
    nearest binary64 to [n / 100] is one division. *)
Definition toFixed2 (x : float) : float :=
  match Prim2SF x with
  | S754_zero _ => 0%float
  | S754_infinity _ => x
  | S754_nan => x
  | S754_finite s m e =>
      if 0 <=? e then x
      else
        let k := - e in
        if 2 ^ (46 + k) <=? Zpos m then x
        else
          let n := (200 * Zpos m + 2 ^ k) / 2 ^ (k + 1) in
          let r := PrimFloat.div (Z2float n) (Z2float 100) in
          if s then PrimFloat.opp r else r
  end.

(* ===================================================================== *)
(** ** JavaScript strings and dates

    [Date] objects are modelled by their time value, the milliseconds
    since the epoch, following the definitions of ECMA-262 (Day,
    DayFromYear, YearFromTime, MonthFromTime, DateFromTime, MakeDay,
    MakeDate, TimeClip).  [None] is [NaN], the time value of an invalid
    date. *)

Module JSDate.

(** The character of a decimal digit, and its value. *)
Definition digitChar (k : Z) : ascii := ascii_of_N (48 + Z.to_N k).

Definition digitValue (c : ascii) : option Z :=
  let n := Z.of_N (N_of_ascii c) in
  if ((48 <=? n) && (n <=? 57))%bool then Some (n - 48) else None.

Fixpoint digitsValue (acc : Z) (s : string) : option Z :=
  match s with
  | EmptyString => Some acc
  | String c s' =>
      match digitValue c with
      | Some k => digitsValue (10 * acc + k) s'
      | None => None
      end
  end.

(** [Number(s)] on the strings that occur as parts of a date: a run of
    decimal digits is its value, the empty string is [0].  Anything else
    is answered [NaN]; the numeric literals with a sign, a fraction, an
    exponent, a radix prefix or white space do not occur in dates. *)
Definition Number_ (s : string) : option Z := digitsValue 0 s.

(** [s.split(sep)] for a separator of one character; [cur] is the piece
    being read. *)
Fixpoint splitOn (sep : ascii) (cur : string) (s : string) : list string :=
  match s with
  | EmptyString => [cur]
  | String c s' =>
      if Ascii.eqb c sep then cur :: splitOn sep EmptyString s'
      else splitOn sep (cur +:+ String c EmptyString) s'
  end.

Definition split (sep : ascii) (s : string) : list string := splitOn sep EmptyString s.

(** [parts[i]], a number or [NaN] ([undefined] and [NaN] both compute to
    [NaN]). *)
Definition part (parts : list (option Z)) (i : nat) : option Z := mjoin (parts !! i).

(** Decimal rendering with leading zeros. *)
Definition pad2 (n : Z) : string :=
  String (digitChar (n / 10 mod 10)) (String (digitChar (n mod 10)) EmptyString).

Definition pad4 (n : Z) : string :=
  String (digitChar (n / 1000 mod 10)) (String (digitChar (n / 100 mod 10)) (pad2 n)).

Definition pad6 (n : Z) : string :=
  String (digitChar (n / 100000 mod 10)) (String (digitChar (n / 10000 mod 10)) (pad4 n)).

Definition msPerDay : Z := 86400000.

Definition Day (t : Z) : Z := t / msPerDay.

Definition TimeWithinDay (t : Z) : Z := t mod msPerDay.

Definition DaysInYear (y : Z) : Z :=
  if negb (y mod 4 =? 0) then 365
  else if negb (y mod 100 =? 0) then 366
  else if negb (y mod 400 =? 0) then 365
  else 366.

Definition DayFromYear (y : Z) : Z :=
  365 * (y - 1970) + (y - 1969) / 4 - (y - 1901) / 100 + (y - 1601) / 400.

Definition TimeFromYear (y : Z) : Z := msPerDay * DayFromYear y.

(** The largest [y] with [TimeFromYear y <= t]: one of the three years
    around the estimate from the mean length of a year. *)
Definition YearFromTime (t : Z) : Z :=
  let y := 1970 + (400 * Day t) / 146097 in
  if TimeFromYear (y + 1) <=? t then y + 1
  else if TimeFromYear y <=? t then y
  else y - 1.

Definition InLeapYear (t : Z) : Z :=
  if DaysInYear (YearFromTime t) =? 365 then 0 else 1.

Definition DayWithinYear (t : Z) : Z := Day t - DayFromYear (YearFromTime t).

(** The day within the year on which month [m] (0 to 11) starts. *)
Definition monthStart (leap : Z) (m : Z) : Z :=
  match m with
  | 0 => 0
  | 1 => 31
  | 2 => 59 + leap
  | 3 => 90 + leap
  | 4 => 120 + leap
  | 5 => 151 + leap
  | 6 => 181 + leap
  | 7 => 212 + leap
  | 8 => 243 + leap
  | 9 => 273 + leap
  | 10 => 304 + leap
  | _ => 334 + leap
  end.

Definition MonthFromTime (t : Z) : Z :=
  let d := DayWithinYear t in
  let leap := InLeapYear t in
  if d <? 31 then 0
  else if d <? 59 + leap then 1
  else if d <? 90 + leap then 2
  else if d <? 120 + leap then 3
  else if d <? 151 + leap then 4
  else if d <? 181 + leap then 5
  else if d <? 212 + leap then 6
  else if d <? 243 + leap then 7
  else if d <? 273 + leap then 8
  else if d <? 304 + leap then 9
  else if d <? 334 + leap then 10
  else 11.

Definition DateFromTime (t : Z) : Z :=
  DayWithinYear t - monthStart (InLeapYear t) (MonthFromTime t) + 1.

(** [MakeDay(year, month, date)] on finite arguments: the day number of
    the first of month [month mod 12] in year [year + floor(month / 12)],
    plus [date - 1]. *)
Definition MakeDay (year month dt : Z) : Z :=
  let ym := year + month / 12 in
  let mn := month mod 12 in
  DayFromYear ym + monthStart (if DaysInYear ym =? 365 then 0 else 1) mn + dt - 1.

Definition MakeDate (day time : Z) : Z := day * msPerDay + time.

Definition TimeClip (t : Z) : option Z :=
  if Z.abs t <=? 8640000000000000 then Some t else None.

(** [Date.UTC(year, month, date)] with its three arguments given; a year
    from 0 to 99 stands for 1900 + year. *)
Definition UTC (year month dt : option Z) : option Z :=
  y ← year; m ← month; d ← dt;
  let yr := if ((0 <=? y) && (y <=? 99))%bool then 1900 + y else y in
  TimeClip (MakeDate (MakeDay yr m d) 0).

(** [Date.parse(s)] on the date-only form [YYYY-MM-DD], which is read as
    UTC midnight.  Other forms are answered [NaN]; a day of 29 to 31 that
    the month does not have is carried into the next month (engines
    differ there). *)
Definition parse (s : string) : option Z :=
  match split "-" s with
  | [y; m; d] =>
      if ((String.length y =? 4)%nat && (String.length m =? 2)%nat
          && (String.length d =? 2)%nat)%bool
      then yv ← Number_ y; mv ← Number_ m; dv ← Number_ d;
           if ((1 <=? mv) && (mv <=? 12) && (1 <=? dv) && (dv <=? 31))%bool
           then TimeClip (MakeDate (MakeDay yv (mv - 1) dv) 0)
           else None
      else None
  | _ => None
  end.

(** [d.toISOString().split("T")[0]] of a valid date. *)
Definition toISODate (t : Z) : string :=
  let y := YearFromTime t in
  (if ((0 <=? y) && (y <=? 9999))%bool then pad4 y
   else (if y <? 0 then "-" else "+") +:+ pad6 (Z.abs y))
  +:+ "-" +:+ pad2 (MonthFromTime t + 1) +:+ "-" +:+ pad2 (DateFromTime t).

Definition getUTCDate (t : Z) : Z := DateFromTime t.

(** [d.setUTCDate(dt)]: the new time value of [d]. *)
Definition setUTCDate (t : Z) (dt : Z) : option Z :=
  TimeClip (MakeDate (MakeDay (YearFromTime t) (MonthFromTime t) dt) (TimeWithinDay t)).

(** The host's time zone: the offset of local time from UTC, in
    milliseconds, in force at a UTC instant, and the one chosen for a
    local time value. *)
Record TimeZone := mkTimeZone {
  offsetAtUTC : Z → Z;
  offsetAtLocal : Z → Z
}.

Definition LocalTime (tz : TimeZone) (t : Z) : Z := t + offsetAtUTC tz t.

Definition toUTC (tz : TimeZone) (t : Z) : Z := t - offsetAtLocal tz t.

Definition getDate (tz : TimeZone) (t : Z) : Z := DateFromTime (LocalTime tz t).

(** [d.setDate(dt)]: the new time value of [d]. *)
Definition setDate (tz : TimeZone) (t : Z) (dt : Z) : option Z :=
  let tl := LocalTime tz t in
  TimeClip (toUTC tz (MakeDate (MakeDay (YearFromTime tl) (MonthFromTime tl) dt)
                        (TimeWithinDay tl))).

(** A calendar date, and the string an [<input type="date">] gives it. *)
Record Civil := mkCivil { year : Z; month : Z; day : Z }.

Definition DaysInMonth (y m : Z) : Z :=
  match m with
  | 2 => if DaysInYear y =? 365 then 28 else 29
  | 4 | 6 | 9 | 11 => 30
  | _ => 31
  end.

(** A date of the calendar, with a four-digit year that [Date.UTC] takes
    as it is. *)
Definition validCivil (c : Civil) : Prop :=
  100 ≤ year c ≤ 9999 ∧ 1 ≤ month c ≤ 12 ∧ 1 ≤ day c ≤ DaysInMonth (year c) (month c).

Definition iso (c : Civil) : string :=
  pad4 (year c) +:+ "-" +:+ pad2 (month c) +:+ "-" +:+ pad2 (day c).

(** Calendar order. *)
Definition civil_le (a b : Civil) : Prop :=
  year a < year b ∨
  (year a = year b ∧ (month a < month b ∨ (month a = month b ∧ day a ≤ day b))).

Definition civil_lt (a b : Civil) : Prop := civil_le a b ∧ a ≠ b.

(** The time value of a calendar date at UTC midnight. *)
Definition civilTime (c : Civil) : Z :=
  MakeDate (MakeDay (year c) (month c - 1) (day c)) 0.

End JSDate.

(* ===================================================================== *)
(** ** [components/MonthlyActions.tsx] *)

Module MonthlyActions.

Inductive FeedbackType := success | error.

Record Feedback := mkFeedback { type : FeedbackType; message : string }.

(** The [useState] cells of the component. *)
Record State := mkState {
  selectedMonth : string;
  isLoading : bool;
  feedback : option Feedback;
  isCheckingStatus : bool;
  isAllocationComplete : bool
}.

Definition setIsLoading (b : bool) : Eff State unit :=
  setState (λ c, mkState (selectedMonth c) b (feedback c) (isCheckingStatus c)
                   (isAllocationComplete c)).
Definition setFeedback (f : option Feedback) : Eff State unit :=
  setState (λ c, mkState (selectedMonth c) (isLoading c) f (isCheckingStatus c)
                   (isAllocationComplete c)).
Definition setIsAllocationComplete (b : bool) : Eff State unit :=
  setState (λ c, mkState (selectedMonth c) (isLoading c) (feedback c)
                   (isCheckingStatus c) b).

Definition alreadyCompleted : Feedback :=
  mkFeedback error "This action has already been completed for the selected month.".


(** The inner loop of step 2, with its [break]: is there a date of the
    month whose record is Absent? *)
Definition hasAbsence (month : string) (records : gmap string AttendanceNode) : bool :=
  existsb (λ '(date, r), String.prefix month date && bool_decide (status r = Absent))
          (map_to_list records).

(** [facultyWithAbsences] after the loop over [attendanceData]. *)
Definition facultyWithAbsences (month : string)
    (attendanceData : gmap Z (gmap string AttendanceNode)) : gset Z :=
  foldl (λ acc '(e, records), if hasAbsence month records then {[e]} ∪ acc else acc)
        ∅ (map_to_list attendanceData).

(** Step 3: [updates] and [updatedCount] after [facultyList.forEach]. *)
Definition prepareUpdates (absentees : gset Z) (facultyList : list FacultyRecord)
    : list DbWrite * Z :=
  foldl (λ '(updates, count) f,
           if decide (empId f ∈ absentees) then (updates, count)
           else (updates ++ [SetCasualLeaves (empId f) (orZero (casualLeaves f) + 1)],
                 count + 1))
        ([], 0) facultyList.

Definition successFeedback (count : Z) : Feedback :=
  if count =? 0
  then mkFeedback success "Completed. No faculty were eligible. Month is now locked."
  else mkFeedback success
         ("Allocated 1 CL to " +:+ pretty count +:+ " faculty members. Month is now locked.").

(** [handleAllocateCL]; [now] is [new Date().toISOString()] at step 5. *)
Definition handleAllocateCL (now : string) : Eff State unit :=
  c <- getState ;;
  if isAllocationComplete c then setFeedback (Some alreadyCompleted) else
  setIsLoading true ;;
  setFeedback None ;;
  tryCatch
    (facultyData <- fb_get "faculty" faculty ;;
     if decide (facultyData = ∅) then throw "No faculty data found." else
     let facultyList := (λ '(e, n), mkFacultyRecord e n) <$> map_to_list facultyData in
     attendanceData <- fb_get "attendance" attendance ;;
     let absentees := facultyWithAbsences (selectedMonth c) attendanceData in
     let '(updates, count) := prepareUpdates absentees facultyList in
     (if 0 <? count then fb_update updates else ret tt) ;;
     fb_set (SetAllocation (selectedMonth c) (mkAllocationNode true now count)) ;;
     setIsAllocationComplete true ;;
     setFeedback (Some (successFeedback count)))
    (λ msg, setFeedback (Some (mkFeedback error ("Allocation failed: " +:+ msg)))) ;;
  setIsLoading false.

(** *** Notions used in the statements *)

Definition eligible (absentees : gset Z) (f : FacultyRecord) : bool :=
  negb (bool_decide (empId f ∈ absentees)).

Definition grant (f : FacultyRecord) : DbWrite :=
  SetCasualLeaves (empId f) (orZero (casualLeaves f) + 1).

(** The employee has a record of the month with status Absent. *)
Definition absentIn (d : Db) (M : string) (e : Z) : Prop :=
  ∃ day r, attendanceAt d e day = Some r ∧ String.prefix M day = true ∧ status r = Absent.

(** The faculty list that [handleAllocateCL] builds from its snapshot. *)
Definition facultyRecords (d : Db) : list FacultyRecord :=
  (λ '(e, n), mkFacultyRecord e n) <$> map_to_list (faculty d).

(** The handler finished with a success message. *)
Definition ranToCompletion (c : State) : Prop :=
  ∃ f, feedback c = Some f ∧ type f = success.

(** The updates of step 3 and their number, on the database found. *)
Definition planned (M : string) (d : Db) : list DbWrite * Z :=
  prepareUpdates (facultyWithAbsences M (attendance d)) (facultyRecords d).

Definition marker (M now : string) (d : Db) : DbWrite :=
  SetAllocation M (mkAllocationNode true now (planned M d).2).

(** The month is locked in the database. *)
Definition locked (d : Db) (M : string) : Prop :=
  ∃ a, monthlyAllocations d !! M = Some a ∧ completed a = true.


(** The node of an employee after one more casual leave. *)
Definition granted (n : FacultyNode) : FacultyNode :=
  mkFacultyNode (name n) (dept n) (designation n) (salary n)
    (Some (orZero (casualLeaves n) + 1)).

End MonthlyActions.

(* ===================================================================== *)
(** ** [useSummaryData] of [hooks/useFacultyData.ts] *)

Module SummaryData.

(** The [useState] cells of the hook that the calculation reads, and
    [settings.permissionLimit] of the settings context. *)
Record State := mkState {
  facultyList : list FacultyRecord;
  rawAttendance : list AttendanceRecord;
  holidays : list Holiday;
  selectedMonth : string;
  monthlyWorkingDays : Z;
  summaryData : list MonthlySummary;
  permissionLimit : Z
}.

Definition setSummaryData (l : list MonthlySummary) : Eff State unit :=
  setState (λ s, mkState (facultyList s) (rawAttendance s) (holidays s) (selectedMonth s)
                   (monthlyWorkingDays s) l (permissionLimit s)).

Definition setFacultyList (f : list FacultyRecord → list FacultyRecord) : Eff State unit :=
  setState (λ s, mkState (f (facultyList s)) (rawAttendance s) (holidays s) (selectedMonth s)
                   (monthlyWorkingDays s) (summaryData s) (permissionLimit s)).

(** The attendance part of [fetchData]: [attendance/] flattened into one
    list, every record labelled with the name and department found in the
    faculty list. *)
Definition flattenAttendance (faculty : list FacultyRecord)
    (data : gmap Z (gmap string AttendanceNode)) : list AttendanceRecord :=
  let facultyMap : gmap Z FacultyRecord := foldl (λ m f, <[empId f := f]> m) ∅ faculty in
  foldl (λ flattened '(e, records),
           let '(n, d) := match (facultyMap !! e : option FacultyRecord) with
                          | Some f => (name f, dept f)
                          | None => (Some ("Unknown (" +:+ pretty e +:+ ")"), Some "Unknown")
                          end in
           foldl (λ fl '(day, r),
                    fl ++ [mkAttendanceRecord (day +:+ "-" +:+ pretty e) e n d day
                             (inTime r) (status r) (leaveApplicationId r)])
                 flattened (map_to_list records))
        [] (map_to_list data).

(** [attendanceByEmp]: the records of the month grouped by employee. *)
Definition attendanceByEmp (attendanceForMonth : list AttendanceRecord)
    : gmap Z (list AttendanceRecord) :=
  foldl (λ m rec, <[ar_empId rec := default [] (m !! ar_empId rec) ++ [rec]]> m)
        ∅ attendanceForMonth.

Definition holidaysInMonth (s : State) : Z :=
  Z.of_nat (length (List.filter (λ h, String.prefix (selectedMonth s) (h_date h)) (holidays s))).

Definition actualWorkingDays (s : State) : Z :=
  Z.max 0 (monthlyWorkingDays s - holidaysInMonth s).

(** [(payableDays / actualWorkingDays) * salary] under its guard, then
    [parseFloat(calculatedSalary.toFixed(2))]. *)
Definition proRata (workingDays : Z) (payable : Q) (pay : float) : float :=
  toFixed2 (if 0 <? workingDays
            then PrimFloat.mul (PrimFloat.div (Q2float payable) (Z2float workingDays)) pay
            else 0%float).

(** The body of [facultyList.map(faculty => ...)]. *)
Definition summaryRow (workingDays limit : Z) (byEmp : gmap Z (list AttendanceRecord))
    (f : FacultyRecord) : MonthlySummary :=
  let records := default [] (byEmp !! empId f) in
  let presentDays :=
    Z.of_nat (length (List.filter (λ r, negb (bool_decide (ar_status r = Absent))) records)) in
  let absentDays := Z.max 0 (workingDays - presentDays) in
  let casualLeavesAvailable := orZero (casualLeaves f) in
  let casualLeavesUsed := Z.min absentDays casualLeavesAvailable in
  let unpaidLeave := absentDays - casualLeavesUsed in
  let lateRecords :=
    Z.of_nat (length (List.filter (λ r, bool_decide (ar_status r = Late)) records)) in
  let permissions := Z.min lateRecords limit in
  let halfDayLeaves := Z.max 0 (lateRecords - limit) in
  let totalLeaves := Qred (inject_Z unpaidLeave + inject_Z halfDayLeaves * (1 # 2))%Q in
  let payableDays := Qred (Qmax 0 (inject_Z workingDays - totalLeaves))%Q in
  mkMonthlySummary (empId f) (name f) (dept f) (designation f) (salary f)
    presentDays permissions halfDayLeaves casualLeavesAvailable casualLeavesUsed
    unpaidLeave totalLeaves payableDays
    (proRata workingDays payableDays (orZeroF (salary f))).

(** [calculateSummary]: the list handed to [setSummaryData]. *)
Definition calculateSummary (s : State) : list MonthlySummary :=
  if (bool_decide (facultyList s = []) || (monthlyWorkingDays s <=? 0))%bool then []
  else
    let attendanceForMonth :=
      List.filter (λ r, String.prefix (selectedMonth s) (date r)) (rawAttendance s) in
    let byEmp := attendanceByEmp attendanceForMonth in
    summaryRow (actualWorkingDays s) (permissionLimit s) byEmp <$> facultyList s.

(** The effect that re-runs [calculateSummary] whenever one of its inputs
    (the faculty list among them) has changed. *)
Definition recalculate : Eff State unit :=
  s <- getState ;;
  setSummaryData (calculateSummary s).

(** [updates] and [deductions] after [summaryData.forEach]. *)
Definition prepareDeductions (rows : list MonthlySummary) : list DbWrite * Z :=
  foldl (λ '(updates, deductions) item,
           if 0 <? casualLeavesUsed item
           then (updates ++ [SetCasualLeaves (ms_empId item)
                               (casualLeavesAvailable item - casualLeavesUsed item)],
                 deductions + 1)
           else (updates, deductions))
        ([], 0) rows.

(** The argument of [setFacultyList] in [finalizeAndDeductCLs]. *)
Definition deductInMemory (rows : list MonthlySummary) (prev : list FacultyRecord)
    : list FacultyRecord :=
  (λ f, match List.find (λ r, bool_decide (ms_empId r = empId f)) rows with
        | Some r =>
            if 0 <? casualLeavesUsed r
            then mkFacultyRecord (empId f)
                   (mkFacultyNode (name f) (dept f) (designation f) (salary f)
                      ((λ c, c - casualLeavesUsed r) <$> casualLeaves f))
            else f
        | None => f
        end) <$> prev.

(** [finalizeAndDeductCLs]; it answers its message. *)
Definition finalizeAndDeductCLs : Eff State string :=
  s <- getState ;;
  if bool_decide (summaryData s = []) then throw "No summary data to process." else
  let '(updates, deductions) := prepareDeductions (summaryData s) in
  if deductions =? 0 then ret "No CL deductions needed." else
  fb_update updates ;;
  setFacultyList (deductInMemory (summaryData s)) ;;
  ret ("CL deductions applied to " +:+ pretty deductions +:+ " faculty members.").

(** *** Notions used in the statements *)

Definition recordsOf (e : Z) (l : list AttendanceRecord) : list AttendanceRecord :=
  List.filter (λ r, bool_decide (ar_empId r = e)) l.

Definition count {A} (P : A → bool) (l : list A) : Z := Z.of_nat (length (List.filter P l)).

Definition inMonth (month : string) (r : AttendanceRecord) : bool :=
  String.prefix month (date r).

(** The magnitude [m * 2^e] of a finite binary64 number, as a rational. *)
Definition magnitude (m : positive) (e : Z) : Q :=
  if 0 <=? e then inject_Z (Zpos m * 2 ^ e) else Zpos m # Z.to_pos (2 ^ (- e)).

(** The integer nearest to a rational that is not negative, the larger
    one on a tie. *)
Definition nearestInteger (q : Q) : Z := Qfloor (q + (1 # 2)).

(** The spec's "rounded to 2 decimals" of an amount: the exact value of
    the amount is taken to the nearest whole number of cents, the half
    cent upwards in magnitude, and the outcome is the binary64 number
    nearest to that many hundredths, with the sign of the amount.  From
    [2^46] on, neighbouring binary64 numbers are more than a cent apart
    and the amount is its own rounding, as an infinite or undefined
    amount is. *)
Definition roundedTo2 (x : float) : float :=
  match Prim2SF x with
  | S754_zero _ => 0%float
  | S754_finite s m e =>
      let a := magnitude m e in
      if Qle_bool (inject_Z (2 ^ 46)) a then x
      else
        let cents := nearestInteger (100 * a) in
        let r := Q2float (cents # 100) in
        if s then PrimFloat.opp r else r
  | _ => x
  end.

(** The spec's steps 4 to 11 for one employee; [workingDays] is the
    outcome of steps 1 to 3. *)
Definition summarize_steps (attendance : list AttendanceRecord) (month : string)
    (limit workingDays : Z) (f : FacultyRecord) : MonthlySummary :=
  let mine r := (inMonth month r && bool_decide (ar_empId r = empId f))%bool in
  let presentDays :=
    count (λ r, mine r && negb (bool_decide (ar_status r = Absent)))%bool attendance in
  let absentDays := Z.max 0 (workingDays - presentDays) in
  let casualLeavesUsed := Z.min absentDays (orZero (casualLeaves f)) in
  let unpaidLeave := absentDays - casualLeavesUsed in
  let lateCount := count (λ r, mine r && bool_decide (ar_status r = Late))%bool attendance in
  let permissions := Z.min lateCount limit in
  let halfDayLeaves := Z.max 0 (lateCount - limit) in
  let totalLeaves := Qred (inject_Z unpaidLeave + inject_Z halfDayLeaves * (1 # 2))%Q in
  let payableDays := Qred (Qmax 0 (inject_Z workingDays - totalLeaves))%Q in
  let calculatedSalary :=
    roundedTo2 (if 0 <? workingDays
                then PrimFloat.mul (PrimFloat.div (Q2float payableDays) (Z2float workingDays))
                       (orZeroF (salary f))
                else 0%float) in
  mkMonthlySummary (empId f) (name f) (dept f) (designation f) (salary f)
    presentDays permissions halfDayLeaves (orZero (casualLeaves f)) casualLeavesUsed
    unpaidLeave totalLeaves payableDays calculatedSalary.

(** The row is charged: it uses casual leave. *)
Definition charged (r : MonthlySummary) : bool := 0 <? casualLeavesUsed r.

(** The balance [finalizeAndDeductCLs] writes for a row. *)
Definition newBalance (r : MonthlySummary) : Z :=
  casualLeavesAvailable r - casualLeavesUsed r.

(** The balance stored for an employee; [None]: no number stored. *)
Definition storedBalance (d : Db) (e : Z) : option Z := faculty d !! e ≫= casualLeaves.

(** The record of a charged row's employee after the in-memory deduction. *)
Definition deducted (used : Z) (f : FacultyRecord) : FacultyRecord :=
  mkFacultyRecord (empId f)
    (mkFacultyNode (name f) (dept f) (designation f) (salary f)
       ((λ c, c - used) <$> casualLeaves f)).

End SummaryData.

(* ===================================================================== *)
(** ** [useLeaveApprovalData] of [hooks/useLeaveApprovalData.ts] *)

Module LeaveApproval.

(** The [useState] cells of the hook. *)
Record State := mkState {
  leaveApplications : list LeaveApplicationRecord;
  error : option string;
  loading : bool
}.

Definition setLeaveApplications
    (f : list LeaveApplicationRecord → list LeaveApplicationRecord) : Eff State unit :=
  setState (λ s, mkState (f (leaveApplications s)) (error s) (loading s)).

(** [prev.map(app => app.id === leaveId ? { ...app, status } : app)] *)
Definition markStatus (leaveId : string) (s : LeaveStatus)
    (prev : list LeaveApplicationRecord) : list LeaveApplicationRecord :=
  (λ app, if String.eqb (la_id app) leaveId then setStatus s app else app) <$> prev.

Definition approveLeave (leaveId : string) : Eff State unit :=
  s <- getState ;;
  let originalApplications := leaveApplications s in
  setLeaveApplications (markStatus leaveId Approved) ;;
  tryCatch
    (fb_update [SetLeaveStatus leaveId Approved])
    (λ _, setLeaveApplications (λ _, originalApplications) ;;
          throw "Failed to approve leave. Please try again.").

(** The [while (current <= last)] loop of [rejectLeave]; [fuel] bounds
    its iterations.  A comparison with an invalid date is false. *)
Fixpoint rejectLoop (fuel : nat) (e : Z) (current last : option Z)
    (updates : list DbWrite) : list DbWrite :=
  match current, last with
  | Some c, Some l =>
      if c <=? l then
        match fuel with
        | O => updates
        | S fuel' =>
            let dateString := JSDate.toISODate c in
            rejectLoop fuel' e (JSDate.setUTCDate c (JSDate.getUTCDate c + 1)) last
              (updates ++ [RemoveAttendance e dateString])
        end
      else updates
  | _, _ => updates
  end.

(** One more than the whole days from [current] to [last]: the loop
    advances by a day each time (lemma [rejectLoop_fuel]), so it never
    runs out of this fuel. *)
Definition rejectFuel (current last : option Z) : nat :=
  match current, last with
  | Some c, Some l => Z.to_nat ((l - c) / JSDate.msPerDay + 1)
  | _, _ => O
  end.

(** [updates] when [update(ref(db), updates)] is reached. *)
Definition rejectUpdates (leaveId : string) (leaveApp : LeaveApplicationRecord)
    : list DbWrite :=
  let updates := [SetLeaveStatus leaveId Rejected] in
  let startParts := JSDate.Number_ <$> JSDate.split "-" (startDate leaveApp) in
  let endParts := JSDate.Number_ <$> JSDate.split "-" (endDate leaveApp) in
  let current :=
    JSDate.UTC (JSDate.part startParts 0) ((λ m, m - 1) <$> JSDate.part startParts 1)
      (JSDate.part startParts 2) in
  let last :=
    JSDate.UTC (JSDate.part endParts 0) ((λ m, m - 1) <$> JSDate.part endParts 1)
      (JSDate.part endParts 2) in
  rejectLoop (rejectFuel current last) (la_empId leaveApp) current last updates.

Definition rejectLeave (leaveId : string) : Eff State unit :=
  s <- getState ;;
  let originalApplications := leaveApplications s in
  setLeaveApplications (markStatus leaveId Rejected) ;;
  tryCatch
    (match List.find (λ app, String.eqb (la_id app) leaveId) originalApplications with
     | None => throw "Leave application not found."
     | Some leaveApp => fb_update (rejectUpdates leaveId leaveApp)
     end)
    (λ _, setLeaveApplications (λ _, originalApplications) ;;
          throw "Failed to reject leave. Please try again.").

(** *** Notions used in the statements *)

(** The deletions of [n] consecutive days from time [c] on. *)
Definition dayRemovals (e : Z) (c : Z) (n : nat) : list DbWrite :=
  (λ k : nat, RemoveAttendance e (JSDate.toISODate (c + Z.of_nat k * JSDate.msPerDay))) <$> seq 0 n.

End LeaveApproval.

(* ===================================================================== *)
(** ** [useFacultyDetailData], the hook of the faculty detail page *)

Module FacultyDetail.

(* The collections of the database, before the state cells of the same
   names. *)
Local Abbreviation db_faculty := faculty.
Local Abbreviation db_attendance := attendance.
Local Abbreviation db_leaveApplications := leaveApplications.

(** The [useState] cells of the hook. *)
Record State := mkState {
  faculty : option FacultyRecord;
  attendance : list AttendanceRecord;
  leaveApplications : list LeaveApplicationRecord;
  loading : bool;
  error : option string;
  selectedMonth : string
}.

Definition setFaculty (f : option FacultyRecord) : Eff State unit :=
  setState (λ s, mkState f (attendance s) (leaveApplications s) (loading s) (error s)
                   (selectedMonth s)).
Definition setAttendance (a : list AttendanceRecord) : Eff State unit :=
  setState (λ s, mkState (faculty s) a (leaveApplications s) (loading s) (error s)
                   (selectedMonth s)).
Definition setLeaveApplications (l : list LeaveApplicationRecord) : Eff State unit :=
  setState (λ s, mkState (faculty s) (attendance s) l (loading s) (error s)
                   (selectedMonth s)).
Definition setLoading (b : bool) : Eff State unit :=
  setState (λ s, mkState (faculty s) (attendance s) (leaveApplications s) b (error s)
                   (selectedMonth s)).
Definition setError (e : option string) : Eff State unit :=
  setState (λ s, mkState (faculty s) (attendance s) (leaveApplications s) (loading s) e
                   (selectedMonth s)).

(** What the host decides: its time zone, and the two orders by
    [localeCompare] (attendance by date, leaves by start date, both
    descending). *)
Record Host := mkHost {
  tz : JSDate.TimeZone;
  sortAttendance : list AttendanceRecord → list AttendanceRecord;
  sortLeaves : list LeaveApplicationRecord → list LeaveApplicationRecord
}.

(** [await Promise.all([get(a), get(b), get(c)])]: the three reads are
    issued together; the first rejection is thrown. *)
Definition getAll3 {A B C} (pa pb pc : string) (va : Db → A) (vb : Db → B) (vc : Db → C)
    : Eff State (A * B * C) :=
  λ s w,
    let w' := mkWorld (db w) (drop 3 (net w)) (log w ++ [Get pa; Get pb; Get pc]) in
    match List.find (λ v : option string, bool_decide (is_Some v)) (take 3 (net w)) with
    | Some (Some msg) => (Throw msg, s, w')
    | _ => (Ok (va (db w), vb (db w), vc (db w)), s, w')
    end.

(** The records of a leave node that [filter(leave => leave.empId ===
    empId)] keeps. *)
Definition leavesOf (e : Z) (leaves : gmap string LeaveNode) : list LeaveApplicationRecord :=
  omap (λ '(_, n), match n with
                   | FullLeave r => if la_empId r =? e then Some r else None
                   | StatusOnly _ => None
                   end)
       (map_to_list leaves).

Definition fetchData (h : Host) (e : Z) : Eff State unit :=
  if e =? 0 then ret tt else
  setLoading true ;;
  setError None ;;
  tryCatch
    (snaps <- getAll3 ("faculty/" +:+ pretty e)
                ("attendance/" +:+ pretty e +:+ "/records") "leaveApplications"
                (λ d, db_faculty d !! e)
                (λ d, default ∅ (db_attendance d !! e))
                db_leaveApplications ;;
     let '(facultySnap, records, leaves) := snaps in
     match facultySnap with
     | None => throw "Faculty member not found."
     | Some n =>
         setFaculty (Some (mkFacultyRecord e n)) ;;
         setAttendance
           (sortAttendance h
              ((λ '(day, r), mkAttendanceRecord (day +:+ "-" +:+ pretty e) e (name n) (dept n)
                               day (inTime r) (status r) (leaveApplicationId r))
                 <$> map_to_list records)) ;;
         setLeaveApplications (sortLeaves h (leavesOf e leaves))
     end)
    (λ _, setError (Some "Failed to load data for this faculty member.")) ;;
  setLoading false.

(** The [while (current <= end)] loop of [deleteLeave]; it steps by a
    local calendar day.  [None]: not finished within [fuel] iterations. *)
Fixpoint deleteLoop (z : JSDate.TimeZone) (fuel : nat) (e : Z) (current end_ : option Z)
    (updates : list DbWrite) : option (list DbWrite) :=
  match current, end_ with
  | Some c, Some l =>
      if c <=? l then
        match fuel with
        | O => None
        | S fuel' =>
            let d := JSDate.toISODate c in
            deleteLoop z fuel' e (JSDate.setDate z c (JSDate.getDate z c + 1)) end_
              (updates ++ [RemoveAttendance e d])
        end
      else Some updates
  | _, _ => Some updates
  end.

(** [updates] when [update(ref(db), updates)] is reached. *)
Definition deleteUpdates (z : JSDate.TimeZone) (fuel : nat) (e : Z)
    (leave : LeaveApplicationRecord) : option (list DbWrite) :=
  let updates := [RemoveLeave (la_id leave)] in
  let start := JSDate.parse (startDate leave) in
  let end_ := JSDate.parse (endDate leave) in
  let current := start in
  deleteLoop z fuel e current end_ updates.

Definition deleteFailed : string := "Failed to delete leave. Please try again.".

(** [deleteLeave] of the hook for employee [e].  [None]: the loop did not
    finish within [fuel] iterations. *)
Definition deleteLeave (h : Host) (fuel : nat) (e : Z) (leave : LeaveApplicationRecord)
    : State → World → option (Result unit * State * World) :=
  λ s w,
    if e =? 0 then Some (Ok tt, s, w)
    else
      updates ← deleteUpdates (tz h) fuel e leave;
      Some (tryCatch
              (setError None ;;
               fb_update updates ;;
               fetchData h e)
              (λ _, setError (Some deleteFailed) ;; throw deleteFailed)
              s w).

End FacultyDetail.

(* ===================================================================== *)
(** ** Handlers of the other components

    The components below issue calls that the handlers above do not
    ([set] of a whole node, [remove], reads of other collections).  Their
    handlers have the same shape: the state of the component, a server
    holding the data, the verdicts of the coming calls and the calls
    issued so far. *)

Module Act.

Record Server (D C : Type) := mkServer {
  data : D;
  verdicts : list (option string);
  calls : list C
}.
Arguments mkServer {D C} data verdicts calls.
Arguments data {D C} s.
Arguments verdicts {D C} s.
Arguments calls {D C} s.

(** The verdict of the next call: [Some msg] when it rejects. *)
Definition next {D C} (v : Server D C) : option string := mjoin (head (verdicts v)).

Definition Act (D C St A : Type) : Type :=
  St → Server D C → Result A * St * Server D C.

Section Act.
Context {D C St : Type}.

Definition ret {A} (a : A) : Act D C St A := λ s v, (Ok a, s, v).

Definition bind {A B} (m : Act D C St A) (k : A → Act D C St B) : Act D C St B :=
  λ s v, match m s v with
         | (Ok a, s', v') => k a s' v'
         | (Throw e, s', v') => (Throw e, s', v')
         end.

Definition throw {A} (msg : string) : Act D C St A := λ s v, (Throw msg, s, v).

(** [try { m } catch (err) { h(err.message) }] *)
Definition tryCatch {A} (m : Act D C St A) (h : string → Act D C St A) : Act D C St A :=
  λ s v, match m s v with
         | (Throw e, s', v') => h e s' v'
         | r => r
         end.

(** [try { m } finally { f }]: [f] runs whatever the outcome of [m], which
    is then the outcome of the whole. *)
Definition finally {A} (m : Act D C St A) (f : Act D C St unit) : Act D C St A :=
  λ s v, match m s v with
         | (r, s', v') =>
             match f s' v' with
             | (Ok _, s'', v'') => (r, s'', v'')
             | (Throw e, s'', v'') => (Throw e, s'', v'')
             end
         end.

Definition getState : Act D C St St := λ s v, (Ok s, s, v).

Definition setState (f : St → St) : Act D C St unit := λ s v, (Ok tt, f s, v).

(** [await call]: the call is recorded and the next verdict consumed; a
    resolved call applies [effect] and answers [reply] of the data it
    found, a rejected one applies nothing. *)
Definition await {A} (c : C) (effect : D → D) (reply : D → A) : Act D C St A :=
  λ s v,
    match next v with
    | Some msg => (Throw msg, s, mkServer (data v) (tail (verdicts v)) (calls v ++ [c]))
    | None =>
        (Ok (reply (data v)), s,
         mkServer (effect (data v)) (tail (verdicts v)) (calls v ++ [c]))
    end.

(** [await Promise.all([a, b, c])] of three reads issued together: the
    first rejection is thrown. *)
Definition awaitAll3 {A1 A2 A3} (c1 c2 c3 : C)
    (r1 : D → A1) (r2 : D → A2) (r3 : D → A3) : Act D C St (A1 * A2 * A3) :=
  λ s v,
    let v' := mkServer (data v) (drop 3 (verdicts v)) (calls v ++ [c1; c2; c3]) in
    match List.find (λ x : option string, bool_decide (is_Some x)) (take 3 (verdicts v)) with
    | Some (Some msg) => (Throw msg, s, v')
    | _ => (Ok (r1 (data v), r2 (data v), r3 (data v)), s, v')
    end.

End Act.

End Act.

Declare Scope act_scope.
Delimit Scope act_scope with act.
Notation "x <- m ;; k" := (Act.bind m (λ x, k))
  (at level 100, m at next level, right associativity) : act_scope.
Notation "m ;; k" := (Act.bind m (λ _, k))
  (at level 100, right associativity) : act_scope.

(** The calendar date of a time value. *)
Definition civilOf (t : Z) : JSDate.Civil :=
  JSDate.mkCivil (JSDate.YearFromTime t) (JSDate.MonthFromTime t + 1) (JSDate.DateFromTime t).

(** [Array.prototype.sort(compare)]: the sort is stable, and for a
    consistent comparison the result is the one that inserting the
    elements from the last to the first, each before the first element
    it does not come after, arrives at. *)
Fixpoint insertBy {A} (compare : A → A → Z) (x : A) (l : list A) : list A :=
  match l with
  | [] => [x]
  | y :: l' => if compare x y <=? 0 then x :: l else y :: insertBy compare x l'
  end.

Definition sortBy {A} (compare : A → A → Z) (l : list A) : list A :=
  foldr (insertBy compare) [] l.

(* ===================================================================== *)
(** ** [useFacultyData] of [hooks/useFacultyData.ts] *)

Module FacultyData.
Import Act.
Local Open Scope act_scope.

(** The calls of the hook:
    - [GetFaculty]       is  [get(ref(db, 'faculty'))];
    - [SetFaculty e n]   is  [set(ref(db, `faculty/${e}`), n)];
    - [DeleteFaculty e]  is  [update(ref(db), updates)] with
      [updates[`faculty/${e}`] = null] and [updates[`attendance/${e}`] = null]. *)
Inductive Call :=
| GetFaculty
| SetFaculty (e : Z) (n : FacultyNode)
| DeleteFaculty (e : Z).

Definition effect (c : Call) (d : Db) : Db :=
  match c with
  | GetFaculty => d
  | SetFaculty e n =>
      mkDb (<[e := n]> (faculty d)) (attendance d) (leaveApplications d)
           (monthlyAllocations d)
  | DeleteFaculty e =>
      mkDb (delete e (faculty d)) (delete e (attendance d)) (leaveApplications d)
           (monthlyAllocations d)
  end.

(** The [useState] cells of the hook. *)
Record State := mkState {
  facultyList : list FacultyRecord;
  error : option string;
  loading : bool
}.

Definition setFacultyList (f : list FacultyRecord → list FacultyRecord)
    : Act Db Call State unit :=
  setState (λ s, mkState (f (facultyList s)) (error s) (loading s)).
Definition setError (e : option string) : Act Db Call State unit :=
  setState (λ s, mkState (facultyList s) e (loading s)).
Definition setLoading (b : bool) : Act Db Call State unit :=
  setState (λ s, mkState (facultyList s) (error s) b).

(** What the host and the client library decide:
    [l.sort((a, b) => a.name.localeCompare(b.name))] on a copy of the list,
    for records that have a name, and the message of the error with which
    [set] refuses a value.  Lists with a record that has no name, on which
    the comparison throws, are outside the model. *)
Record Host := mkHost {
  sortByName : list FacultyRecord → list FacultyRecord;
  refusal : FacultyNode → string
}.

Definition send (c : Call) : Act Db Call State unit := await c (effect c) (λ _, tt).

(** [set] validates the value before any call is made: it throws for a
    property whose value is [undefined] and for a number that is not
    finite; a key that the object lacks is nothing to refuse.

    [addFaculty] writes an object literal that names every key, so that a
    field which [newFaculty] lacks is a property whose value is
    [undefined]: its node is stored when every field is there. *)
Definition storable (n : FacultyNode) : bool :=
  bool_decide (is_Some (name n)) && bool_decide (is_Some (dept n))
  && bool_decide (is_Some (designation n))
  && match salary n with Some x => PrimFloat.is_finite x | None => false end
  && bool_decide (is_Some (casualLeaves n)).

(** [updateFaculty] passes on the object it was given, where a field that
    is missing is a key that the object lacks: the object is stored when
    the number it holds is finite. *)
Definition finiteNumbers (n : FacultyNode) : bool :=
  match salary n with Some x => PrimFloat.is_finite x | None => true end.

(** [set(ref(db, `faculty/${e}`), { name: ..., ... })] of [addFaculty] *)
Definition setFaculty (h : Host) (e : Z) (n : FacultyNode) : Act Db Call State unit :=
  if storable n then send (SetFaculty e n) else throw (refusal h n).

(** [set(ref(db, `faculty/${e}`), dataToUpdate)] of [updateFaculty] *)
Definition setFacultyData (h : Host) (e : Z) (n : FacultyNode) : Act Db Call State unit :=
  if finiteNumbers n then send (SetFaculty e n) else throw (refusal h n).

Definition fetchData (h : Host) : Act Db Call State unit :=
  setLoading true ;;
  setError None ;;
  finally
    (tryCatch
       (data <- await GetFaculty id faculty ;;
        if decide (data = ∅) then setFacultyList (λ _, [])
        else
          let loadedFaculty := (λ '(e, n), mkFacultyRecord e n) <$> map_to_list data in
          setFacultyList (λ _, sortByName h loadedFaculty))
       (λ _, setError (Some "Failed to load faculty data.")))
    (setLoading false).

Definition alreadyExists (e : Z) : string :=
  "Faculty with Employee ID " +:+ pretty e +:+ " already exists.".

Definition addFaculty (h : Host) (newFaculty : FacultyRecord) : Act Db Call State unit :=
  s <- getState ;;
  if existsb (λ f, empId f =? empId newFaculty) (facultyList s)
  then setError (Some (alreadyExists (empId newFaculty)))
  else
    setLoading true ;;
    setError None ;;
    finally
      (tryCatch
         (setFaculty h (empId newFaculty)
            (mkFacultyNode (name newFaculty) (dept newFaculty) (designation newFaculty)
               (salary newFaculty) (Some (orZero (casualLeaves newFaculty)))) ;;
          setFacultyList (λ prev, sortByName h (prev ++ [newFaculty])))
         (λ _, setError (Some "Failed to add faculty member.")))
      (setLoading false).

Definition updateFaculty (h : Host) (e : Z) (dataToUpdate : FacultyNode)
    : Act Db Call State unit :=
  setLoading true ;;
  setError None ;;
  finally
    (tryCatch
       (setFacultyData h e dataToUpdate ;;
        setFacultyList
          (λ prev, sortByName h
                     ((λ f, if empId f =? e then mkFacultyRecord e dataToUpdate else f)
                        <$> prev)))
       (λ err, setError (Some "Failed to update faculty member.") ;; throw err))
    (setLoading false).

Definition deleteFaculty (e : Z) : Act Db Call State unit :=
  setLoading true ;;
  setError None ;;
  finally
    (tryCatch
       (send (DeleteFaculty e) ;;
        setFacultyList (λ prev, List.filter (λ f, negb (empId f =? e)) prev))
       (λ err, setError (Some "Failed to delete faculty member.") ;; throw err))
    (setLoading false).

End FacultyData.

(* ===================================================================== *)
(** ** [ManualAttendance] of [components/MonthlyActions.tsx] *)

Module ManualAttendance.
Import Act.
Local Open Scope act_scope.

(** [FacultyWithAttendance]: a faculty record with the status of the day
    ([None]: 'Not Marked') and the time of arrival, when there is one. *)
Record Row := mkRow {
  member : FacultyRecord;
  row_status : option AttendanceStatus;
  row_inTime : option string
}.

(** The calls of the component:
    - [GetFaculty], [GetAttendance]  are the two reads of [fetchDataForDate];
    - [SetStatus e day st]     is  [set(ref(db, `${recordPath}/status`), st)];
    - [SetRecord e day st t]   is  [set(ref(db, recordPath), { status: st, inTime: t })];
    with [recordPath] the path [attendance/${e}/records/${day}]. *)
Inductive Call :=
| GetFaculty
| GetAttendance
| SetStatus (e : Z) (day : string) (st : AttendanceStatus)
| SetRecord (e : Z) (day : string) (st : AttendanceStatus) (t : string).

(** A status written below a record that does not exist creates a record
    with that single child; the typed record of the model shows its
    missing time of arrival as the empty string. *)
Definition writeStatus (st : AttendanceStatus) (o : option AttendanceNode)
    : option AttendanceNode :=
  Some match o with
       | Some n => mkAttendanceNode (inTime n) st (leaveApplicationId n)
       | None => mkAttendanceNode "" st None
       end.

Definition effect (c : Call) (d : Db) : Db :=
  match c with
  | GetFaculty | GetAttendance => d
  | SetStatus e day st =>
      mkDb (faculty d)
           (partial_alter (λ o, Some (partial_alter (writeStatus st) day (default ∅ o)))
              e (attendance d))
           (leaveApplications d) (monthlyAllocations d)
  | SetRecord e day st t =>
      mkDb (faculty d)
           (partial_alter (λ o, Some (<[day := mkAttendanceNode t st None]> (default ∅ o)))
              e (attendance d))
           (leaveApplications d) (monthlyAllocations d)
  end.

(** The [useState] cells of the component, and the messages it has shown
    with [alert]. *)
Record State := mkState {
  selectedDate : string;
  loading : bool;
  facultyWithAttendance : list Row;
  updatingStatus : gmap Z bool;
  error : option string;
  alerts : list string
}.

Definition setLoading (b : bool) : Act Db Call State unit :=
  setState (λ s, mkState (selectedDate s) b (facultyWithAttendance s) (updatingStatus s)
                   (error s) (alerts s)).
Definition setFacultyWithAttendance (f : list Row → list Row) : Act Db Call State unit :=
  setState (λ s, mkState (selectedDate s) (loading s) (f (facultyWithAttendance s))
                   (updatingStatus s) (error s) (alerts s)).
Definition setUpdatingStatus (f : gmap Z bool → gmap Z bool) : Act Db Call State unit :=
  setState (λ s, mkState (selectedDate s) (loading s) (facultyWithAttendance s)
                   (f (updatingStatus s)) (error s) (alerts s)).
Definition setError (e : option string) : Act Db Call State unit :=
  setState (λ s, mkState (selectedDate s) (loading s) (facultyWithAttendance s)
                   (updatingStatus s) e (alerts s)).
Definition alert (msg : string) : Act Db Call State unit :=
  setState (λ s, mkState (selectedDate s) (loading s) (facultyWithAttendance s)
                   (updatingStatus s) (error s) (alerts s ++ [msg])).

(** What the host decides: [a.name.localeCompare(b.name)], a consistent
    comparison of names.  Records without a name, on which the
    comparison throws, are outside the model. *)
Record Host := mkHost {
  localeCompare : option string → option string → Z
}.

(** [sortOrder] *)
Definition sortOrder (st : option AttendanceStatus) : Z :=
  match st with
  | None => 1
  | Some Late => 2
  | Some OnTime => 3
  | Some Absent => 4
  | Some OnDuty => 5
  end.

(** The comparison handed to [merged.sort]. *)
Definition compareRows (h : Host) (a b : Row) : Z :=
  let aOrder := sortOrder (row_status a) in
  let bOrder := sortOrder (row_status b) in
  if negb (aOrder =? bOrder) then aOrder - bOrder
  else localeCompare h (name (member a)) (name (member b)).

(** The row of a faculty member in [merged]. *)
Definition merge (date : string) (attendanceData : gmap Z (gmap string AttendanceNode))
    (f : FacultyRecord) : Row :=
  match attendanceData !! empId f ≫= (λ records, records !! date) with
  | Some record => mkRow f (Some (status record)) (Some (inTime record))
  | None => mkRow f None None
  end.

Definition fetchDataForDate (h : Host) (date : string) : Act Db Call State unit :=
  setLoading true ;;
  setError None ;;
  tryCatch
    (facultyData <- await GetFaculty id faculty ;;
     attendanceData <- await GetAttendance id attendance ;;
     if decide (facultyData = ∅) then throw "No faculty data found in the database." else
     let facultyList := (λ '(e, n), mkFacultyRecord e n) <$> map_to_list facultyData in
     let merged := merge date attendanceData <$> facultyList in
     setFacultyWithAttendance (λ _, sortBy (compareRows h) merged))
    (λ msg, setError (Some msg)) ;;
  setLoading false.

Inductive Mark := Present | Leave | OnDuty_.

(** The [switch (markAs)] of [handleMarkAttendance]. *)
Definition newStatus (markAs : Mark) : AttendanceStatus :=
  match markAs with
  | Present => OnTime
  | Leave => Absent
  | OnDuty_ => OnDuty
  end.

Definition newInTime (markAs : Mark) : string :=
  match markAs with Present => "08:00:00" | _ => "00:00:00" end.

Definition alertText : string := "Failed to update attendance. Check console for details.".

Definition handleMarkAttendance (e : Z) (markAs : Mark) : Act Db Call State unit :=
  s <- getState ;;
  setUpdatingStatus (<[e := true]>) ;;
  match List.find (λ f, empId (member f) =? e) (facultyWithAttendance s) with
  | None => setUpdatingStatus (<[e := false]>)
  | Some current =>
      tryCatch
        (if bool_decide (row_status current = Some Late) then
           await (SetStatus e (selectedDate s) (newStatus markAs))
                 (effect (SetStatus e (selectedDate s) (newStatus markAs))) (λ _, tt) ;;
           setFacultyWithAttendance
             (λ prev, (λ f, if empId (member f) =? e
                            then mkRow (member f) (Some (newStatus markAs)) (row_inTime f)
                            else f) <$> prev)
         else
           await (SetRecord e (selectedDate s) (newStatus markAs) (newInTime markAs))
                 (effect (SetRecord e (selectedDate s) (newStatus markAs) (newInTime markAs)))
                 (λ _, tt) ;;
           setFacultyWithAttendance
             (λ prev, (λ f, if empId (member f) =? e
                            then mkRow (member f) (Some (newStatus markAs))
                                   (Some (newInTime markAs))
                            else f) <$> prev))
        (λ _, alert alertText) ;;
      setUpdatingStatus (<[e := false]>)
  end.

(** *** Notions used in the statements *)

(** The call that [handleMarkAttendance] issues for a listed employee. *)
Definition markingCall (e : Z) (markAs : Mark) (s : State) (current : Row) : Call :=
  if bool_decide (row_status current = Some Late)
  then SetStatus e (selectedDate s) (newStatus markAs)
  else SetRecord e (selectedDate s) (newStatus markAs) (newInTime markAs).

End ManualAttendance.

(* ===================================================================== *)
(** ** [useHolidays] of [hooks/useLeaveApprovalData.ts] *)

Module Holidays.
Import Act.
Local Open Scope act_scope.

(** The value stored under [holidays/{id}]: a holiday without its id.  A
    child written below a node that does not exist creates the node with
    that single child, so either field may be missing. *)
Record Node := mkNode {
  node_date : option string;
  node_description : option string
}.

(** The calls of the hook:
    - [SetHoliday id date text]  is  [set(ref(db, `holidays/${id}`), newHoliday)];
    - [UpdateHoliday id text]    is  [update(ref(db, `holidays/${id}`), dataToUpdate)];
    - [RemoveHoliday id]         is  [remove(ref(db, `holidays/${id}`))]. *)
Inductive Call :=
| SetHoliday (id : string) (date text : string)
| UpdateHoliday (id : string) (text : string)
| RemoveHoliday (id : string).

Definition effect (c : Call) (d : gmap string Node) : gmap string Node :=
  match c with
  | SetHoliday id date text => <[id := mkNode (Some date) (Some text)]> d
  | UpdateHoliday id text =>
      partial_alter (λ o, Some (mkNode (o ≫= node_date) (Some text))) id d
  | RemoveHoliday id => delete id d
  end.

(** The [useState] cells of the hook. *)
Record State := mkState {
  holidays : list Holiday;
  error : option string;
  loading : bool
}.

Definition setHolidays (f : list Holiday → list Holiday)
    : Act (gmap string Node) Call State unit :=
  setState (λ s, mkState (f (holidays s)) (error s) (loading s)).
Definition setError (e : option string) : Act (gmap string Node) Call State unit :=
  setState (λ s, mkState (holidays s) e (loading s)).

(** What the host decides: [l.sort((a, b) => a.date.localeCompare(b.date))]
    on a copy of the list. *)
Record Host := mkHost {
  sortByDate : list Holiday → list Holiday
}.

Definition send (c : Call) : Act (gmap string Node) Call State unit :=
  await c (effect c) (λ _, tt).

Definition alreadyExists (holidayId : string) : string :=
  "A holiday for the date " +:+ holidayId +:+ " already exists.".

(** [addHoliday(newHoliday)] with [newHoliday = { date, description }]. *)
Definition addHoliday (h : Host) (date text : string)
    : Act (gmap string Node) Call State unit :=
  s <- getState ;;
  setError None ;;
  let holidayId := date in
  if existsb (λ x, String.eqb (h_id x) holidayId) (holidays s) then
    let msg := alreadyExists holidayId in
    setError (Some msg) ;; throw msg
  else
    tryCatch
      (send (SetHoliday holidayId date text) ;;
       setHolidays (λ prev, sortByDate h (prev ++ [mkHoliday holidayId date text])))
      (λ err, setError (Some "Failed to add holiday.") ;; throw err).

(** [updateHoliday(holidayId, dataToUpdate)] with
    [dataToUpdate = { description }]. *)
Definition updateHoliday (h : Host) (holidayId : string) (text : string)
    : Act (gmap string Node) Call State unit :=
  setError None ;;
  tryCatch
    (send (UpdateHoliday holidayId text) ;;
     setHolidays
       (λ prev, sortByDate h
                  ((λ holiday, if String.eqb (h_id holiday) holidayId
                               then mkHoliday (h_id holiday) (h_date holiday) text
                               else holiday) <$> prev)))
    (λ err, setError (Some "Failed to update holiday.") ;; throw err).

Definition deleteHoliday (holidayId : string) : Act (gmap string Node) Call State unit :=
  setError None ;;
  tryCatch
    (send (RemoveHoliday holidayId) ;;
     setHolidays (λ prev, List.filter (λ x, negb (String.eqb (h_id x) holidayId)) prev))
    (λ err, setError (Some "Failed to delete holiday.") ;; throw err).

End Holidays.

(* ===================================================================== *)
(** ** [SettingsProvider] of [components/SettingsContext.tsx] *)

Module Settings.
Import Act.
Local Open Scope act_scope.

Record Settings := mkSettings {
  onTimeThreshold : string;
  permissionLimit : Z;
  accountCreationEnabled : bool;
  userAccountRequestEnabled : bool
}.

Definition DEFAULT_SETTINGS : Settings := mkSettings "08:15:00" 2 true true.

(** The value stored under [settings]; any of its keys may be missing. *)
Record Stored := mkStored {
  st_onTimeThreshold : option string;
  st_permissionLimit : option Z;
  st_accountCreationEnabled : option bool;
  st_userAccountRequestEnabled : option bool
}.

(** [{ ...base, ...stored }] *)
Definition spread (base : Settings) (stored : Stored) : Settings :=
  mkSettings (default (onTimeThreshold base) (st_onTimeThreshold stored))
    (default (permissionLimit base) (st_permissionLimit stored))
    (default (accountCreationEnabled base) (st_accountCreationEnabled stored))
    (default (userAccountRequestEnabled base) (st_userAccountRequestEnabled stored)).

Definition store (s : Settings) : Stored :=
  mkStored (Some (onTimeThreshold s)) (Some (permissionLimit s))
    (Some (accountCreationEnabled s)) (Some (userAccountRequestEnabled s)).

(** The calls of the provider: [get(ref(db, "settings"))] and
    [set(ref(db, "settings"), newSettings)]. *)
Inductive Call :=
| GetSettings
| SetSettings (s : Settings).

Definition effect (c : Call) (d : option Stored) : option Stored :=
  match c with
  | GetSettings => d
  | SetSettings s => Some (store s)
  end.

(** The [useState] cells of the provider. *)
Record State := mkState {
  settings : Settings;
  loading : bool;
  error : option string
}.

Definition setSettings (x : Settings) : Act (option Stored) Call State unit :=
  setState (λ s, mkState x (loading s) (error s)).
Definition setLoading (b : bool) : Act (option Stored) Call State unit :=
  setState (λ s, mkState (settings s) b (error s)).
Definition setError (e : option string) : Act (option Stored) Call State unit :=
  setState (λ s, mkState (settings s) (loading s) e).

Definition fetchSettings : Act (option Stored) Call State unit :=
  setLoading true ;;
  setError None ;;
  finally
    (tryCatch
       (settingsSnapshot <- await GetSettings id id ;;
        match settingsSnapshot with
        | Some val => setSettings (spread DEFAULT_SETTINGS val)
        | None => setSettings DEFAULT_SETTINGS
        end)
       (λ _, setError (Some "Failed to load settings. Using defaults.") ;;
             setSettings DEFAULT_SETTINGS))
    (setLoading false).

Definition updateSettings (newSettings : Settings) : Act (option Stored) Call State unit :=
  setLoading true ;;
  setError None ;;
  finally
    (tryCatch
       (await (SetSettings newSettings) (effect (SetSettings newSettings)) (λ _, tt) ;;
        setSettings newSettings)
       (λ err, setError (Some "Failed to save settings.") ;; throw err))
    (setLoading false).

End Settings.

(* ===================================================================== *)
(** ** [useAttendanceData] of [hooks/useLeaveApprovalData.ts] *)

Module AttendanceData.

(** The value of a sheet cell as [XLSX.utils.sheet_to_json] gives it, and
    [undefined], the value of a key that the row does not have. *)
Inductive Cell :=
| Num (x : float)
| Str (s : string)
| Bool (b : bool)
| Blank.

Definition truthy (c : Cell) : bool :=
  match c with
  | Num x => negb (PrimFloat.is_nan x || PrimFloat.is_zero x)
  | Str s => negb (String.eqb s "")
  | Bool b => b
  | Blank => false
  end.

(** [a || b] *)
Definition or_ (a b : Cell) : Cell := if truthy a then a else b.

(** What the host and the spreadsheet library decide:
    [key.toLowerCase().replace(/\s/g, '')], [XLSX.SSF.format('HH:mm:ss', x)]
    and the rendering of a number inside a template literal. *)
Record Host := mkHost {
  normalizeKey : string → string;
  formatTime : float → string;
  numberToString : float → string
}.

(** [`${c}`] *)
Definition toString (h : Host) (c : Cell) : string :=
  match c with
  | Num x => numberToString h x
  | Str s => s
  | Bool true => "true"
  | Bool false => "false"
  | Blank => "undefined"
  end.

Definition isDigit (c : ascii) : bool :=
  let n := N_of_ascii c in ((48 <=? n) && (n <=? 57))%N.

(** [/:\d{2}$/] at the start of [s]: a colon and two digits, then the end. *)
Definition minutesToEnd (s : string) : bool :=
  match s with
  | String c (String d1 (String d2 EmptyString)) =>
      Ascii.eqb c ":" && isDigit d1 && isDigit d2
  | _ => false
  end.

(** [/^\d{1,2}:\d{2}$/.test(s)] *)
Definition shortTime (s : string) : bool :=
  match s with
  | String a rest =>
      isDigit a
      && (minutesToEnd rest
          || match rest with
             | String b rest' => isDigit b && minutesToEnd rest'
             | EmptyString => false
             end)
  | EmptyString => false
  end.

(** A row of [jsonData]: its keys, in the order of [for (const key in row)],
    with their cells. *)
Definition SheetRow : Type := list (string * Cell).

Definition normalize (h : Host) (row : SheetRow) : gmap string Cell :=
  foldl (λ normalizedRow '(key, c), <[normalizeKey h key := c]> normalizedRow) ∅ row.

(** [normalizedRow[key]] *)
Definition cell (normalizedRow : gmap string Cell) (key : string) : Cell :=
  default Blank (normalizedRow !! key).

(** A record built by [processRawData]. *)
Record Uploaded := mkUploaded {
  up_id : string;
  up_empId : Cell;
  up_name : Cell;
  up_dept : Cell;
  up_inTime : string;
  up_status : AttendanceStatus;
  up_date : string
}.

(** The time of arrival read off a cell. *)
Definition readInTime (h : Host) (rawInTime : Cell) : string :=
  match rawInTime with
  | Num x => formatTime h x
  | Str s => if shortTime s then s +:+ ":00" else s
  | _ => "00:00:00"
  end.

(** The status of a time of arrival; strings are compared as strings. *)
Definition classify (inTime onTimeThreshold : string) : AttendanceStatus :=
  if String.eqb inTime "00:00:00" then Absent
  else if String.leb inTime onTimeThreshold then OnTime
  else Late.

(** The time of day as the sheets and the settings write it, [HH:MM:SS]. *)
Definition clock (hh mm ss : Z) : string :=
  JSDate.pad2 hh +:+ ":" +:+ JSDate.pad2 mm +:+ ":" +:+ JSDate.pad2 ss.

Definition processRow (h : Host) (date onTimeThreshold : string) (index : nat)
    (row : SheetRow) : Uploaded :=
  let normalizedRow := normalize h row in
  let empId :=
    or_ (or_ (cell normalizedRow "emp.id") (cell normalizedRow "empid"))
        (Num (Z2float (Z.of_nat index))) in
  let rawInTime := or_ (cell normalizedRow "in.time") (cell normalizedRow "intime") in
  let inTime := readInTime h rawInTime in
  let status := classify inTime onTimeThreshold in
  mkUploaded (date +:+ "-" +:+ toString h empId) empId
    (or_ (cell normalizedRow "name") (Str "N/A"))
    (or_ (cell normalizedRow "dept") (Str "N/A"))
    (if bool_decide (status = Absent) then "00:00:00" else inTime)
    status date.

Definition processRawData (h : Host) (jsonData : list SheetRow)
    (date onTimeThreshold : string) : list Uploaded :=
  imap (processRow h date onTimeThreshold) jsonData.

(** The filters of the hook, and what the host decides about them:
    [record.name.toLowerCase().includes(facultyNameFilter.toLowerCase())]. *)
Record Filters := mkFilters {
  startDateFilter : string;
  endDateFilter : string;
  departmentFilter : string;
  facultyNameFilter : string
}.

Record Matcher := mkMatcher {
  nameIncludes : option string → string → bool
}.

(** [filteredData] *)
Definition filteredData (m : Matcher) (f : Filters) (allData : list AttendanceRecord)
    : list AttendanceRecord :=
  List.filter
    (λ record,
       String.leb (startDateFilter f) (date record)
       && String.leb (date record) (endDateFilter f)
       && (String.eqb (departmentFilter f) "all"
           || bool_decide (ar_dept record = Some (departmentFilter f)))
       && (String.eqb (facultyNameFilter f) ""
           || nameIncludes m (ar_name record) (facultyNameFilter f)))%bool
    allData.

Record Stats := mkStats {
  total : Z;
  onTime : Z;
  late : Z;
  absent : Z;
  onDuty : Z
}.

Definition countStatus (st : AttendanceStatus) (l : list AttendanceRecord) : Z :=
  Z.of_nat (length (List.filter (λ d, bool_decide (ar_status d = st)) l)).

(** [stats] *)
Definition stats (filtered : list AttendanceRecord) : Stats :=
  let unique := size (list_to_set (ar_empId <$> filtered) : gset Z) in
  mkStats (Z.of_nat unique) (countStatus OnTime filtered) (countStatus Late filtered)
    (countStatus Absent filtered) (countStatus OnDuty filtered).

End AttendanceData.

(* ===================================================================== *)
(** ** The month view of [useFacultyDetailData] *)

Module MonthView.

(** [filteredAttendance] *)
Definition filteredAttendance (s : FacultyDetail.State) : list AttendanceRecord :=
  List.filter (λ r, String.prefix (FacultyDetail.selectedMonth s) (date r))
    (FacultyDetail.attendance s).

(** [filteredLeaveApplications] *)
Definition filteredLeaveApplications (s : FacultyDetail.State)
    : list LeaveApplicationRecord :=
  List.filter
    (λ app, String.prefix (FacultyDetail.selectedMonth s) (startDate app)
            || String.prefix (FacultyDetail.selectedMonth s) (endDate app))%bool
    (FacultyDetail.leaveApplications s).

Record MonthStats := mkMonthStats {
  onTime : Z;
  late : Z;
  absent : Z;
  onDuty : Z;
  present : Z;
  clUsedThisMonth : Z;
  unpaidLeave : Z;
  appliedLeave : Z
}.

Definition countStatus (st : AttendanceStatus) (l : list AttendanceRecord) : Z :=
  Z.of_nat (length (List.filter (λ r, bool_decide (ar_status r = st)) l)).

(** [!!r.leaveApplicationId] *)
Definition linked (r : AttendanceRecord) : bool :=
  match ar_leaveApplicationId r with
  | Some id => negb (String.eqb id "")
  | None => false
  end.

(** [monthStats].  The balance comes from the database, where a number is
    stored or nothing is: [faculty?.casualLeaves ?? 0]. *)
Definition monthStats (s : FacultyDetail.State) : MonthStats :=
  let filtered := filteredAttendance s in
  let onTime := countStatus OnTime filtered in
  let late := countStatus Late filtered in
  let absent := countStatus Absent filtered in
  let onDuty := countStatus OnDuty filtered in
  let present := onTime + late + onDuty in
  let balance := default 0 (FacultyDetail.faculty s ≫= λ f : FacultyRecord, casualLeaves f) in
  let clUsed := Z.min absent balance in
  let unpaid := absent - clUsed in
  let applied := Z.of_nat (length (List.filter linked filtered)) in
  mkMonthStats onTime late absent onDuty present clUsed unpaid applied.

(** What the statements count: the days of a month, among the records
    stored for an employee, that are not absences. *)
Definition presentIn (M : string) (records : gmap string AttendanceNode) : Z :=
  Z.of_nat (length (List.filter (λ '(day, r), String.prefix M day
                                              && negb (bool_decide (status r = Absent)))%bool
                      (map_to_list records))).

End MonthView.

(* ===================================================================== *)
(** ** [updatePayableDays] of [useSummaryData] *)

Module PayableDays.
Import SummaryData.

(** The row that [updatePayableDays] puts in the place of [item].  Day
    counts are whole or half days, as in the rows of [calculateSummary]. *)
Definition override (s : State) (e : Z) (newPayableDays : Q) (item : MonthlySummary)
    : MonthlySummary :=
  if negb (ms_empId item =? e) then item
  else
    let faculty := List.find (λ f, empId f =? e) (facultyList s) in
    let salary := orZeroF (faculty ≫= λ f : FacultyRecord, salary f) in
    mkMonthlySummary (ms_empId item) (ms_name item) (ms_dept item) (ms_designation item)
      (monthlySalary item) (presentDays item) (permissions item) (halfDayLeaves item)
      (casualLeavesAvailable item) (casualLeavesUsed item) (unpaidLeave item)
      (totalLeaves item) newPayableDays
      (proRata (actualWorkingDays s) newPayableDays salary).

Definition updatePayableDays (e : Z) (newPayableDays : Q) : Eff State unit :=
  s <- getState ;;
  setSummaryData (override s e newPayableDays <$> summaryData s).

End PayableDays.

(* ===================================================================== *)
(** ** [useUserManagementData] *)

Module UserManagement.
Import Act.
Local Open Scope act_scope.

(** [email.replace(/\./g, ',')] *)
Fixpoint encodeEmailForKey (email : string) : string :=
  match email with
  | EmptyString => EmptyString
  | String c rest =>
      String (if Ascii.eqb c "." then "," else c) (encodeEmailForKey rest)
  end.

(** [UserAccount], and the value stored under [users/{key}] and
    [pendingUsers/{key}]. *)
Record UserAccount := mkUserAccount {
  username : option string;
  password : option string
}.

(** The fields of a faculty node that the hook reads and writes. *)
Record FacultyUser := mkFacultyUser {
  fu_name : option string;
  fu_username : option string;
  fu_password : option string;
  fu_registered : bool
}.

Inductive Role := admin | faculty.

Record UnifiedUser := mkUnifiedUser {
  u_username : string;
  u_name : option string;
  u_empId : option Z;
  u_role : Role
}.

(** The three collections the hook works on. *)
Record Users := mkUsers {
  pendingNodes : gmap string UserAccount;
  facultyNodes : gmap Z FacultyUser;
  userNodes : gmap string UserAccount
}.

(** The calls of the hook:
    - [GetPending], [GetFaculty], [GetUsers]  are the reads of [fetchUsers];
    - [SetUser key u]       is  [set(ref(db, `users/${key}`), u)];
    - [RemovePending key]   is  [remove(ref(db, `pendingUsers/${key}`))];
    - [RemoveUser key]      is  [remove(ref(db, `users/${key}`))];
    - [ClearAccount e]      is  [update(ref(db, `faculty/${e}`),
                                 { username: null, password: null, registered: null })]. *)
Inductive Call :=
| GetPending
| GetFaculty
| GetUsers
| SetUser (key : string) (u : UserAccount)
| RemovePending (key : string)
| RemoveUser (key : string)
| ClearAccount (e : Z).

Definition effect (c : Call) (d : Users) : Users :=
  match c with
  | GetPending | GetFaculty | GetUsers => d
  | SetUser key u => mkUsers (pendingNodes d) (facultyNodes d) (<[key := u]> (userNodes d))
  | RemovePending key =>
      mkUsers (delete key (pendingNodes d)) (facultyNodes d) (userNodes d)
  | RemoveUser key => mkUsers (pendingNodes d) (facultyNodes d) (delete key (userNodes d))
  | ClearAccount e =>
      mkUsers (pendingNodes d)
        (alter (λ n, mkFacultyUser (fu_name n) None None false) e (facultyNodes d))
        (userNodes d)
  end.

(** The [useState] cells of the hook. *)
Record State := mkState {
  pendingUsers : list UserAccount;
  allUsers : list UnifiedUser;
  error : option string;
  loading : bool
}.

Definition setPendingUsers (f : list UserAccount → list UserAccount)
    : Act Users Call State unit :=
  setState (λ s, mkState (f (pendingUsers s)) (allUsers s) (error s) (loading s)).
Definition setAllUsers (l : list UnifiedUser) : Act Users Call State unit :=
  setState (λ s, mkState (pendingUsers s) l (error s) (loading s)).
Definition setError (e : option string) : Act Users Call State unit :=
  setState (λ s, mkState (pendingUsers s) (allUsers s) e (loading s)).
Definition setLoading (b : bool) : Act Users Call State unit :=
  setState (λ s, mkState (pendingUsers s) (allUsers s) (error s) b).

(** What the host decides:
    [l.sort((a, b) => a.username.localeCompare(b.username))]. *)
Record Host := mkHost {
  sortByUsername : list UnifiedUser → list UnifiedUser
}.

Definition nonEmpty (o : option string) : option string :=
  match o with
  | Some s => if String.eqb s "" then None else Some s
  | None => None
  end.

(** The faculty accounts and the admin accounts of [combinedUsers]. *)
Definition facultyAccounts (nodes : gmap Z FacultyUser) : list UnifiedUser :=
  omap (λ '(e, n), if fu_registered n
                   then (λ name, mkUnifiedUser name (fu_name n) (Some e) faculty)
                          <$> nonEmpty (fu_username n)
                   else None)
       (map_to_list nodes).

Definition adminAccounts (nodes : gmap string UserAccount) : list UnifiedUser :=
  omap (λ '(_, u), (λ name, mkUnifiedUser name (Some "N/A") None admin)
                     <$> nonEmpty (username u))
       (map_to_list nodes).

Definition fetchUsers (h : Host) : Act Users Call State unit :=
  setLoading true ;;
  setError None ;;
  finally
    (tryCatch
       (snaps <- awaitAll3 GetPending GetFaculty GetUsers
                   pendingNodes facultyNodes userNodes ;;
        let '(pendingSnapshot, facultySnapshot, usersSnapshot) := snaps in
        setPendingUsers (λ _, (map_to_list pendingSnapshot).*2) ;;
        let combinedUsers := facultyAccounts facultySnapshot ++ adminAccounts usersSnapshot in
        setAllUsers (sortByUsername h combinedUsers))
       (λ _, setError (Some "Failed to load user data.")))
    (setLoading false).

Definition send (c : Call) : Act Users Call State unit := await c (effect c) (λ _, tt).

(** [approveUser(user)] with [user = { username: name, password: pass }],
    a request that carries its password. *)
Definition approveUser (h : Host) (name : string) (pass : string)
    : Act Users Call State unit :=
  setError None ;;
  tryCatch
    (let encoded := encodeEmailForKey name in
     send (SetUser encoded (mkUserAccount (Some name) (Some pass))) ;;
     send (RemovePending encoded) ;;
     fetchUsers h)
    (λ err, setError (Some "Failed to approve user. Please try again.") ;; throw err).

Definition rejectUser (name : string) : Act Users Call State unit :=
  setError None ;;
  tryCatch
    (let encoded := encodeEmailForKey name in
     send (RemovePending encoded) ;;
     setPendingUsers
       (λ prev, List.filter (λ u, negb (bool_decide (username u = Some name))) prev))
    (λ err, setError (Some "Failed to reject user. Please try again.") ;; throw err).

Definition deleteFailed : string := "Failed to process request. Please try again.".

Definition deleteUser (h : Host) (user : UnifiedUser) : Act Users Call State unit :=
  setError None ;;
  tryCatch
    (match u_role user, u_empId user with
     | faculty, Some e =>
         if e =? 0 then throw "Invalid user type for deletion."
         else send (ClearAccount e) ;; fetchUsers h
     | faculty, None => throw "Invalid user type for deletion."
     | admin, _ => send (RemoveUser (encodeEmailForKey (u_username user))) ;; fetchUsers h
     end)
    (λ _, setError (Some deleteFailed) ;; throw deleteFailed).

End UserManagement.

(* ===================================================================== *)
(** ** Sample data *)

Module Sample.

Definition member (n : string) (pay : float) (cl : Z) : FacultyNode :=
  mkFacultyNode (Some n) (Some "CSE") (Some "Professor") (Some pay) (Some cl).

Definition absent : AttendanceNode := mkAttendanceNode "00:00:00" Absent None.

Definition onTime : AttendanceNode := mkAttendanceNode "08:05:00" OnTime None.

Definition late : AttendanceNode := mkAttendanceNode "08:30:00" Late None.

(** Three employees in April 2024: 1 was absent once, 2 was late once (and
    absent in March), 3 has no attendance record at all. *)
Definition roster : Db :=
  mkDb {[ 1 := member "Asha" 3000 2; 2 := member "Ravi" 4000 0; 3 := member "Mira" 5000 1 ]}
       {[ 1 := {[ "2024-04-03" := absent; "2024-04-04" := onTime ]};
          2 := {[ "2024-04-03" := late; "2024-03-29" := absent ]} ]}
       ∅ ∅.

(** A roster whose only employee was absent in April 2024. *)
Definition allAbsent : Db :=
  mkDb {[ 1 := member "Asha" 3000 2 ]} {[ 1 := {[ "2024-04-03" := absent ]} ]} ∅ ∅.

Definition online (d : Db) : World := mkWorld d [] [].

Definition actions : MonthlyActions.State :=
  MonthlyActions.mkState "2024-04" false None false false.

Definition clock : string := "2024-05-01T09:00:00.000Z".

(** The spec's payroll scenario: salary 3000, two casual leaves, a month
    of 30 days with 10 holidays, 15 days present and none late. *)
Definition asha : FacultyRecord := mkFacultyRecord 1 (member "Asha" 3000 2).

Definition present (day : string) : AttendanceRecord :=
  mkAttendanceRecord (day +:+ "-1") 1 (Some "Asha") (Some "CSE") day "08:05:00" OnTime None.

Definition holiday (day : string) : Holiday := mkHoliday day day "Holiday".

Definition payroll : SummaryData.State :=
  SummaryData.mkState [asha]
    (present <$> ["2024-04-01"; "2024-04-02"; "2024-04-03"; "2024-04-04"; "2024-04-05";
                  "2024-04-08"; "2024-04-09"; "2024-04-10"; "2024-04-11"; "2024-04-12";
                  "2024-04-15"; "2024-04-16"; "2024-04-17"; "2024-04-18"; "2024-04-19"])
    (holiday <$> ["2024-04-06"; "2024-04-07"; "2024-04-13"; "2024-04-14"; "2024-04-20";
                  "2024-04-21"; "2024-04-27"; "2024-04-28"; "2024-04-29"; "2024-04-30"])
    "2024-04" 30 [] 2.

(** The same hook once [calculateSummary] has run. *)
Definition payrollReady : SummaryData.State :=
  SummaryData.mkState (SummaryData.facultyList payroll) (SummaryData.rawAttendance payroll)
    (SummaryData.holidays payroll) "2024-04" 30 (SummaryData.calculateSummary payroll) 2.

(** April 2024 with every day a holiday. *)
Definition closedMonth : SummaryData.State :=
  SummaryData.mkState [asha] []
    ((λ d, holiday ("2024-04-" +:+ JSDate.pad2 d)) <$> (Z.of_nat <$> seq 1 30))
    "2024-04" 30 [] 2.

(** Five late days against a permission limit of two. *)
Definition lateRecord (day : string) : AttendanceRecord :=
  mkAttendanceRecord (day +:+ "-1") 1 (Some "Asha") (Some "CSE") day "08:30:00" Late None.

Definition fiveLate : list AttendanceRecord :=
  lateRecord <$> ["2024-04-01"; "2024-04-02"; "2024-04-03"; "2024-04-04"; "2024-04-05"].

(** A month of three working days at a salary of 1000: Asha was present
    on one day and Ravi on two, so that a third and two thirds of the
    salary are due. *)
Definition thirds : SummaryData.State :=
  SummaryData.mkState
    [mkFacultyRecord 1 (member "Asha" 1000 0); mkFacultyRecord 2 (member "Ravi" 1000 0)]
    [present "2024-04-01";
     mkAttendanceRecord "2024-04-01-2" 2 (Some "Ravi") (Some "CSE") "2024-04-01" "08:05:00"
       OnTime None;
     mkAttendanceRecord "2024-04-02-2" 2 (Some "Ravi") (Some "CSE") "2024-04-02" "08:05:00"
       OnTime None]
    [] "2024-04" 3 [] 2.

(** A leave from 27 February to 2 March 2024, and one whose dates are
    inverted. *)
Definition leave1 : LeaveApplicationRecord :=
  mkLeaveApplicationRecord "L1" 7 "2024-02-27" "2024-03-02" "2024-02-20T10:00:00.000Z" Pending.

Definition leave2 : LeaveApplicationRecord :=
  mkLeaveApplicationRecord "L2" 7 "2024-03-10" "2024-03-05" "2024-03-01T10:00:00.000Z" Pending.

Definition onLeave (id : string) : AttendanceNode :=
  mkAttendanceNode "00:00:00" Absent (Some id).

Definition leaves : Db :=
  mkDb {[ 7 := member "Kiran" 3500 1 ]}
       {[ 7 := {[ "2024-02-26" := onTime; "2024-02-28" := onLeave "L1";
                  "2024-02-29" := onLeave "L1"; "2024-03-01" := onLeave "L1";
                  "2024-03-07" := onLeave "L2" ]} ]}
       {[ "L1" := FullLeave leave1; "L2" := FullLeave leave2 ]} ∅.

Definition approvals : LeaveApproval.State :=
  LeaveApproval.mkState [leave1; leave2] None false.

Definition detail : FacultyDetail.State :=
  FacultyDetail.mkState None [] [] false None "2024-03".

(** A host on UTC that keeps the order of the lists it sorts. *)
Definition host : FacultyDetail.Host :=
  FacultyDetail.mkHost (JSDate.mkTimeZone (λ _, 0) (λ _, 0)) id id.




(** The button pressed on the roster, and on the all-absent roster. *)
Definition allocation : Result unit * MonthlyActions.State * World :=
  MonthlyActions.handleAllocateCL clock actions (online roster).

Definition emptyAllocation : Result unit * MonthlyActions.State * World :=
  MonthlyActions.handleAllocateCL clock actions (online allAbsent).

(** The summary hook of employee 3 over the roster's attendance. *)
Definition mira : FacultyRecord := mkFacultyRecord 3 (member "Mira" 5000 1).


(** The row of the payroll scenario. *)
Definition ashaRow : MonthlySummary :=
  SummaryData.summaryRow 20 2
    (SummaryData.attendanceByEmp (SummaryData.rawAttendance payroll)) asha.

(** The row of the five late days, in a month of 20 working days. *)
Definition lateRow : MonthlySummary :=
  SummaryData.summaryRow 20 2
    (SummaryData.attendanceByEmp (List.filter (SummaryData.inMonth "2024-04") fiveLate)) asha.

(** [finalizeAndDeductCLs] called once, and called again at once. *)
Definition finalizedOnce : Result string * SummaryData.State * World :=
  SummaryData.finalizeAndDeductCLs payrollReady (online roster).

Definition finalizedTwice : Result string * SummaryData.State * World :=
  SummaryData.finalizeAndDeductCLs finalizedOnce.1.2 finalizedOnce.2.

(** The hook after the first call, once the change of the faculty list has
    re-run [calculateSummary]; and the second call made from there. *)
Definition recalculated : SummaryData.State :=
  let s1 := finalizedOnce.1.2 in
  SummaryData.mkState (SummaryData.facultyList s1) (SummaryData.rawAttendance s1)
    (SummaryData.holidays s1) (SummaryData.selectedMonth s1)
    (SummaryData.monthlyWorkingDays s1) (SummaryData.calculateSummary s1)
    (SummaryData.permissionLimit s1).

Definition finalizedAfresh : Result string * SummaryData.State * World :=
  SummaryData.finalizeAndDeductCLs recalculated finalizedOnce.2.

End Sample.

(* ===================================================================== *)
(** ** Sample data of the other components *)

Module Cases.
Import Sample.

(** The roster while the database cannot be reached, and while it accepts
    the three reads and the update of the balances but not the marker. *)
Definition offline : World := mkWorld roster [Some "offline"] [].

Definition markerRefused : World := mkWorld roster [None; None; None; Some "denied"] [].

Definition failedAllocation : Result unit * MonthlyActions.State * World :=
  MonthlyActions.handleAllocateCL clock actions offline.

(** The summary of the payroll scenario finalized while the database
    cannot be reached. *)
Definition failedFinalize : Result string * SummaryData.State * World :=
  SummaryData.finalizeAndDeductCLs payrollReady offline.

(** The leave of 27 February rejected while the database cannot be
    reached. *)
Definition leavesOffline : World := mkWorld leaves [Some "offline"] [].

Definition failedReject : Result unit * LeaveApproval.State * World :=
  LeaveApproval.rejectLeave "L1" approvals leavesOffline.

(** The detail page of employee 7 in March 2024, and of employee 1 in
    April 2024 with the summary of the same month. *)
Definition kiranPage : FacultyDetail.State :=
  (FacultyDetail.fetchData host 7 detail (online leaves)).1.2.

Definition april : FacultyDetail.State :=
  FacultyDetail.mkState None [] [] false None "2024-04".

Definition ashaPage : Result unit * FacultyDetail.State * World :=
  FacultyDetail.fetchData host 1 april (online roster).

Definition ashaSummary : SummaryData.State :=
  SummaryData.mkState [asha] (SummaryData.flattenAttendance [asha] (attendance roster)) []
    "2024-04" 30 [] 2.

(** The faculty hook holding Asha, on the database that holds her alone. *)
Definition office : FacultyData.Host := FacultyData.mkHost id (λ _, "set failed").

Definition staff : FacultyData.State := FacultyData.mkState [asha] None false.

Definition registry (d : Db) : Act.Server Db FacultyData.Call := Act.mkServer d [] [].

(** The attendance desk on 3 April 2024, and on 5 April 2024; names are
    compared as strings. *)
Definition desk : ManualAttendance.Host :=
  ManualAttendance.mkHost
    (λ a b, match a, b with
            | Some x, Some y =>
                match String.compare x y with Lt => -1 | Eq => 0 | Gt => 1 end
            | _, _ => 0
            end).

Definition station (d : Db) (verdicts : list (option string))
    : Act.Server Db ManualAttendance.Call :=
  Act.mkServer d verdicts [].

Definition closed (day : string) : ManualAttendance.State :=
  ManualAttendance.mkState day true [] ∅ None [].

Definition opened (day : string) : ManualAttendance.State :=
  (ManualAttendance.fetchDataForDate desk day (closed day) (station roster [])).1.2.

(** Mira marked on leave on 5 April 2024, and the allocation of April run
    on the database that results. *)
Definition miraOnLeave
    : Result unit * ManualAttendance.State * Act.Server Db ManualAttendance.Call :=
  ManualAttendance.handleMarkAttendance 3 ManualAttendance.Leave (opened "2024-04-05")
    (station roster []).

Definition laterAllocation : Result unit * MonthlyActions.State * World :=
  MonthlyActions.handleAllocateCL clock actions (online (Act.data miraOnLeave.2)).

(** A calendar that holds 6 April 2024. *)
Definition calendarHost : Holidays.Host := Holidays.mkHost id.

Definition calendar : Holidays.State :=
  Holidays.mkState [holiday "2024-04-06"] None false.

Definition calendarServer : Act.Server (gmap string Holidays.Node) Holidays.Call :=
  Act.mkServer {[ "2024-04-06" := Holidays.mkNode (Some "2024-04-06") (Some "Holiday") ]}
    [] [].

(** A settings provider on a database without settings. *)
Definition fresh : Settings.State := Settings.mkState Settings.DEFAULT_SETTINGS true None.

Definition noSettings : Act.Server (option Settings.Stored) Settings.Call :=
  Act.mkServer None [] [].

Definition lenient : Settings.Settings := Settings.mkSettings "09:00:00" 3 true false.

(** A sheet of three rows whose keys are already in lower case, read on a
    host that renders every number as [7]. *)
Definition reader : AttendanceData.Host :=
  AttendanceData.mkHost id (λ _, "08:00:00") (λ _, "7").

Definition sheet : list AttendanceData.SheetRow :=
  [ [("emp.id", AttendanceData.Num 7); ("in.time", AttendanceData.Str "9:05")];
    [("empid", AttendanceData.Str "8"); ("intime", AttendanceData.Str "08:10:00")];
    [("name", AttendanceData.Str "Kiran")] ].

(** The filters set to 2 to 4 April 2024, on a host that finds every name. *)
Definition anyName : AttendanceData.Matcher := AttendanceData.mkMatcher (λ _ _, true).

Definition threeDays : AttendanceData.Filters :=
  AttendanceData.mkFilters "2024-04-02" "2024-04-04" "all" "".

(** A pending request, and an administrator account. *)
Definition accountsHost : UserManagement.Host := UserManagement.mkHost id.

Definition requests : Act.Server UserManagement.Users UserManagement.Call :=
  Act.mkServer
    (UserManagement.mkUsers
       {[ "a,b@x,org" := UserManagement.mkUserAccount (Some "a.b@x.org") (Some "cHc=") ]}
       ∅ {[ "root@x,org" := UserManagement.mkUserAccount (Some "root@x.org") (Some "cm9vdA==") ]})
    [] [].

Definition console : UserManagement.State := UserManagement.mkState [] [] None true.

Definition root : UserManagement.UnifiedUser :=
  UserManagement.mkUnifiedUser "root@x.org" (Some "N/A") None UserManagement.admin.

End Cases.

(* ===================================================================== *)
(** * Properties *)

(** ** Multi-path updates *)

Lemma applyWrites_cons w ws d :
  applyWrites (w :: ws) d = applyWrites ws (applyWrite d w).
Proof. reflexivity. Qed.

Lemma applyWrites_app ws1 ws2 d :
  applyWrites (ws1 ++ ws2) d = applyWrites ws2 (applyWrites ws1 d).
Proof. unfold applyWrites. apply foldl_app. Qed.

Lemma applyWrites_casualLeaves_frame ws d :
  Forall isCasualLeavesWrite ws →
  attendance (applyWrites ws d) = attendance d ∧
  leaveApplications (applyWrites ws d) = leaveApplications d ∧
  monthlyAllocations (applyWrites ws d) = monthlyAllocations d.
Proof.
  intros H. revert d. induction H as [|w ws Hw _ IH]; intros d; [done|].
  destruct w; try done. rewrite applyWrites_cons.
  destruct (IH (applyWrite d (SetCasualLeaves e v))) as (-> & -> & ->).
  done.
Qed.

(** Balance writes for entries with distinct ids: every listed employee
    gets its value, nobody else is touched. *)
Lemma applyWrites_casualLeaves_other {A} (id v : A → Z) (l : list A) d e :
  e ∉ id <$> l →
  faculty (applyWrites ((λ x, SetCasualLeaves (id x) (v x)) <$> l) d) !! e = faculty d !! e.
Proof.
  revert d. induction l as [|x l IH]; intros d Hne; [done|].
  rewrite fmap_cons, not_elem_of_cons in Hne. destruct Hne as [Hx Hl].
  rewrite fmap_cons, applyWrites_cons, IH by done. cbn.
  apply lookup_partial_alter_ne. congruence.
Qed.

Lemma applyWrites_casualLeaves_listed {A} (id v : A → Z) (l : list A) d x :
  NoDup (id <$> l) → x ∈ l →
  faculty (applyWrites ((λ x, SetCasualLeaves (id x) (v x)) <$> l) d) !! id x
  = writeCasualLeaves (v x) (faculty d !! id x).
Proof.
  revert d. induction l as [|y l IH]; intros d Hnd Hin; [by apply elem_of_nil in Hin|].
  rewrite fmap_cons in Hnd. apply NoDup_cons in Hnd as [Hy Hnd].
  rewrite fmap_cons, applyWrites_cons.
  apply elem_of_cons in Hin as [->|Hin].
  - rewrite applyWrites_casualLeaves_other by done. cbn. apply lookup_partial_alter_eq.
  - rewrite IH by done. cbn.
    rewrite lookup_partial_alter_ne; [done|].
    intros E. apply Hy. rewrite E. by apply list_elem_of_fmap_2.
Qed.

(** ** Monthly allocation *)

Arguments verdict : simpl never.
Section Allocation.
Import MonthlyActions.

Lemma prepareUpdates_acc A l u n :
  foldl (λ '(updates, count) f,
           if decide (empId f ∈ A) then (updates, count)
           else (updates ++ [SetCasualLeaves (empId f) (orZero (casualLeaves f) + 1)],
                 count + 1))
        (u, n) l
  = (u ++ (grant <$> List.filter (eligible A) l),
     n + Z.of_nat (length (List.filter (eligible A) l))).
Proof.
  revert u n. induction l as [|f l IH]; intros u n; cbn [foldl List.filter].
  - cbn. by rewrite app_nil_r, Z.add_0_r.
  - destruct (decide (empId f ∈ A)) as [Hin|Hin].
    + assert (eligible A f = false) as ->
        by (unfold eligible; by rewrite bool_decide_eq_true_2).
      apply IH.
    + assert (eligible A f = true) as ->
        by (unfold eligible; by rewrite bool_decide_eq_false_2).
      rewrite IH. cbn [fmap list_fmap length].
      f_equal; [by rewrite <- app_assoc | lia].
Qed.

Lemma prepareUpdates_spec A l :
  prepareUpdates A l
  = (grant <$> List.filter (eligible A) l, Z.of_nat (length (List.filter (eligible A) l))).
Proof. unfold prepareUpdates. by rewrite prepareUpdates_acc. Qed.

Lemma hasAbsence_spec M (records : gmap string AttendanceNode) :
  hasAbsence M records = true ↔
  ∃ day r, records !! day = Some r ∧ String.prefix M day = true ∧ status r = Absent.
Proof.
  unfold hasAbsence. rewrite existsb_exists. split.
  - intros [[day r] [Hin H]]. apply andb_true_iff in H as [Hp Hs].
    apply bool_decide_eq_true in Hs. exists day, r.
    apply list_elem_of_In, elem_of_map_to_list in Hin. done.
  - intros (day & r & Hl & Hp & Hs). exists (day, r). split.
    + by apply list_elem_of_In, elem_of_map_to_list.
    + rewrite Hp. cbn. by apply bool_decide_eq_true.
Qed.

Lemma facultyWithAbsences_acc M (l : list (Z * gmap string AttendanceNode)) (acc : gset Z) e :
  e ∈ foldl (λ acc '(e, records), if hasAbsence M records then {[e]} ∪ acc else acc) acc l
  ↔ e ∈ acc ∨ ∃ records, (e, records) ∈ l ∧ hasAbsence M records = true.
Proof.
  revert acc. induction l as [|[k recs] l IH]; intros acc; cbn.
  - split; [by left|]. intros [H|(r & H & _)]; [done|]. by apply elem_of_nil in H.
  - rewrite IH. split.
    + intros [H|(r & H & Hr)].
      * destruct (hasAbsence M recs) eqn:E.
        -- apply elem_of_union in H as [H|H]; [|by left].
           apply elem_of_singleton in H as ->. right. exists recs. split; [left|done].
        -- by left.
      * right. exists r. split; [by right|done].
    + intros [H|(r & H & Hr)].
      * left. destruct (hasAbsence M recs); [|done]. apply elem_of_union. by right.
      * apply elem_of_cons in H as [H|H].
        -- inversion H; subst. left. rewrite Hr. apply elem_of_union. left. by apply elem_of_singleton.
        -- right. by exists r.
Qed.

Lemma facultyWithAbsences_spec M (att : gmap Z (gmap string AttendanceNode)) e :
  e ∈ facultyWithAbsences M att ↔
  ∃ records, att !! e = Some records ∧ hasAbsence M records = true.
Proof.
  unfold facultyWithAbsences. rewrite facultyWithAbsences_acc. split.
  - intros [H|(r & H & Hr)]; [by apply not_elem_of_empty in H|].
    exists r. by apply elem_of_map_to_list in H.
  - intros (r & H & Hr). right. exists r. by apply elem_of_map_to_list in H.
Qed.

Lemma absentees_absentIn d M e :
  e ∈ facultyWithAbsences M (attendance d) ↔ absentIn d M e.
Proof.
  rewrite facultyWithAbsences_spec. unfold absentIn, attendanceAt. split.
  - intros (recs & Hr & H). apply hasAbsence_spec in H as (day & r & H1 & H2 & H3).
    exists day, r. by rewrite Hr.
  - intros (day & r & H1 & H2 & H3). destruct (attendance d !! e) as [recs|] eqn:E; [|done].
    exists recs. split; [done|]. apply hasAbsence_spec. by exists day, r.
Qed.

Lemma successFeedback_type n : type (successFeedback n) = success.
Proof. unfold successFeedback. by destruct (n =? 0). Qed.

Lemma handleAllocateCL_locked now c w :
  isAllocationComplete c = true →
  handleAllocateCL now c w
  = (Ok tt,
     mkState (selectedMonth c) (isLoading c) (Some alreadyCompleted) (isCheckingStatus c) true,
     w).
Proof.
  intros H. unfold handleAllocateCL, bind, getState. rewrite H.
  unfold setFeedback, setState. by rewrite H.
Qed.

Lemma handleAllocateCL_completes now c w r c' w' :
  handleAllocateCL now c w = (r, c', w') → ranToCompletion c' →
  let M := selectedMonth c in
  isAllocationComplete c = false ∧
  faculty (db w) ≠ ∅ ∧
  db w' = applyWrite (if 0 <? (planned M (db w)).2
                      then applyWrites (planned M (db w)).1 (db w) else db w)
                     (marker M now (db w)) ∧
  log w' = log w ++ [Get "faculty"; Get "attendance"]
                 ++ (if 0 <? (planned M (db w)).2 then [Update (planned M (db w)).1] else [])
                 ++ [Set_ (marker M now (db w))] ∧
  c' = mkState M false (Some (successFeedback (planned M (db w)).2)) (isCheckingStatus c) true.
Proof.
  intros Hrun (f & Hf & Hty). cbn zeta.
  destruct (isAllocationComplete c) eqn:Hlock.
  { rewrite handleAllocateCL_locked in Hrun by done. inversion Hrun; subst. cbn in Hf.
    inversion Hf; subst. done. }
  unfold handleAllocateCL, bind, getState in Hrun. rewrite Hlock in Hrun.
  unfold marker, planned, facultyRecords.
  unfold tryCatch, setIsLoading, setFeedback, setIsAllocationComplete, setState, fb_get,
    fb_update, fb_set, await, throw, ret, bind in Hrun.
  cbn in Hrun.
  repeat match type of Hrun with
  | context [verdict ?w] => destruct (verdict w) eqn:?; cbn in Hrun
  | context [decide (?a = ?b)] => destruct (decide (a = b)); cbn in Hrun
  | context [prepareUpdates ?a ?b] => destruct (prepareUpdates a b) as [updates count] eqn:?; cbn in Hrun
  | context [0 <? ?n] => destruct (0 <? n) eqn:?; cbn in Hrun
  end.
  all: inversion Hrun; subst; clear Hrun; cbn in Hf; inversion Hf; subst; try discriminate Hty.
  all: cbn; match goal with H : (0 <? _) = _ |- _ => rewrite H end; cbn.
  all: rewrite <- ?app_assoc; done.
Qed.


Lemma filter_fmap_NoDup {A B} (f : A → B) (P : A → bool) (l : list A) :
  NoDup (f <$> l) → NoDup (f <$> List.filter P l).
Proof.
  induction l as [|a l IH]; cbn; [done|].
  intros Hnd. apply NoDup_cons in Hnd as [Ha Hnd].
  destruct (P a); cbn; [|by apply IH].
  apply NoDup_cons. split; [|by apply IH].
  intros Hin. apply Ha. apply list_elem_of_fmap in Hin as (x & -> & Hx).
  apply list_elem_of_In, filter_In in Hx as [Hx _]. apply list_elem_of_fmap_2.
  by apply list_elem_of_In.
Qed.

Lemma facultyRecords_ids d : empId <$> facultyRecords d = (map_to_list (faculty d)).*1.
Proof.
  unfold facultyRecords. rewrite <- list_fmap_compose. apply list_fmap_ext.
  by intros _ [e n] _.
Qed.

Lemma elem_of_facultyRecords d f :
  f ∈ facultyRecords d ↔ faculty d !! empId f = Some (details f).
Proof.
  unfold facultyRecords. rewrite list_elem_of_fmap. split.
  - intros ([e n] & -> & Hin). by apply elem_of_map_to_list in Hin.
  - intros H. exists (empId f, details f). split; [by destruct f|].
    by apply elem_of_map_to_list.
Qed.

(** The balances after the update of step 4. *)
Lemma faculty_after_grants A d e :
  faculty (applyWrites (grant <$> List.filter (eligible A) (facultyRecords d)) d) !! e
  = (λ n, if decide (e ∈ A) then n else granted n) <$> faculty d !! e.
Proof.
  pose proof (filter_fmap_NoDup empId (eligible A) (facultyRecords d)) as Hnd.
  rewrite facultyRecords_ids in Hnd. specialize (Hnd (NoDup_fst_map_to_list _)).
  destruct (faculty d !! e) as [n|] eqn:He; cbn.
  - destruct (decide (e ∈ A)) as [HA|HA].
    + unfold grant.
      rewrite (applyWrites_casualLeaves_other empId (λ f, orZero (casualLeaves f) + 1));
        [done|].
      intros Hin. apply list_elem_of_fmap in Hin as (g & -> & Hg).
      apply list_elem_of_In, filter_In in Hg as [_ Hg]. unfold eligible in Hg.
      by rewrite bool_decide_eq_true_2 in Hg.
    + assert (Hf : mkFacultyRecord e n ∈ List.filter (eligible A) (facultyRecords d)).
      { apply list_elem_of_In, filter_In. split.
        - apply list_elem_of_In, elem_of_facultyRecords. done.
        - unfold eligible. cbn. by rewrite bool_decide_eq_false_2. }
      pose proof (applyWrites_casualLeaves_listed empId
                    (λ f, orZero (casualLeaves f) + 1) _ d _ Hnd Hf) as E.
      cbn in E. unfold grant. rewrite E, He. done.
  - unfold grant.
    rewrite (applyWrites_casualLeaves_other empId (λ f, orZero (casualLeaves f) + 1));
      [done|].
    intros Hin. apply list_elem_of_fmap in Hin as (g & -> & Hg).
    apply list_elem_of_In, filter_In in Hg as [Hg _].
    apply list_elem_of_In, elem_of_facultyRecords in Hg. congruence.
Qed.

(** Nobody is granted a leave when the count of step 3 is zero. *)
Lemma no_grants A d e n :
  length (List.filter (eligible A) (facultyRecords d)) = 0%nat →
  faculty d !! e = Some n → e ∈ A.
Proof.
  intros Hlen He. destruct (decide (e ∈ A)) as [|HA]; [done|].
  assert (Hf : mkFacultyRecord e n ∈ List.filter (eligible A) (facultyRecords d)).
  { apply list_elem_of_In, filter_In. split.
    - apply list_elem_of_In, elem_of_facultyRecords. done.
    - unfold eligible. cbn. by rewrite bool_decide_eq_false_2. }
  destruct (List.filter (eligible A) (facultyRecords d)); [by apply elem_of_nil in Hf|done].
Qed.

(** The balances after a run to completion. *)
Lemma handleAllocateCL_balances now c w r c' w' e :
  handleAllocateCL now c w = (r, c', w') → ranToCompletion c' →
  faculty (db w') !! e
  = (λ n, if decide (e ∈ facultyWithAbsences (selectedMonth c) (attendance (db w)))
          then n else granted n)
      <$> faculty (db w) !! e.
Proof.
  intros Hrun Hok.
  destruct (handleAllocateCL_completes _ _ _ _ _ _ Hrun Hok) as (_ & _ & Hdb & _ & _).
  unfold marker, planned in Hdb. rewrite prepareUpdates_spec in Hdb. cbn [fst snd] in Hdb.
  rewrite Hdb. clear Hdb. cbn [applyWrite faculty].
  destruct (0 <? _) eqn:Hn.
  - apply faculty_after_grants.
  - apply Z.ltb_ge in Hn.
    destruct (faculty (db w) !! e) as [n|] eqn:He; [|done]. cbn.
    rewrite decide_True; [done|]. eapply no_grants; [|done]. lia.
Qed.

(** C2: when [handleAllocateCL] runs to completion (the month was not yet
    locked), an employee of the faculty list who has at least one record
    of the selected month with status Absent keeps the stored node, and
    an employee with no such record has the balance incremented by
    exactly one: a stored balance [k] becomes [k + 1], a missing one is
    counted as 0 and becomes 1, and the other fields of the node stay. *)
Theorem allocate_grants_exactly_the_unabsent :
  ∀ (now : string) (c : State) (w : World) r c' w' (e : Z) (n : FacultyNode),
    handleAllocateCL now c w = (r, c', w') → ranToCompletion c' →
    faculty (db w) !! e = Some n →
    isAllocationComplete c = false ∧
    (absentIn (db w) (selectedMonth c) e → faculty (db w') !! e = Some n) ∧
    (¬ absentIn (db w) (selectedMonth c) e →
     ∃ n', faculty (db w') !! e = Some n' ∧
           name n' = name n ∧ dept n' = dept n ∧ designation n' = designation n ∧
           salary n' = salary n ∧
           (∀ k, casualLeaves n = Some k → casualLeaves n' = Some (k + 1)) ∧
           (casualLeaves n = None → casualLeaves n' = Some 1)).
Proof.
  intros now c w r c' w' e n Hrun Hok He.
  pose proof (handleAllocateCL_balances _ _ _ _ _ _ e Hrun Hok) as Hb.
  destruct (handleAllocateCL_completes _ _ _ _ _ _ Hrun Hok) as (Hl & _).
  rewrite He in Hb. cbn in Hb. split; [done|]. split.
  - intros Ha. apply absentees_absentIn in Ha. by rewrite decide_True in Hb.
  - intros Ha. rewrite <- absentees_absentIn in Ha. rewrite decide_False in Hb by done.
    exists (granted n). split; [done|]. cbn. do 4 (split; [done|]). split.
    + by intros k ->.
    + by intros ->.
Qed.

(** C9: whenever [handleAllocateCL] runs to completion it stores the node
    [{completed: true, timestamp, updatedCount}] under the selected month
    as its last call, so the month is locked afterwards; when no employee
    is eligible ([updatedCount = 0]) the marker is the only write of the
    run and no balance changes. *)
Theorem allocate_always_writes_marker :
  ∀ (now : string) (c : State) (w : World) r c' w',
    handleAllocateCL now c w = (r, c', w') → ranToCompletion c' →
    let M := selectedMonth c in
    let count := (planned M (db w)).2 in
    monthlyAllocations (db w') !! M = Some (mkAllocationNode true now count) ∧
    locked (db w') M ∧
    last (log w') = Some (Set_ (SetAllocation M (mkAllocationNode true now count))) ∧
    (count = 0 →
     faculty (db w') = faculty (db w) ∧
     log w' = log w ++ [Get "faculty"; Get "attendance";
                        Set_ (SetAllocation M (mkAllocationNode true now 0))] ∧
     feedback c' = Some (mkFeedback success
                           "Completed. No faculty were eligible. Month is now locked.")).
Proof.
  intros now c w r c' w' Hrun Hok M count.
  destruct (handleAllocateCL_completes _ _ _ _ _ _ Hrun Hok) as (_ & _ & Hdb & Hlog & Hc).
  fold M in Hdb, Hlog, Hc. fold count in Hdb, Hlog, Hc. unfold marker in *.
  fold M in Hdb, Hlog. fold count in Hdb, Hlog.
  assert (Hm : monthlyAllocations (db w') !! M = Some (mkAllocationNode true now count)).
  { rewrite Hdb. cbn. apply lookup_insert_eq. }
  split; [done|]. split; [by eexists|]. split.
  - rewrite Hlog, !app_assoc. apply last_snoc.
  - intros H0. rewrite H0 in *. cbn in Hdb, Hlog. rewrite Hdb, Hlog, Hc. done.
Qed.




End Allocation.

(** ** Monthly summary and casual-leave deduction *)

Section Summary.
Import SummaryData.

Lemma attendanceByEmp_acc (l : list AttendanceRecord) (m : gmap Z (list AttendanceRecord)) e :
  default [] (foldl (λ m rec, <[ar_empId rec := default [] (m !! ar_empId rec) ++ [rec]]> m)
                m l !! e)
  = default [] (m !! e) ++ recordsOf e l.
Proof.
  revert m. induction l as [|r l IH]; intros m; cbn [foldl].
  - cbn. by rewrite app_nil_r.
  - rewrite IH. unfold recordsOf. cbn [List.filter].
    destruct (decide (ar_empId r = e)) as [<-|Hne].
    + rewrite lookup_insert_eq, bool_decide_eq_true_2 by done. cbn. by rewrite <- app_assoc.
    + rewrite lookup_insert_ne, bool_decide_eq_false_2 by done. done.
Qed.

Lemma attendanceByEmp_spec l e :
  default [] (attendanceByEmp l !! e) = recordsOf e l.
Proof. unfold attendanceByEmp. by rewrite attendanceByEmp_acc, lookup_empty. Qed.

Lemma count_filter_and {A} (P Q : A → bool) l :
  count P (List.filter Q l) = count (λ x, Q x && P x) l.
Proof.
  unfold count. f_equal. induction l as [|a l IH]; cbn; [done|].
  destruct (Q a); cbn; [destruct (P a); cbn; by rewrite IH|done].
Qed.

Lemma count_ext {A} (P Q : A → bool) l : (∀ x, P x = Q x) → count P l = count Q l.
Proof.
  intros H. unfold count. f_equal. induction l as [|a l IH]; cbn; [done|].
  rewrite H. destruct (Q a); cbn; by rewrite IH.
Qed.

(** [parseFloat(x.toFixed(2))] is the rounding to two decimals. *)
Lemma digits2_pos_lower m : 2 ^ (Zpos (digits2_pos m) - 1) ≤ Zpos m.
Proof.
  induction m as [m IH|m IH|]; cbn [digits2_pos]; [| |done].
  - rewrite Pos2Z.inj_succ.
    replace (Z.succ (Zpos (digits2_pos m)) - 1) with (Z.succ (Zpos (digits2_pos m) - 1))
      by lia.
    rewrite Z.pow_succ_r by lia. lia.
  - rewrite Pos2Z.inj_succ.
    replace (Z.succ (Zpos (digits2_pos m)) - 1) with (Z.succ (Zpos (digits2_pos m) - 1))
      by lia.
    rewrite Z.pow_succ_r by lia. lia.
Qed.

Lemma whole_binary64_is_large s m e :
  valid_binary (S754_finite s m e) = true → 0 ≤ e → 2 ^ 52 ≤ Zpos m * 2 ^ e.
Proof.
  intros Hv He. cbn [SpecFloat.valid_binary] in Hv. unfold bounded, canonical_mantissa in Hv.
  apply andb_true_iff in Hv as [Hc _]. apply Z.eqb_eq in Hc.
  unfold fexp, emin, prec, emax in Hc.
  assert (Hd : Zpos (digits2_pos m) = 53) by lia.
  pose proof (digits2_pos_lower m) as Hm. rewrite Hd in Hm.
  change (53 - 1) with 52 in Hm.
  assert (1 ≤ 2 ^ e) by (apply (Z.pow_le_mono_r 2 0 e); lia). nia.
Qed.

Lemma toFixed2_rounds x : toFixed2 x = roundedTo2 x.
Proof.
  unfold toFixed2, roundedTo2. pose proof (Prim2SF_valid x) as Hv.
  destruct (Prim2SF x) as [| | |s m e]; try done.
  cbv zeta. unfold magnitude. destruct (0 <=? e) eqn:He.
  - apply Z.leb_le in He.
    pose proof (whole_binary64_is_large s m e Hv He) as Hm.
    assert (Hq : Qle_bool (inject_Z (2 ^ 46)) (inject_Z (Zpos m * 2 ^ e)) = true).
    { apply Qle_bool_iff. rewrite <- Zle_Qle.
      assert (2 ^ 46 ≤ 2 ^ 52) by (by vm_compute). lia. }
    by rewrite Hq.
  - apply Z.leb_gt in He. set (k := - e). assert (Hk : 0 < k) by lia.
    assert (Hp : Zpos (Z.to_pos (2 ^ k)) = 2 ^ k).
    { apply Z2Pos.id. apply Z.pow_pos_nonneg; lia. }
    assert (Hq : Qle_bool (inject_Z (2 ^ 46)) (Zpos m # Z.to_pos (2 ^ k))
                 = (2 ^ (46 + k) <=? Zpos m)).
    { unfold Qle_bool. cbn [Qnum Qden inject_Z]. rewrite Hp, Z.pow_add_r by lia.
      by rewrite Z.mul_1_r. }
    rewrite Hq. destruct (2 ^ (46 + k) <=? Zpos m); [done|].
    assert (Hn : nearestInteger (100 * (Zpos m # Z.to_pos (2 ^ k)))
                 = (200 * Zpos m + 2 ^ k) / 2 ^ (k + 1)).
    { unfold nearestInteger, Qfloor, Qplus, Qmult. cbn [Qnum Qden inject_Z].
      rewrite Pos.mul_1_l, Pos2Z.inj_mul, Hp, Z.pow_add_r by lia.
      f_equal; lia. }
    rewrite Hn. reflexivity.
Qed.

Lemma summaryRow_steps (raw : list AttendanceRecord) month limit workingDays f :
  summaryRow workingDays limit (attendanceByEmp (List.filter (inMonth month) raw)) f
  = summarize_steps raw month limit workingDays f.
Proof.
  unfold summaryRow, summarize_steps, proRata. rewrite attendanceByEmp_spec.
  unfold recordsOf. fold (count (λ r, negb (bool_decide (ar_status r = Absent)))
    (List.filter (λ r, bool_decide (ar_empId r = empId f)) (List.filter (inMonth month) raw))).
  fold (count (λ r, bool_decide (ar_status r = Late))
    (List.filter (λ r, bool_decide (ar_empId r = empId f)) (List.filter (inMonth month) raw))).
  rewrite !count_filter_and.
  rewrite (count_ext _ (λ r, (inMonth month r && bool_decide (ar_empId r = empId f))
                               && negb (bool_decide (ar_status r = Absent)))%bool)
    by (intros x; by rewrite andb_assoc).
  rewrite (count_ext
             (λ x, inMonth month x
                   && (bool_decide (ar_empId x = empId f)
                       && bool_decide (ar_status x = Late)))%bool
             (λ r, (inMonth month r && bool_decide (ar_empId r = empId f))
                               && bool_decide (ar_status r = Late))%bool)
    by (intros x; by rewrite andb_assoc).
  rewrite toFixed2_rounds. reflexivity.
Qed.

Lemma calculateSummary_rows s :
  0 < monthlyWorkingDays s →
  calculateSummary s
  = summaryRow (actualWorkingDays s) (permissionLimit s)
      (attendanceByEmp (List.filter (inMonth (selectedMonth s)) (rawAttendance s)))
      <$> facultyList s.
Proof.
  intros H. unfold calculateSummary.
  destruct (bool_decide (facultyList s = [])) eqn:E.
  - apply bool_decide_eq_true in E. by rewrite E.
  - apply Z.leb_gt in H. rewrite H. done.
Qed.

(** C6: [calculateSummary] builds, for every employee of the faculty list,
    the row prescribed by the steps: present days are the records of the
    month not marked Absent, absent days [max 0 (workingDays - present)],
    casual leaves used [min absent (casualLeaves || 0)], unpaid leave the
    rest, permissions [min late limit], half days [max 0 (late - limit)],
    total leaves [unpaid + half * 0.5], payable days
    [max 0 (workingDays - total)] and the salary pro rata rounded to two
    decimals, [roundedTo2]: the nearest whole number of cents of the exact
    amount.  The two worked scenarios follow: salary 3000, 20 working
    days, 15 present, 2 casual leaves give 2550.00; five late days against
    a limit of two give 2 permissions and 3 half days, which add 1.5 to
    the total leaves. *)
Theorem calculateSummary_follows_steps :
  (∀ s, 0 < monthlyWorkingDays s →
     calculateSummary s
     = summarize_steps (rawAttendance s) (selectedMonth s) (permissionLimit s)
         (actualWorkingDays s) <$> facultyList s)
  ∧
  (∀ raw month limit f,
     let mine r := (inMonth month r && bool_decide (ar_empId r = empId f))%bool in
     salary f = Some 3000%float → casualLeaves f = Some 2 → 0 ≤ limit →
     count (λ r, mine r && negb (bool_decide (ar_status r = Absent)))%bool raw = 15 →
     count (λ r, mine r && bool_decide (ar_status r = Late))%bool raw = 0 →
     let row := summaryRow 20 limit (attendanceByEmp (List.filter (inMonth month) raw)) f in
     presentDays row = 15 ∧ casualLeavesUsed row = 2 ∧ unpaidLeave row = 3 ∧
     totalLeaves row = 3%Q ∧ payableDays row = 17%Q ∧ calculatedSalary row = 2550%float)
  ∧
  (∀ raw month workingDays f,
     let mine r := (inMonth month r && bool_decide (ar_empId r = empId f))%bool in
     count (λ r, mine r && bool_decide (ar_status r = Late))%bool raw = 5 →
     let row := summaryRow workingDays 2 (attendanceByEmp (List.filter (inMonth month) raw)) f in
     permissions row = 2 ∧ halfDayLeaves row = 3 ∧
     (totalLeaves row == inject_Z (unpaidLeave row) + (15 # 10))%Q).
Proof.
  split; [|split].
  - intros s H. rewrite calculateSummary_rows by done.
    apply list_fmap_ext. intros _ f _. apply summaryRow_steps.
  - intros raw month limit f mine Hs Hc Hl Hp Hlate row.
    subst mine row. cbv beta in Hp, Hlate. rewrite summaryRow_steps.
    unfold summarize_steps. cbv zeta.
    cbn [presentDays casualLeavesUsed unpaidLeave totalLeaves payableDays calculatedSalary].
    rewrite Hp, Hlate, Hs, Hc. cbn [orZero default].
    replace (Z.max 0 (0 - limit)) with 0 by lia.
    repeat split; vm_compute; reflexivity.
  - intros raw month workingDays f mine Hlate row.
    subst mine row. cbv beta in Hlate. rewrite summaryRow_steps.
    unfold summarize_steps. cbv zeta.
    cbn [permissions halfDayLeaves unpaidLeave totalLeaves].
    rewrite Hlate. split; [done|]. split; [done|].
    rewrite Qred_correct. apply Qplus_comp; [reflexivity|]. by vm_compute.
Qed.

Lemma proRata_guard workingDays payable pay :
  workingDays ≤ 0 → proRata workingDays payable pay = 0%float.
Proof.
  intros H. unfold proRata. apply Z.ltb_ge in H. rewrite H. by vm_compute.
Qed.

(** C8: in a month whose working days come to zero (every day is a
    holiday) [calculateSummary] gives every employee a calculated salary
    of 0; the quotient [payableDays / workingDays] is taken only under the
    guard [workingDays > 0], so [proRata] at zero working days is 0
    whatever the payable days and the salary. *)
Theorem zero_working_days_zero_salary :
  ∀ s : State,
    0 < monthlyWorkingDays s → actualWorkingDays s = 0 →
    length (calculateSummary s) = length (facultyList s) ∧
    (∀ row, row ∈ calculateSummary s → calculatedSalary row = 0%float) ∧
    (∀ payable pay, proRata (actualWorkingDays s) payable pay = 0%float).
Proof.
  intros s Hm Hw. rewrite calculateSummary_rows by done. split; [|split].
  - by rewrite length_fmap.
  - intros row Hrow. apply list_elem_of_fmap in Hrow as (f & -> & _).
    unfold summaryRow. cbn [calculatedSalary]. apply proRata_guard. lia.
  - intros payable pay. apply proRata_guard. lia.
Qed.





Lemma prepareDeductions_acc rows u n :
  foldl (λ '(updates, deductions) item,
           if 0 <? casualLeavesUsed item
           then (updates ++ [SetCasualLeaves (ms_empId item)
                               (casualLeavesAvailable item - casualLeavesUsed item)],
                 deductions + 1)
           else (updates, deductions))
        (u, n) rows
  = (u ++ ((λ r, SetCasualLeaves (ms_empId r) (newBalance r)) <$> List.filter charged rows),
     n + Z.of_nat (length (List.filter charged rows))).
Proof.
  revert u n. induction rows as [|r rows IH]; intros u n; cbn [foldl List.filter].
  - cbn. by rewrite app_nil_r, Z.add_0_r.
  - destruct (0 <? casualLeavesUsed r) eqn:E.
    + assert (charged r = true) as -> by done.
      rewrite IH. cbn [fmap list_fmap length]. f_equal; [by rewrite <- app_assoc | lia].
    + assert (charged r = false) as -> by done. apply IH.
Qed.

Lemma prepareDeductions_spec rows :
  prepareDeductions rows
  = ((λ r, SetCasualLeaves (ms_empId r) (newBalance r)) <$> List.filter charged rows,
     Z.of_nat (length (List.filter charged rows))).
Proof. unfold prepareDeductions. by rewrite prepareDeductions_acc. Qed.

(** What a call of [finalizeAndDeductCLs] that returns has done. *)
Lemma finalize_returns s w msg s' w' :
  finalizeAndDeductCLs s w = (Ok msg, s', w') →
  let ups := (λ r, SetCasualLeaves (ms_empId r) (newBalance r))
               <$> List.filter charged (summaryData s) in
  (List.filter charged (summaryData s) = [] ∧ s' = s ∧ w' = w) ∨
  (List.filter charged (summaryData s) ≠ [] ∧
   db w' = applyWrites ups (db w) ∧ log w' = log w ++ [Update ups] ∧
   s' = mkState (deductInMemory (summaryData s) (facultyList s)) (rawAttendance s)
          (holidays s) (selectedMonth s) (monthlyWorkingDays s) (summaryData s)
          (permissionLimit s)).
Proof.
  unfold finalizeAndDeductCLs, bind, getState, throw, ret. intros Hrun.
  destruct (bool_decide (summaryData s = [])); cbn in Hrun; [by inversion Hrun|].
  rewrite prepareDeductions_spec in Hrun.
  destruct (List.filter charged (summaryData s)) as [|r0 l] eqn:E; cbn in Hrun.
  - left. by inversion Hrun.
  - right. split; [done|].
    unfold fb_update, await, setFacultyList, setState in Hrun.
    replace (Z.of_nat (S (length l)) =? 0) with false in Hrun
      by (symmetry; apply Z.eqb_neq; lia).
    destruct (verdict w); cbn in Hrun; [by inversion Hrun|].
    inversion Hrun; subst. done.
Qed.

Lemma charged_ids_NoDup rows :
  NoDup (ms_empId <$> rows) → NoDup (ms_empId <$> List.filter charged rows).
Proof. apply filter_fmap_NoDup. Qed.

(** The stored balance of a row's employee after a call that returns. *)
Lemma finalize_stored s w msg s' w' row :
  finalizeAndDeductCLs s w = (Ok msg, s', w') →
  NoDup (ms_empId <$> summaryData s) → row ∈ summaryData s →
  storedBalance (db w') (ms_empId row)
  = if charged row then Some (newBalance row) else storedBalance (db w) (ms_empId row).
Proof.
  intros Hrun Hnd Hrow. unfold storedBalance.
  assert (Hch : charged row = true → row ∈ List.filter charged (summaryData s)).
  { intros H. apply list_elem_of_In, filter_In. split; [by apply list_elem_of_In|done]. }
  destruct (finalize_returns _ _ _ _ _ Hrun) as [(Hnil & -> & ->)|(Hne & Hdb & _ & _)].
  - destruct (charged row) eqn:E; [|done]. specialize (Hch eq_refl).
    rewrite Hnil in Hch. by apply elem_of_nil in Hch.
  - rewrite Hdb. destruct (charged row) eqn:E.
    + rewrite (applyWrites_casualLeaves_listed ms_empId newBalance)
        by (try apply charged_ids_NoDup; auto).
      unfold writeCasualLeaves. cbn. by destruct (faculty (db w) !! ms_empId row).
    + rewrite (applyWrites_casualLeaves_other ms_empId newBalance); [done|].
      intros Hin. apply list_elem_of_fmap in Hin as (r' & Hid & Hr').
      apply list_elem_of_In, filter_In in Hr' as [Hr' Hc']. apply list_elem_of_In in Hr'.
      assert (r' = row); [|congruence].
      apply list_elem_of_lookup in Hr' as [i Hi]. apply list_elem_of_lookup in Hrow as [j Hj].
      assert (i = j).
      { eapply NoDup_lookup; [exact Hnd| |]; rewrite list_lookup_fmap.
        - by rewrite Hi.
        - rewrite Hj. cbn. by rewrite Hid. }
      congruence.
Qed.

Lemma find_by_id rows row :
  NoDup (ms_empId <$> rows) → row ∈ rows →
  List.find (λ r, bool_decide (ms_empId r = ms_empId row)) rows = Some row.
Proof.
  induction rows as [|r rows IH]; intros Hnd Hin; [by apply elem_of_nil in Hin|].
  rewrite fmap_cons in Hnd. apply NoDup_cons in Hnd as [Hr Hnd]. cbn.
  apply elem_of_cons in Hin as [->|Hin].
  - by rewrite bool_decide_eq_true_2.
  - rewrite bool_decide_eq_false_2; [by apply IH|].
    intros E. apply Hr. rewrite E. by apply list_elem_of_fmap_2.
Qed.

Lemma deductInMemory_lookup rows prev i f row :
  NoDup (ms_empId <$> rows) → row ∈ rows → ms_empId row = empId f →
  prev !! i = Some f →
  deductInMemory rows prev !! i
  = Some (if charged row then deducted (casualLeavesUsed row) f else f).
Proof.
  intros Hnd Hrow Hid Hi. unfold deductInMemory. rewrite list_lookup_fmap, Hi.
  assert (E : List.find (λ r, bool_decide (ms_empId r = empId f)) rows = Some row)
    by (rewrite <- Hid; by apply find_by_id).
  cbn. rewrite E. reflexivity.
Qed.

Lemma deductInMemory_ids rows prev : empId <$> deductInMemory rows prev = empId <$> prev.
Proof.
  unfold deductInMemory. rewrite <- list_fmap_compose. apply list_fmap_ext.
  intros _ f _. cbn. destruct (List.find _ rows) as [r|]; [|done].
  by destruct (0 <? casualLeavesUsed r).
Qed.

Lemma summaryRow_id wd limit byEmp f : ms_empId (summaryRow wd limit byEmp f) = empId f.
Proof. done. Qed.

(** C5, as the code has it: [finalizeAndDeductCLs] stores the absolute
    balance [casualLeavesAvailable - casualLeavesUsed] of each summary row
    with [casualLeavesUsed > 0].  Called twice on the same summary it
    stores that same balance both times (only the in-memory faculty list
    is decremented twice).  Called again after the summary has been
    recalculated from the decremented list, it deducts
    [min absentDays (available - used)], which is [used] once more only
    when the balance still covers the absent days. *)
Theorem finalize_writes_absolute_balances :
  (∀ s w m1 s1 w1 m2 s2 w2 row,
     finalizeAndDeductCLs s w = (Ok m1, s1, w1) →
     finalizeAndDeductCLs s1 w1 = (Ok m2, s2, w2) →
     NoDup (ms_empId <$> summaryData s) → row ∈ summaryData s →
     0 < casualLeavesUsed row →
     summaryData s1 = summaryData s ∧
     storedBalance (db w1) (ms_empId row)
     = Some (casualLeavesAvailable row - casualLeavesUsed row) ∧
     storedBalance (db w2) (ms_empId row)
     = Some (casualLeavesAvailable row - casualLeavesUsed row) ∧
     ∀ i f, facultyList s !! i = Some f → empId f = ms_empId row →
            facultyList s2 !! i
            = Some (deducted (casualLeavesUsed row) (deducted (casualLeavesUsed row) f)))
  ∧
  (∀ s w m1 s1 w1 m2 s2 w2 f,
     let row :=
       summaryRow (actualWorkingDays s) (permissionLimit s)
         (attendanceByEmp (List.filter (inMonth (selectedMonth s)) (rawAttendance s))) f in
     let absentDays := casualLeavesUsed row + unpaidLeave row in
     summaryData s = calculateSummary s → 0 < monthlyWorkingDays s →
     NoDup (empId <$> facultyList s) → f ∈ facultyList s →
     0 < casualLeavesUsed row →
     finalizeAndDeductCLs s w = (Ok m1, s1, w1) →
     finalizeAndDeductCLs (mkState (facultyList s1) (rawAttendance s1) (holidays s1)
                             (selectedMonth s1) (monthlyWorkingDays s1)
                             (calculateSummary s1) (permissionLimit s1)) w1
     = (Ok m2, s2, w2) →
     storedBalance (db w2) (empId f)
     = Some (casualLeavesAvailable row - casualLeavesUsed row
             - Z.min absentDays (casualLeavesAvailable row - casualLeavesUsed row))).
Proof.
  split.
  - intros s w m1 s1 w1 m2 s2 w2 row H1 H2 Hnd Hrow Hused.
    assert (Hch : charged row = true) by by apply Z.ltb_lt.
    assert (Hin : row ∈ List.filter charged (summaryData s)).
    { apply list_elem_of_In, filter_In. split; [by apply list_elem_of_In|done]. }
    pose proof (finalize_stored _ _ _ _ _ row H1 Hnd Hrow) as Hs1.
    destruct (finalize_returns _ _ _ _ _ H1) as [(Hnil & _)|(_ & _ & _ & ->)].
    { rewrite Hnil in Hin. by apply elem_of_nil in Hin. }
    cbn [summaryData facultyList] in *.
    pose proof (finalize_stored _ _ _ _ _ row H2 Hnd Hrow) as Hs2.
    rewrite Hch in Hs1, Hs2. split; [done|]. split; [done|]. split; [done|].
    intros i f Hi Hid.
    destruct (finalize_returns _ _ _ _ _ H2) as [(Hnil & _)|(_ & _ & _ & ->)];
      cbn [summaryData facultyList] in *.
    { rewrite Hnil in Hin. by apply elem_of_nil in Hin. }
    erewrite deductInMemory_lookup; [|done|done| |].
    3:{ erewrite deductInMemory_lookup; [|done|done|done|done]. by rewrite Hch. }
    + by rewrite Hch.
    + done.
  - intros s w m1 s1 w1 m2 s2 w2 f row absentDays Hcons Hm Hnd Hf Hused H1 H2.
    set (byEmp := attendanceByEmp
                    (List.filter (inMonth (selectedMonth s)) (rawAttendance s))) in *.
    assert (Hrows : summaryData s
                    = summaryRow (actualWorkingDays s) (permissionLimit s) byEmp
                        <$> facultyList s)
      by (rewrite Hcons; by apply calculateSummary_rows).
    assert (Hrow : row ∈ summaryData s) by (rewrite Hrows; by apply list_elem_of_fmap_2).
    assert (Hnds : NoDup (ms_empId <$> summaryData s)).
    { rewrite Hrows, <- list_fmap_compose.
      by rewrite (list_fmap_ext _ empId (facultyList s)). }
    assert (Hch : charged row = true) by by apply Z.ltb_lt.
    pose proof (finalize_stored _ _ _ _ _ row H1 Hnds Hrow) as Hs1.
    rewrite Hch in Hs1. change (ms_empId row) with (empId f) in Hs1.
    destruct (finalize_returns _ _ _ _ _ H1) as [(Hnil & _)|(_ & _ & _ & ->)].
    { assert (Hin : row ∈ List.filter charged (summaryData s)).
      { apply list_elem_of_In, filter_In. split; [by apply list_elem_of_In|done]. }
      rewrite Hnil in Hin. by apply elem_of_nil in Hin. }
    cbn [facultyList rawAttendance holidays selectedMonth monthlyWorkingDays
         permissionLimit] in H2.
    set (fl1 := deductInMemory (summaryData s) (facultyList s)) in *.
    set (s1 := mkState fl1 (rawAttendance s) (holidays s) (selectedMonth s)
                 (monthlyWorkingDays s) (summaryData s) (permissionLimit s)) in *.
    assert (Hrows1 : calculateSummary s1
                     = summaryRow (actualWorkingDays s) (permissionLimit s) byEmp <$> fl1)
      by (by rewrite calculateSummary_rows).
    set (f' := deducted (casualLeavesUsed row) f).
    set (row' := summaryRow (actualWorkingDays s) (permissionLimit s) byEmp f').
    assert (Hf' : f' ∈ fl1).
    { apply list_elem_of_lookup in Hf as [i Hi]. apply list_elem_of_lookup. exists i.
      unfold fl1. erewrite deductInMemory_lookup; [|done|done|done|done]. by rewrite Hch. }
    assert (Hrow' : row' ∈ calculateSummary s1)
      by (rewrite Hrows1; by apply list_elem_of_fmap_2).
    assert (Hnd1 : NoDup (ms_empId <$> calculateSummary s1)).
    { rewrite Hrows1, <- list_fmap_compose.
      rewrite (list_fmap_ext _ empId fl1) by done.
      unfold fl1. by rewrite deductInMemory_ids. }
    pose proof (finalize_stored _ _ _ _ _ row' H2 Hnd1 Hrow') as Hs2.
    cbn [db summaryData] in Hs2. change (ms_empId row') with (empId f) in Hs2.
    rewrite Hs2, Hs1. clear Hs1 Hs2 H1 H2 Hrow' Hnd1 Hrows1 Hf' Hrow Hnds Hrows.
    subst absentDays row' f' row. unfold charged, newBalance, summaryRow in *.
    cbn [casualLeavesUsed casualLeavesAvailable unpaidLeave empId deducted casualLeaves
         details] in *.
    set (P := Z.of_nat (length (List.filter _ (default [] (byEmp !! empId f))))) in *.
    clearbody P. unfold orZero in *.
    destruct (casualLeaves f) as [cl|]; cbn in *; [|lia].
    match goal with |- (if ?b then _ else _) = _ => destruct b eqn:E end;
      [f_equal; lia|]. apply Z.ltb_ge in E. f_equal. lia.
Qed.

End Summary.

(** ** Dates *)

Section Calendar.
Import JSDate.

Arguments DaysInYear : simpl never.
Arguments DayFromYear : simpl never.
Arguments YearFromTime : simpl never.

Ltac divmod := unfold DayFromYear in *; Z.div_mod_to_equations; lia.

Lemma DaysInYear_cases y :
  (DaysInYear y = 365 ∨ DaysInYear y = 366) ∧
  DayFromYear (y + 1) = DayFromYear y + DaysInYear y.
Proof.
  unfold DaysInYear.
  destruct (Z.eqb_spec (y mod 4) 0); cbn [negb];
    [destruct (Z.eqb_spec (y mod 100) 0); cbn [negb];
       [destruct (Z.eqb_spec (y mod 400) 0); cbn [negb]|]|];
    (split; [lia | divmod]).
Qed.

Lemma DayFromYear_mono y1 y2 :
  y1 ≤ y2 → DayFromYear y1 + 365 * (y2 - y1) ≤ DayFromYear y2.
Proof. intros H. divmod. Qed.

Lemma TimeFromYear_le y t : TimeFromYear y ≤ t ↔ DayFromYear y ≤ Day t.
Proof. unfold TimeFromYear, Day, msPerDay. Z.div_mod_to_equations. lia. Qed.

Lemma YearFromTime_spec t :
  DayFromYear (YearFromTime t) ≤ Day t < DayFromYear (YearFromTime t + 1).
Proof.
  unfold YearFromTime.
  set (d := Day t). set (y := 1970 + 400 * d / 146097).
  assert (Hb : DayFromYear (y - 1) ≤ d < DayFromYear (y + 2)) by (subst y; divmod).
  destruct (Z.leb_spec (TimeFromYear (y + 1)) t) as [H1|H1].
  - apply TimeFromYear_le in H1. fold d in H1. replace (y + 1 + 1) with (y + 2) by lia. lia.
  - assert (H1' : ¬ DayFromYear (y + 1) ≤ d) by (intros X; apply TimeFromYear_le in X; lia).
    destruct (Z.leb_spec (TimeFromYear y) t) as [H2|H2].
    + apply TimeFromYear_le in H2. fold d in H2. lia.
    + assert (H2' : ¬ DayFromYear y ≤ d) by (intros X; apply TimeFromYear_le in X; lia).
      replace (y - 1 + 1) with y by lia. lia.
Qed.

Lemma YearFromTime_unique t y :
  DayFromYear y ≤ Day t < DayFromYear (y + 1) → YearFromTime t = y.
Proof.
  intros H. pose proof (YearFromTime_spec t) as H'.
  destruct (Z.lt_trichotomy (YearFromTime t) y) as [Hlt|[->|Hgt]]; [|done|].
  - pose proof (DayFromYear_mono (YearFromTime t + 1) y). lia.
  - pose proof (DayFromYear_mono (y + 1) (YearFromTime t)). lia.
Qed.

Lemma Day_civilTime c :
  1 ≤ month c ≤ 12 →
  Day (civilTime c)
  = DayFromYear (year c)
    + monthStart (if DaysInYear (year c) =? 365 then 0 else 1) (month c - 1) + day c - 1.
Proof.
  intros Hm. unfold civilTime, MakeDate, MakeDay, Day.
  rewrite Z.add_0_r, Z.div_mul by done.
  replace ((month c - 1) / 12) with 0 by (Z.div_mod_to_equations; lia).
  replace ((month c - 1) mod 12) with (month c - 1) by (Z.div_mod_to_equations; lia).
  by rewrite Z.add_0_r.
Qed.

Ltac month_cases m :=
  let H := fresh in
  assert (H : m = 1 ∨ m = 2 ∨ m = 3 ∨ m = 4 ∨ m = 5 ∨ m = 6 ∨ m = 7 ∨ m = 8 ∨ m = 9
              ∨ m = 10 ∨ m = 11 ∨ m = 12) by lia;
  destruct H as [->|[->|[->|[->|[->|[->|[->|[->|[->|[->|[->| ->]]]]]]]]]]].

Ltac eval_monthStart :=
  repeat match goal with
         | |- context [monthStart ?l (?m - 1)] =>
             let v := eval vm_compute in (monthStart l (m - 1)) in
             change (monthStart l (m - 1)) with v
         end.

Lemma dayOfYear_bounds c :
  validCivil c →
  0 ≤ monthStart (if DaysInYear (year c) =? 365 then 0 else 1) (month c - 1) + day c - 1
    < DaysInYear (year c).
Proof.
  intros (Hy & Hm & Hd). destruct c as [y m d]. cbn in *.
  destruct (DaysInYear_cases y) as [Hc _]. unfold DaysInMonth in Hd.
  destruct (Z.eqb_spec (DaysInYear y) 365) as [E|E]; month_cases m; cbn in Hd;
    eval_monthStart; lia.
Qed.

Lemma YearFromTime_civilTime c : validCivil c → YearFromTime (civilTime c) = year c.
Proof.
  intros Hv. apply YearFromTime_unique. rewrite Day_civilTime by apply Hv.
  pose proof (dayOfYear_bounds c Hv). destruct (DaysInYear_cases (year c)) as [_ ->]. lia.
Qed.

Lemma MonthFromTime_civilTime c :
  validCivil c →
  MonthFromTime (civilTime c) = month c - 1 ∧ DateFromTime (civilTime c) = day c.
Proof.
  intros Hv. unfold DateFromTime, MonthFromTime, DayWithinYear, InLeapYear.
  rewrite YearFromTime_civilTime, Day_civilTime by (try apply Hv; done).
  destruct Hv as (Hy & Hm & Hd). destruct c as [y m d]. cbn [year month day] in *.
  unfold DaysInMonth in Hd.
  destruct (Z.eqb_spec (DaysInYear y) 365) as [E|E]; month_cases m; cbn in Hd;
    eval_monthStart;
    repeat match goal with
           | |- context [?a <? ?b] => destruct (Z.ltb_spec a b); try lia
           end;
    (split; [reflexivity|]); cbn [monthStart]; lia.
Qed.

Lemma toISODate_civilTime c : validCivil c → toISODate (civilTime c) = iso c.
Proof.
  intros Hv. unfold toISODate, iso.
  destruct (MonthFromTime_civilTime c Hv) as [-> ->].
  rewrite YearFromTime_civilTime by done.
  destruct Hv as (Hy & _).
  replace (0 <=? year c) with true by (symmetry; apply Z.leb_le; lia).
  replace (year c <=? 9999) with true by (symmetry; apply Z.leb_le; lia).
  cbn [andb]. by replace (month c - 1 + 1) with (month c) by lia.
Qed.

Lemma civilTime_Day c :
  1 ≤ month c ≤ 12 → civilTime c = Day (civilTime c) * msPerDay.
Proof.
  intros Hm. unfold civilTime, MakeDate, Day. by rewrite Z.add_0_r, Z.div_mul.
Qed.

Lemma civilTime_bounds c : validCivil c → Z.abs (civilTime c) ≤ 8640000000000000.
Proof.
  intros Hv. rewrite civilTime_Day by apply Hv. rewrite Day_civilTime by apply Hv.
  pose proof (dayOfYear_bounds c Hv) as Hb. destruct (DaysInYear_cases (year c)) as [Hc _].
  destruct Hv as (Hy & _). unfold msPerDay.
  assert (-700000 ≤ DayFromYear (year c) ≤ 3000000) by divmod. lia.
Qed.

(** [Date.UTC(y, m - 1, d)] of a calendar date. *)
Lemma UTC_civil c :
  validCivil c →
  UTC (Some (year c)) (Some (month c - 1)) (Some (day c)) = Some (civilTime c).
Proof.
  intros Hv. pose proof (civilTime_bounds c Hv) as Hb. destruct Hv as (Hy & _).
  unfold UTC. cbn.
  replace (year c <=? 99) with false by (symmetry; apply Z.leb_gt; lia).
  rewrite andb_false_r. unfold TimeClip. fold (civilTime c).
  by replace (Z.abs (civilTime c) <=? 8640000000000000) with true
    by (symmetry; apply Z.leb_le; lia).
Qed.

(** Calendar order is the order of the time values. *)
Lemma civilTime_mono a b :
  validCivil a → validCivil b → civil_le a b → civilTime a ≤ civilTime b.
Proof.
  intros Ha Hb Hle.
  rewrite (civilTime_Day a), (civilTime_Day b) by (apply Ha || apply Hb).
  apply Z.mul_le_mono_nonneg_r; [done|].
  rewrite !Day_civilTime by (apply Ha || apply Hb).
  pose proof (dayOfYear_bounds a Ha). pose proof (dayOfYear_bounds b Hb).
  destruct Hle as [Hlt|(Hy & Hm)].
  - pose proof (DayFromYear_mono (year a + 1) (year b)).
    destruct (DaysInYear_cases (year a)) as [_ E]. lia.
  - rewrite Hy in *. destruct Ha as (_ & Hma & Hda), Hb as (_ & Hmb & Hdb).
    destruct a as [ya ma da], b as [yb mb db]. cbn [year month day] in *. subst yb.
    destruct Hm as [Hm|[-> Hd]]; [|lia].
    unfold DaysInMonth in Hda.
    destruct (Z.eqb_spec (DaysInYear ya) 365) as [E|E];
      month_cases ma; month_cases mb; try lia; cbn in Hda; eval_monthStart; lia.
Qed.

Ltac digit_cases k :=
  let H := fresh in
  assert (H : k = 0 ∨ k = 1 ∨ k = 2 ∨ k = 3 ∨ k = 4 ∨ k = 5 ∨ k = 6 ∨ k = 7 ∨ k = 8 ∨ k = 9)
    by lia;
  destruct H as [->|[->|[->|[->|[->|[->|[->|[->|[->| ->]]]]]]]]].

Lemma digitValue_digitChar k : 0 ≤ k ≤ 9 → digitValue (digitChar k) = Some k.
Proof. intros H. digit_cases k; reflexivity. Qed.

Lemma digitChar_not_dash k : 0 ≤ k ≤ 9 → Ascii.eqb (digitChar k) "-" = false.
Proof. intros H. digit_cases k; reflexivity. Qed.

Lemma digitsValue_digit acc k s :
  0 ≤ k ≤ 9 → digitsValue acc (String (digitChar k) s) = digitsValue (10 * acc + k) s.
Proof. intros H. cbn [digitsValue]. by rewrite digitValue_digitChar. Qed.

Lemma splitOn_digit cur k s :
  0 ≤ k ≤ 9 →
  splitOn "-" cur (String (digitChar k) s)
  = splitOn "-" (cur +:+ String (digitChar k) EmptyString) s.
Proof. intros H. cbn [splitOn]. by rewrite digitChar_not_dash. Qed.

Lemma digit_range n p : 0 ≤ n / p mod 10 ≤ 9.
Proof. Z.div_mod_to_equations. lia. Qed.

Lemma Number_pad2 n : 0 ≤ n ≤ 99 → Number_ (pad2 n) = Some n.
Proof.
  intros H. unfold Number_, pad2.
  rewrite digitsValue_digit by apply digit_range.
  rewrite digitsValue_digit by (Z.div_mod_to_equations; lia).
  cbn [digitsValue]. f_equal. Z.div_mod_to_equations. lia.
Qed.

Lemma Number_pad4 n : 0 ≤ n ≤ 9999 → Number_ (pad4 n) = Some n.
Proof.
  intros H. unfold Number_, pad4, pad2.
  rewrite !digitsValue_digit by (apply digit_range || (Z.div_mod_to_equations; lia)).
  cbn [digitsValue]. f_equal. Z.div_mod_to_equations. lia.
Qed.

(** The parts of a date string, as [split("-").map(Number)] reads them. *)
Lemma split_iso c :
  split "-" (iso c) = [pad4 (year c); pad2 (month c); pad2 (day c)].
Proof.
  unfold split, iso, pad4, pad2. cbv [String.append].
  repeat (cbn [splitOn];
          first [ rewrite digitChar_not_dash
                    by (apply digit_range || (Z.div_mod_to_equations; lia))
                | rewrite Ascii.eqb_refl ]).
  cbv [String.append]. reflexivity.
Qed.

Lemma parts_iso c :
  validCivil c →
  Number_ <$> split "-" (iso c) = [Some (year c); Some (month c); Some (day c)].
Proof.
  intros (Hy & Hm & Hd). rewrite split_iso. cbn [fmap list_fmap].
  assert (DaysInMonth (year c) (month c) ≤ 31)
    by (unfold DaysInMonth; repeat case_match; lia).
  rewrite Number_pad4, !Number_pad2 by lia. done.
Qed.

Lemma MonthFromTime_range t : 0 ≤ MonthFromTime t ≤ 11.
Proof. unfold MonthFromTime. repeat case_match; lia. Qed.

(** Adding one to the UTC day of the month advances the date by a day. *)
Lemma setUTCDate_next t : setUTCDate t (getUTCDate t + 1) = TimeClip (t + msPerDay).
Proof.
  unfold setUTCDate, getUTCDate, DateFromTime, MakeDay, MakeDate. f_equal.
  pose proof (MonthFromTime_range t) as Hm.
  replace (MonthFromTime t / 12) with 0 by (Z.div_mod_to_equations; lia).
  replace (MonthFromTime t mod 12) with (MonthFromTime t) by (Z.div_mod_to_equations; lia).
  rewrite Z.add_0_r. fold (InLeapYear t). unfold DayWithinYear, TimeWithinDay, Day, msPerDay.
  Z.div_mod_to_equations. lia.
Qed.

End Calendar.

(** No write creates an attendance record. *)
Lemma applyWrite_attendance_none d w e k :
  attendanceAt d e k = None → attendanceAt (applyWrite d w) e k = None.
Proof.
  unfold attendanceAt. destruct w as [e0 v|e0 day|id st|id|month al]; cbn; try done.
  intros H. destruct (decide (e0 = e)) as [->|Hne].
  - rewrite lookup_alter_eq. destruct (attendance d !! e) as [recs|]; [|done]. cbn in *.
    destruct (decide (day = k)) as [->|Hk]; [apply lookup_delete_eq|].
    by rewrite lookup_delete_ne.
  - by rewrite lookup_alter_ne.
Qed.

Lemma applyWrites_attendance_none ws d e k :
  attendanceAt d e k = None → attendanceAt (applyWrites ws d) e k = None.
Proof.
  revert d. induction ws as [|w ws IH]; intros d H; [done|].
  rewrite applyWrites_cons. by apply IH, applyWrite_attendance_none.
Qed.

(** A deletion in an update leaves no record at its key. *)
Lemma applyWrites_removed ws d e k :
  RemoveAttendance e k ∈ ws → attendanceAt (applyWrites ws d) e k = None.
Proof.
  revert d. induction ws as [|w ws IH]; intros d Hin; [by apply elem_of_nil in Hin|].
  rewrite applyWrites_cons. apply elem_of_cons in Hin as [<-|Hin]; [|by apply IH].
  apply applyWrites_attendance_none. unfold attendanceAt. cbn.
  rewrite lookup_alter_eq. destruct (attendance d !! e); [|done]. cbn.
  apply lookup_delete_eq.
Qed.

Lemma applyWrites_removals_frame ws d :
  Forall isAttendanceRemoval ws →
  faculty (applyWrites ws d) = faculty d ∧
  leaveApplications (applyWrites ws d) = leaveApplications d ∧
  monthlyAllocations (applyWrites ws d) = monthlyAllocations d.
Proof.
  intros H. revert d. induction H as [|w ws Hw _ IH]; intros d; [done|].
  destruct w as [e0 v|e0 day|id st|id|month al]; try done. rewrite applyWrites_cons.
  destruct (IH (applyWrite d (RemoveAttendance e0 day))) as (-> & -> & ->). done.
Qed.

Section Leave.
Import JSDate.

Lemma dayRemovals_S e c n :
  LeaveApproval.dayRemovals e c (S n)
  = RemoveAttendance e (toISODate c) :: LeaveApproval.dayRemovals e (c + msPerDay) n.
Proof.
  unfold LeaveApproval.dayRemovals. cbn [seq fmap list_fmap]. f_equal; [by rewrite Z.add_0_r|].
  rewrite <- seq_shift, <- list_fmap_compose. apply list_fmap_ext. intros _ k _. cbn.
  do 2 f_equal. lia.
Qed.

Lemma rejectLoop_run fuel e c l ups :
  Z.abs c ≤ 8640000000000000 → Z.abs l ≤ 8640000000000000 →
  (Z.to_nat ((l - c) / msPerDay + 1) ≤ fuel)%nat →
  LeaveApproval.rejectLoop fuel e (Some c) (Some l) ups
  = ups ++ LeaveApproval.dayRemovals e c (Z.to_nat ((l - c) / msPerDay + 1)).
Proof.
  revert c ups. induction fuel as [|fuel IH]; intros c ups Hc Hl Hfuel.
  - assert (E : Z.to_nat ((l - c) / msPerDay + 1) = 0%nat) by lia. rewrite E.
    cbn. rewrite app_nil_r. by destruct (c <=? l).
  - cbn [LeaveApproval.rejectLoop]. destruct (Z.leb_spec c l) as [Hle|Hgt].
    + rewrite setUTCDate_next. unfold TimeClip.
      assert (E : Z.to_nat ((l - c) / msPerDay + 1)
                  = S (Z.to_nat ((l - (c + msPerDay)) / msPerDay + 1))).
      { unfold msPerDay. Z.div_mod_to_equations. lia. }
      destruct (Z.leb_spec (Z.abs (c + msPerDay)) 8640000000000000) as [Hin|Hout].
      * rewrite IH by (try done; lia). rewrite E, dayRemovals_S.
        by rewrite <- app_assoc.
      * assert (E1 : Z.to_nat ((l - (c + msPerDay)) / msPerDay + 1) = 0%nat).
        { unfold msPerDay in *. Z.div_mod_to_equations. lia. }
        rewrite E, E1, dayRemovals_S. by destruct fuel.
    + assert (E : Z.to_nat ((l - c) / msPerDay + 1) = 0%nat).
      { unfold msPerDay. Z.div_mod_to_equations. lia. }
      rewrite E. cbn. by rewrite app_nil_r.
Qed.

(** The loop stops by its own test: more fuel changes nothing. *)
Lemma rejectLoop_fuel fuel e c l ups :
  Z.abs c ≤ 8640000000000000 → Z.abs l ≤ 8640000000000000 →
  (LeaveApproval.rejectFuel (Some c) (Some l) ≤ fuel)%nat →
  LeaveApproval.rejectLoop fuel e (Some c) (Some l) ups
  = LeaveApproval.rejectLoop (LeaveApproval.rejectFuel (Some c) (Some l)) e (Some c) (Some l) ups.
Proof.
  intros Hc Hl Hf. cbn [LeaveApproval.rejectFuel] in *. by rewrite !rejectLoop_run.
Qed.

Lemma dayRemovals_are_removals e c n : Forall isAttendanceRemoval (LeaveApproval.dayRemovals e c n).
Proof. unfold LeaveApproval.dayRemovals. apply Forall_fmap, Forall_forall. by intros. Qed.

(** The updates that [rejectLeave] submits for a leave over calendar
    dates: the status, then one deletion for every day from the first to
    the last. *)
Lemma rejectUpdates_civil leaveId L a b :
  validCivil a → validCivil b → startDate L = iso a → endDate L = iso b →
  LeaveApproval.rejectUpdates leaveId L
  = SetLeaveStatus leaveId Rejected
    :: LeaveApproval.dayRemovals (la_empId L) (civilTime a)
         (Z.to_nat ((civilTime b - civilTime a) / msPerDay + 1)).
Proof.
  intros Ha Hb Hs He. unfold LeaveApproval.rejectUpdates. rewrite Hs, He, !parts_iso by done.
  cbn [part lookup list_lookup mjoin option_join fmap option_fmap option_map].
  rewrite !UTC_civil by done. cbn [LeaveApproval.rejectFuel].
  rewrite rejectLoop_run by (try apply civilTime_bounds; done). done.
Qed.

(** Every calendar date of the range has its deletion among them. *)
Lemma dayRemovals_cover e a b d :
  validCivil a → validCivil b → validCivil d → civil_le a d → civil_le d b →
  RemoveAttendance e (iso d)
  ∈ LeaveApproval.dayRemovals e (civilTime a) (Z.to_nat ((civilTime b - civilTime a) / msPerDay + 1)).
Proof.
  intros Ha Hb Hd Had Hdb.
  pose proof (civilTime_mono a d Ha Hd Had) as H1.
  pose proof (civilTime_mono d b Hd Hb Hdb) as H2.
  pose proof (civilTime_Day a (proj1 (proj2 Ha))) as Ea.
  pose proof (civilTime_Day d (proj1 (proj2 Hd))) as Ed.
  unfold LeaveApproval.dayRemovals. apply list_elem_of_fmap.
  exists (Z.to_nat (Day (civilTime d) - Day (civilTime a))). split.
  - rewrite <- (toISODate_civilTime d) by done. do 2 f_equal.
    unfold msPerDay in *. lia.
  - apply list_elem_of_In, in_seq. unfold msPerDay in *. split; [lia|].
    cbn. Z.div_mod_to_equations. lia.
Qed.

(** *** Rejecting a leave *)

Lemma rejectLeave_resolves leaveId s w L :
  List.find (λ app, String.eqb (la_id app) leaveId) (LeaveApproval.leaveApplications s)
  = Some L →
  verdict w = None →
  LeaveApproval.rejectLeave leaveId s w
  = (Ok tt,
     LeaveApproval.mkState
       (LeaveApproval.markStatus leaveId Rejected (LeaveApproval.leaveApplications s))
       (LeaveApproval.error s) (LeaveApproval.loading s),
     mkWorld (applyWrites (LeaveApproval.rejectUpdates leaveId L) (db w)) (tail (net w))
       (log w ++ [Update (LeaveApproval.rejectUpdates leaveId L)])).
Proof.
  intros Hfind Hv.
  unfold LeaveApproval.rejectLeave, LeaveApproval.setLeaveApplications, tryCatch, bind,
    getState, setState, throw, fb_update, await.
  cbn. rewrite Hfind, Hv. done.
Qed.

Lemma markStatus_status leaveId st apps app :
  app ∈ LeaveApproval.markStatus leaveId st apps → la_id app = leaveId → la_status app = st.
Proof.
  unfold LeaveApproval.markStatus. intros Hin Hid.
  apply list_elem_of_fmap in Hin as (app0 & -> & _).
  destruct (String.eqb_spec (la_id app0) leaveId) as [E|E]; [done|].
  by destruct (String.eqb (la_id app0) leaveId).
Qed.

(** C3: for a leave whose start date is not after its end date, a
    [rejectLeave] whose write resolves leaves the application Rejected, in
    the hook and in the database, and no attendance record of the
    employee on any calendar date from the start date to the end date
    inclusive.  The status change and all the deletions form one
    multi-path [update], whose paths are enumerated by stepping one UTC
    day at a time from the UTC midnight of the start date. *)
Theorem reject_clears_the_date_range :
  ∀ (leaveId : string) (s : LeaveApproval.State) (w : World)
    (L : LeaveApplicationRecord) (a b : Civil),
    List.find (λ app, String.eqb (la_id app) leaveId) (LeaveApproval.leaveApplications s)
    = Some L →
    validCivil a → validCivil b → startDate L = iso a → endDate L = iso b →
    civil_le a b →
    verdict w = None →
    ∃ s' w' updates,
      LeaveApproval.rejectLeave leaveId s w = (Ok tt, s', w') ∧
      (∀ app, app ∈ LeaveApproval.leaveApplications s' → la_id app = leaveId →
              la_status app = Rejected) ∧
      nodeStatus <$> leaveApplications (db w') !! leaveId = Some Rejected ∧
      (∀ d, validCivil d → civil_le a d → civil_le d b →
            attendanceAt (db w') (la_empId L) (iso d) = None) ∧
      log w' = log w ++ [Update updates] ∧
      db w' = applyWrites updates (db w) ∧
      updates
      = SetLeaveStatus leaveId Rejected
        :: ((λ k : nat, RemoveAttendance (la_empId L)
                          (toISODate (civilTime a + Z.of_nat k * msPerDay)))
              <$> seq 0 (Z.to_nat ((civilTime b - civilTime a) / msPerDay + 1))).
Proof.
  intros leaveId s w L a b Hfind Ha Hb Hs He Hab Hv.
  eexists _, _, _. split; [by apply rejectLeave_resolves|].
  rewrite (rejectUpdates_civil leaveId L a b) by done. cbn [db log LeaveApproval.leaveApplications].
  split; [intros app; apply markStatus_status|].
  split.
  { rewrite applyWrites_cons.
    destruct (applyWrites_removals_frame _ (applyWrite (db w) (SetLeaveStatus leaveId Rejected))
                (dayRemovals_are_removals (la_empId L) (civilTime a)
                   (Z.to_nat ((civilTime b - civilTime a) / msPerDay + 1))))
      as (_ & -> & _).
    cbn. rewrite lookup_partial_alter_eq. unfold writeLeaveStatus. cbn.
    by destruct (leaveApplications (db w) !! leaveId) as [[]|]. }
  split.
  { intros d Hd Had Hdb. apply applyWrites_removed. right. by apply dayRemovals_cover. }
  done.
Qed.

Lemma civilTime_inj a b :
  validCivil a → validCivil b → civilTime a = civilTime b → a = b.
Proof.
  intros Ha Hb E.
  pose proof (YearFromTime_civilTime a Ha) as Hy.
  destruct (MonthFromTime_civilTime a Ha) as [Hm Hd].
  rewrite E in Hy, Hm, Hd.
  rewrite YearFromTime_civilTime in Hy by done.
  destruct (MonthFromTime_civilTime b Hb) as [Hm' Hd']. rewrite Hm' in Hm. rewrite Hd' in Hd.
  destruct a, b. cbn in *. f_equal; lia.
Qed.

Lemma civilTime_strict a b :
  validCivil a → validCivil b → civil_lt a b → civilTime a < civilTime b.
Proof.
  intros Ha Hb [Hle Hne]. pose proof (civilTime_mono a b Ha Hb Hle).
  destruct (Z.eq_dec (civilTime a) (civilTime b)) as [E|]; [|lia].
  by apply civilTime_inj in E.
Qed.

Lemma length_pad2 n : String.length (pad2 n) = 2%nat.
Proof. done. Qed.

Lemma length_pad4 n : String.length (pad4 n) = 4%nat.
Proof. done. Qed.

(** [new Date(s)] of a date string. *)
Lemma parse_iso c : validCivil c → parse (iso c) = Some (civilTime c).
Proof.
  intros Hv. pose proof (civilTime_bounds c Hv) as Hb. unfold parse.
  rewrite split_iso, length_pad4, !length_pad2. cbn [Nat.eqb andb].
  destruct Hv as (Hy & Hm & Hd).
  assert (DaysInMonth (year c) (month c) ≤ 31)
    by (unfold DaysInMonth; repeat case_match; lia).
  rewrite Number_pad4, !Number_pad2 by lia. cbn [mbind option_bind].
  replace (1 <=? month c) with true by (symmetry; apply Z.leb_le; lia).
  replace (month c <=? 12) with true by (symmetry; apply Z.leb_le; lia).
  replace (1 <=? day c) with true by (symmetry; apply Z.leb_le; lia).
  replace (day c <=? 31) with true by (symmetry; apply Z.leb_le; lia).
  cbn [andb]. unfold TimeClip. fold (civilTime c).
  by replace (Z.abs (civilTime c) <=? 8640000000000000) with true
    by (symmetry; apply Z.leb_le; lia).
Qed.

(** On an inverted range the loops do not run. *)
Lemma rejectUpdates_inverted leaveId L a b :
  validCivil a → validCivil b → startDate L = iso a → endDate L = iso b →
  civil_lt b a →
  LeaveApproval.rejectUpdates leaveId L = [SetLeaveStatus leaveId Rejected].
Proof.
  intros Ha Hb Hs He Hlt. rewrite (rejectUpdates_civil leaveId L a b) by done.
  pose proof (civilTime_strict b a Hb Ha Hlt).
  replace (Z.to_nat _) with 0%nat; [done|].
  unfold msPerDay. Z.div_mod_to_equations. lia.
Qed.

Lemma deleteUpdates_inverted z fuel e leave a b :
  validCivil a → validCivil b → startDate leave = iso a → endDate leave = iso b →
  civil_lt b a →
  FacultyDetail.deleteUpdates z fuel e leave = Some [RemoveLeave (la_id leave)].
Proof.
  intros Ha Hb Hs He Hlt. unfold FacultyDetail.deleteUpdates.
  rewrite Hs, He, !parse_iso by done.
  pose proof (civilTime_strict b a Hb Ha Hlt).
  destruct fuel; cbn [FacultyDetail.deleteLoop];
    by replace (civilTime a <=? civilTime b) with false by (symmetry; apply Z.leb_gt; lia).
Qed.

(** [fetchData] only reads, and catches its own failures. *)
Lemma fetchData_reads h e s w :
  e ≠ 0 →
  ∃ s', FacultyDetail.fetchData h e s w
        = (Ok tt, s',
           mkWorld (db w) (drop 3 (net w))
             (log w ++ [Get ("faculty/" +:+ pretty e);
                        Get ("attendance/" +:+ pretty e +:+ "/records");
                        Get "leaveApplications"])).
Proof.
  intros He. apply Z.eqb_neq in He.
  unfold FacultyDetail.fetchData, FacultyDetail.getAll3, FacultyDetail.setLoading,
    FacultyDetail.setError, FacultyDetail.setFaculty, FacultyDetail.setAttendance,
    FacultyDetail.setLeaveApplications, tryCatch, bind, setState, throw, ret.
  rewrite He. cbn.
  destruct (List.find _ (take 3 (net w))) as [[msg|]|]; cbn; try (by eexists);
    destruct (faculty (db w) !! e); cbn; by eexists.
Qed.

(** C4, as the code has it: a leave whose end date is before its start
    date is not refused.  [rejectLeave] issues one update that sets the
    status to Rejected and deletes no attendance record; [deleteLeave]
    issues one update that removes the application and deletes no
    attendance record.  Both resolve, and the attendance is unchanged. *)
Theorem inverted_range_is_not_refused :
  ∀ (leaveId : string) (s : LeaveApproval.State) (h : FacultyDetail.Host) (fuel : nat)
    (e : Z) (sd : FacultyDetail.State) (w : World) (L : LeaveApplicationRecord)
    (a b : Civil),
    validCivil a → validCivil b → startDate L = iso a → endDate L = iso b →
    civil_lt b a → verdict w = None →
    (List.find (λ app, String.eqb (la_id app) leaveId) (LeaveApproval.leaveApplications s)
     = Some L →
     ∃ s' w',
       LeaveApproval.rejectLeave leaveId s w = (Ok tt, s', w') ∧
       log w' = log w ++ [Update [SetLeaveStatus leaveId Rejected]] ∧
       db w' = applyWrite (db w) (SetLeaveStatus leaveId Rejected) ∧
       attendance (db w') = attendance (db w))
    ∧
    (e ≠ 0 →
     ∃ s' w',
       FacultyDetail.deleteLeave h fuel e L sd w = Some (Ok tt, s', w') ∧
       writesOf (log w') = writesOf (log w) ++ [Update [RemoveLeave (la_id L)]] ∧
       db w' = applyWrite (db w) (RemoveLeave (la_id L)) ∧
       attendance (db w') = attendance (db w)).
Proof.
  intros leaveId s h fuel e sd w L a b Ha Hb Hs He Hlt Hv. split.
  - intros Hfind. eexists _, _. split; [by apply rejectLeave_resolves|].
    rewrite (rejectUpdates_inverted leaveId L a b) by done. done.
  - intros Hne. unfold FacultyDetail.deleteLeave.
    rewrite (deleteUpdates_inverted _ _ _ _ a b) by done.
    apply Z.eqb_neq in Hne as Hne'. rewrite Hne'. cbn [mbind option_bind].
    unfold tryCatch, bind, FacultyDetail.setError, setState, fb_update, await.
    rewrite Hv.
    match goal with
    | |- context [FacultyDetail.fetchData h e ?s1 ?w1] =>
        destruct (fetchData_reads h e s1 w1 Hne) as [s' Hfetch]; rewrite Hfetch
    end.
    eexists _, _. split; [done|]. cbn [log db]. split; [|done].
    unfold writesOf. rewrite !List.filter_app. cbn. by rewrite app_nil_r.
Qed.

(** C7, as the code has it: [approveLeave] issues exactly one update, of
    the single path [leaveApplications/{id}/status], and touches neither
    attendance nor balances nor allocation markers.  It does not look the
    id up: when the write resolves the call succeeds, whether or not the
    id is known, and the status stored under the id is Approved.  When
    the write is rejected the hook is put back to its state before the
    call and the error "Failed to approve leave. Please try again." is
    thrown. *)
Theorem approve_writes_status_only :
  ∀ (leaveId : string) (s : LeaveApproval.State) (w : World),
    ∃ r s' w',
      LeaveApproval.approveLeave leaveId s w = (r, s', w') ∧
      log w' = log w ++ [Update [SetLeaveStatus leaveId Approved]] ∧
      faculty (db w') = faculty (db w) ∧
      attendance (db w') = attendance (db w) ∧
      monthlyAllocations (db w') = monthlyAllocations (db w) ∧
      match verdict w with
      | None =>
          r = Ok tt ∧
          LeaveApproval.leaveApplications s'
          = LeaveApproval.markStatus leaveId Approved (LeaveApproval.leaveApplications s) ∧
          db w' = applyWrite (db w) (SetLeaveStatus leaveId Approved) ∧
          nodeStatus <$> leaveApplications (db w') !! leaveId = Some Approved
      | Some _ =>
          r = Throw "Failed to approve leave. Please try again." ∧ s' = s ∧ db w' = db w
      end.
Proof.
  intros leaveId s w.
  unfold LeaveApproval.approveLeave, LeaveApproval.setLeaveApplications, tryCatch, bind,
    getState, setState, throw, fb_update, await.
  destruct (verdict w) as [msg|]; cbn; eexists _, _, _; (split; [reflexivity|]); cbn.
  - repeat split; try done. by destruct s.
  - repeat split; try done. rewrite lookup_partial_alter_eq. unfold writeLeaveStatus. cbn.
    by destruct (leaveApplications (db w) !! leaveId) as [[]|].
Qed.

End Leave.

(** ** Worked instances *)

Section Instances.
Import Sample.

Ltac by_computation := vm_compute; reflexivity.


(** The run on the roster ends with a success message. *)
Lemma allocation_ran :
  MonthlyActions.handleAllocateCL clock actions (online roster)
  = (allocation.1.1, allocation.1.2, allocation.2) ∧
  MonthlyActions.ranToCompletion allocation.1.2.
Proof. split; [by_computation|]. eexists; split; by_computation. Qed.

(** Asha, absent on 3 April, keeps 2 casual leaves; Ravi, whose only
    absence is in March, goes from 0 to 1, and Mira, without any record,
    from 1 to 2. *)
Lemma allocate_grants_exactly_the_unabsent_witness :
  faculty (db allocation.2) !! 1 = Some (member "Asha" 3000 2) ∧
  (faculty roster !! 2 ≫= casualLeaves = Some 0 ∧
   faculty (db allocation.2) !! 2 ≫= casualLeaves = Some 1) ∧
  (faculty roster !! 3 ≫= casualLeaves = Some 1 ∧
   faculty (db allocation.2) !! 3 ≫= casualLeaves = Some 2).
Proof.
  destruct allocation_ran as [Hrun Hok].
  assert (Hna : ∀ e, bool_decide (e ∈ MonthlyActions.facultyWithAbsences "2024-04"
                                        (attendance roster)) = false →
                     ¬ MonthlyActions.absentIn roster "2024-04" e).
  { intros e He. rewrite <- absentees_absentIn. by apply bool_decide_eq_false in He. }
  split; [|split].
  - destruct (allocate_grants_exactly_the_unabsent clock actions (online roster) _ _ _ 1
                (member "Asha" 3000 2) Hrun Hok eq_refl) as (_ & Habsent & _).
    apply Habsent. exists "2024-04-03", absent. repeat split; by_computation.
  - destruct (allocate_grants_exactly_the_unabsent clock actions (online roster) _ _ _ 2
                (member "Ravi" 4000 0) Hrun Hok eq_refl) as (_ & _ & Hnone).
    destruct (Hnone (Hna 2 ltac:(by_computation))) as (n' & Hn' & _ & _ & _ & _ & Hup & _).
    split; [by_computation|]. rewrite Hn'. exact (Hup 0 eq_refl).
  - destruct (allocate_grants_exactly_the_unabsent clock actions (online roster) _ _ _ 3
                (member "Mira" 5000 1) Hrun Hok eq_refl) as (_ & _ & Hnone).
    destruct (Hnone (Hna 3 ltac:(by_computation))) as (n' & Hn' & _ & _ & _ & _ & Hup & _).
    split; [by_computation|]. rewrite Hn'. exact (Hup 1 eq_refl).
Defined.

(** On the all-absent roster the marker, with [updatedCount = 0], is the
    only write. *)
Lemma allocate_always_writes_marker_witness :
  monthlyAllocations (db emptyAllocation.2) !! "2024-04"
  = Some (mkAllocationNode true clock 0) ∧
  faculty (db emptyAllocation.2) = faculty allAbsent ∧
  writesOf (log emptyAllocation.2)
  = [Set_ (SetAllocation "2024-04" (mkAllocationNode true clock 0))].
Proof.
  assert (Hrun : MonthlyActions.handleAllocateCL clock actions (online allAbsent)
                 = (emptyAllocation.1.1, emptyAllocation.1.2, emptyAllocation.2))
    by by_computation.
  assert (Hok : MonthlyActions.ranToCompletion emptyAllocation.1.2)
    by (eexists; split; by_computation).
  destruct (allocate_always_writes_marker clock actions (online allAbsent) _ _ _ Hrun Hok)
    as (Hmark & _ & _ & Hzero).
  assert (H0 : (MonthlyActions.planned "2024-04" allAbsent).2 = 0) by by_computation.
  destruct (Hzero H0) as (Hfac & Hlog & _).
  split; [by rewrite <- H0|]. split; [exact Hfac|]. rewrite Hlog. reflexivity.
Defined.



(** The payroll scenario, the five late days, and a third and two thirds
    of a salary of 1000, rounded down to 333.33 and up to 666.67. *)
Lemma calculateSummary_follows_steps_witness :
  SummaryData.calculateSummary payroll = [ashaRow] ∧
  (presentDays ashaRow = 15 ∧ casualLeavesUsed ashaRow = 2 ∧ unpaidLeave ashaRow = 3 ∧
   totalLeaves ashaRow = 3%Q ∧ payableDays ashaRow = 17%Q ∧
   calculatedSalary ashaRow = 2550%float) ∧
  (permissions lateRow = 2 ∧ halfDayLeaves lateRow = 3 ∧
   (totalLeaves lateRow == inject_Z (unpaidLeave lateRow) + (15 # 10))%Q) ∧
  payableDays <$> SummaryData.calculateSummary thirds = [1%Q; 2%Q] ∧
  calculatedSalary <$> SummaryData.calculateSummary thirds
  = [Q2float (33333 # 100); Q2float (66667 # 100)].
Proof.
  destruct calculateSummary_follows_steps as (Hsteps & Hscenario & Hlate).
  split; [|split; [|split; [|split]]].
  - rewrite (Hsteps payroll) by (cbn; lia). by_computation.
  - apply (Hscenario (SummaryData.rawAttendance payroll) "2024-04" 2 asha);
      (by_computation || (cbn; lia)).
  - apply (Hlate fiveLate "2024-04" 20 asha). by_computation.
  - rewrite (Hsteps thirds) by (cbn; lia). by_computation.
  - rewrite (Hsteps thirds) by (cbn; lia). by_computation.
Defined.

(** April 2024 with thirty holidays. *)
Lemma zero_working_days_zero_salary_witness :
  length (SummaryData.calculateSummary closedMonth) = 1%nat ∧
  ∀ row, row ∈ SummaryData.calculateSummary closedMonth → calculatedSalary row = 0%float.
Proof.
  assert (Hm : 0 < SummaryData.monthlyWorkingDays closedMonth) by (cbn; lia).
  assert (Hw : SummaryData.actualWorkingDays closedMonth = 0) by by_computation.
  destruct (zero_working_days_zero_salary closedMonth Hm Hw) as (Hlen & Hrows & _).
  split; [exact Hlen | exact Hrows].
Defined.

(** The three calls of [finalizeAndDeductCLs] and their messages. *)
Lemma finalized_runs :
  SummaryData.finalizeAndDeductCLs payrollReady (online roster)
  = (Ok "CL deductions applied to 1 faculty members.", finalizedOnce.1.2, finalizedOnce.2) ∧
  SummaryData.finalizeAndDeductCLs finalizedOnce.1.2 finalizedOnce.2
  = (Ok "CL deductions applied to 1 faculty members.", finalizedTwice.1.2, finalizedTwice.2) ∧
  SummaryData.finalizeAndDeductCLs recalculated finalizedOnce.2
  = (Ok "No CL deductions needed.", finalizedAfresh.1.2, finalizedAfresh.2).
Proof. repeat split; by_computation. Qed.

(** Asha's balance of 2 with 2 casual leaves used: 0 is stored by the
    first call, by a second call on the same summary, and by a second
    call on the recalculated summary. *)
Lemma finalize_writes_absolute_balances_witness :
  SummaryData.storedBalance roster 1 = Some 2 ∧
  SummaryData.storedBalance (db finalizedOnce.2) 1 = Some 0 ∧
  SummaryData.storedBalance (db finalizedTwice.2) 1 = Some 0 ∧
  SummaryData.storedBalance (db finalizedAfresh.2) 1 = Some 0.
Proof.
  destruct finalized_runs as (H1 & H2 & H3).
  destruct finalize_writes_absolute_balances as [Hsame Hafresh].
  assert (Hnd : NoDup (ms_empId <$> SummaryData.summaryData payrollReady)).
  { refine (bool_decide_unpack _ _). by_computation. }
  assert (Hnd' : NoDup (empId <$> SummaryData.facultyList payrollReady)).
  { refine (bool_decide_unpack _ _). by_computation. }
  assert (Hrow : ashaRow ∈ SummaryData.summaryData payrollReady).
  { replace (SummaryData.summaryData payrollReady) with [ashaRow] by by_computation. left. }
  assert (Hf : asha ∈ SummaryData.facultyList payrollReady) by (cbn; left).
  assert (Hused : 0 < casualLeavesUsed ashaRow) by by_computation.
  assert (Hm : 0 < SummaryData.monthlyWorkingDays payrollReady) by (cbn; lia).
  destruct (Hsame _ _ _ _ _ _ _ _ ashaRow H1 H2 Hnd Hrow Hused) as (_ & Hs1 & Hs2 & _).
  pose proof (Hafresh payrollReady (online roster) _ _ _ _ _ _ asha
                ltac:(by_computation) Hm Hnd' Hf ltac:(by_computation) H1 H3) as Hs3.
  split; [by_computation|]. split; [exact Hs1|]. split; [exact Hs2 | exact Hs3].
Defined.

(** The leave from 27 February to 2 March 2024, across the leap day. *)
Lemma reject_clears_the_date_range_witness :
  ∃ s' w',
    LeaveApproval.rejectLeave "L1" approvals (online leaves) = (Ok tt, s', w') ∧
    nodeStatus <$> leaveApplications (db w') !! "L1" = Some Rejected ∧
    attendanceAt (db w') 7 "2024-02-27" = None ∧
    attendanceAt (db w') 7 "2024-02-28" = None ∧
    attendanceAt (db w') 7 "2024-02-29" = None ∧
    attendanceAt (db w') 7 "2024-03-01" = None ∧
    attendanceAt (db w') 7 "2024-03-02" = None ∧
    length (log w') = 1%nat.
Proof.
  set (a := JSDate.mkCivil 2024 2 27). set (b := JSDate.mkCivil 2024 3 2).
  assert (Hvalid : ∀ y m d, (100 <=? y) && (y <=? 9999) && (1 <=? m) && (m <=? 12)
                            && (1 <=? d) && (d <=? JSDate.DaysInMonth y m) = true →
                            JSDate.validCivil (JSDate.mkCivil y m d)).
  { intros y m d H. unfold JSDate.validCivil. cbn [JSDate.year JSDate.month JSDate.day].
    repeat (apply andb_true_iff in H as [H ?]). lia. }
  assert (Hle : ∀ x y, (JSDate.year x =? JSDate.year y) && (JSDate.month x <? JSDate.month y)
                       = true → JSDate.civil_le x y).
  { intros x y H. apply andb_true_iff in H as [H1 H2]. right. split; [lia|]. left. lia. }
  assert (Hle' : ∀ x y, (JSDate.year x =? JSDate.year y) && (JSDate.month x =? JSDate.month y)
                        && (JSDate.day x <=? JSDate.day y) = true → JSDate.civil_le x y).
  { intros x y H. repeat (apply andb_true_iff in H as [H ?]). right. split; [lia|].
    right. lia. }
  destruct (reject_clears_the_date_range "L1" approvals (online leaves) leave1 a b
              eq_refl (Hvalid 2024 2 27 eq_refl) (Hvalid 2024 3 2 eq_refl) eq_refl eq_refl
              (Hle a b eq_refl) eq_refl)
    as (s' & w' & updates & Hrun & _ & Hstatus & Hclear & Hlog & _).
  pose (feb d := JSDate.mkCivil 2024 2 d). pose (mar d := JSDate.mkCivil 2024 3 d).
  exists s', w'. split; [exact Hrun|]. split; [exact Hstatus|].
  split; [exact (Hclear (feb 27) (Hvalid 2024 2 27 eq_refl)
                   (Hle' a (feb 27) eq_refl) (Hle (feb 27) b eq_refl))|].
  split; [exact (Hclear (feb 28) (Hvalid 2024 2 28 eq_refl)
                   (Hle' a (feb 28) eq_refl) (Hle (feb 28) b eq_refl))|].
  split; [exact (Hclear (feb 29) (Hvalid 2024 2 29 eq_refl)
                   (Hle' a (feb 29) eq_refl) (Hle (feb 29) b eq_refl))|].
  split; [exact (Hclear (mar 1) (Hvalid 2024 3 1 eq_refl)
                   (Hle a (mar 1) eq_refl) (Hle' (mar 1) b eq_refl))|].
  split; [exact (Hclear (mar 2) (Hvalid 2024 3 2 eq_refl)
                   (Hle a (mar 2) eq_refl) (Hle' (mar 2) b eq_refl))|].
  rewrite Hlog. reflexivity.
Defined.

(** The leave from 10 March back to 5 March 2024. *)
Lemma inverted_range_is_not_refused_witness :
  (∃ s' w',
     LeaveApproval.rejectLeave "L2" approvals (online leaves) = (Ok tt, s', w') ∧
     log w' = [Update [SetLeaveStatus "L2" Rejected]] ∧
     attendance (db w') = attendance leaves) ∧
  (∃ s' w',
     FacultyDetail.deleteLeave host 0 7 leave2 detail (online leaves) = Some (Ok tt, s', w') ∧
     writesOf (log w') = [Update [RemoveLeave "L2"]] ∧
     attendance (db w') = attendance leaves).
Proof.
  set (a := JSDate.mkCivil 2024 3 10). set (b := JSDate.mkCivil 2024 3 5).
  assert (Ha : JSDate.validCivil a) by (unfold JSDate.validCivil; cbn; lia).
  assert (Hb : JSDate.validCivil b) by (unfold JSDate.validCivil; cbn; lia).
  assert (Hlt : JSDate.civil_lt b a).
  { split; [right; cbn; lia | intros H; discriminate H]. }
  destruct (inverted_range_is_not_refused "L2" approvals host 0 7 detail (online leaves)
              leave2 a b Ha Hb eq_refl eq_refl Hlt eq_refl) as [Hreject Hdelete].
  split.
  - destruct (Hreject eq_refl) as (s' & w' & Hrun & Hlog & _ & Hatt). by exists s', w'.
  - assert (H7 : 7 ≠ 0) by lia.
    destruct (Hdelete H7) as (s' & w' & Hrun & Hlog & _ & Hatt). by exists s', w'.
Defined.

(** *** Where the code departs from the specification *)


(** The inverted leave is rejected, and deleted, without any refusal. *)
Lemma inverted_range_counterexample :
  startDate leave2 = "2024-03-10" ∧ endDate leave2 = "2024-03-05" ∧
  nodeStatus <$> leaveApplications leaves !! "L2" = Some Pending ∧
  (let '(r, _, w') := LeaveApproval.rejectLeave "L2" approvals (online leaves) in
   r = Ok tt ∧
   log w' = [Update [SetLeaveStatus "L2" Rejected]] ∧
   nodeStatus <$> leaveApplications (db w') !! "L2" = Some Rejected) ∧
  (∃ s' w',
     FacultyDetail.deleteLeave host 0 7 leave2 detail (online leaves) = Some (Ok tt, s', w') ∧
     writesOf (log w') = [Update [RemoveLeave "L2"]] ∧
     leaveApplications (db w') !! "L2" = None).
Proof.
  do 3 (split; [by_computation|]). split.
  - vm_compute. repeat split; reflexivity.
  - eexists _, _. split; [by_computation|]. split; by_computation.
Qed.

(** Two calls do not leave [available - 2 * used]. *)
Lemma finalize_twice_counterexample :
  SummaryData.summaryData payrollReady = [ashaRow] ∧
  casualLeavesAvailable ashaRow = 2 ∧ casualLeavesUsed ashaRow = 2 ∧
  SummaryData.storedBalance roster 1 = Some 2 ∧
  SummaryData.storedBalance (db finalizedTwice.2) 1 = Some 0 ∧
  SummaryData.storedBalance (db finalizedAfresh.2) 1 = Some 0 ∧
  Some 0 ≠ Some (2 - 2 * 2).
Proof. repeat split; try by_computation. intros H; discriminate H. Qed.

(** Approving an id that is neither in the hook nor in the database
    succeeds. *)
Lemma approve_absent_id_counterexample :
  List.find (λ app, String.eqb (la_id app) "L9") (LeaveApproval.leaveApplications approvals)
  = None ∧
  leaveApplications leaves !! "L9" = None ∧
  let '(r, _, w') := LeaveApproval.approveLeave "L9" approvals (online leaves) in
  r = Ok tt ∧
  log w' = [Update [SetLeaveStatus "L9" Approved]] ∧
  leaveApplications (db w') !! "L9" = Some (StatusOnly Approved).
Proof.
  split; [by_computation|]. split; [by_computation|].
  vm_compute. repeat split; reflexivity.
Qed.

End Instances.

(* ===================================================================== *)
(** * Further properties *)

Arguments Act.next : simpl never.

(** ** Monthly allocation: failures and the marker *)

Section AllocationFailures.
Import MonthlyActions.

(** The handler unfolded down to the verdicts of its calls. *)
Ltac case_calls Hrun :=
  repeat match type of Hrun with
  | context [verdict ?w] => destruct (verdict w) eqn:?; cbn in Hrun
  | context [decide (?a = ?b)] => destruct (decide (a = b)); cbn in Hrun
  | context [prepareUpdates ?a ?b] =>
      destruct (prepareUpdates a b) as [updates count] eqn:?; cbn in Hrun
  | context [0 <? ?n] => destruct (0 <? n) eqn:?; cbn in Hrun
  end.

Ltac run_allocation Hrun :=
  unfold handleAllocateCL, bind, getState in Hrun;
  unfold tryCatch, setIsLoading, setFeedback, setIsAllocationComplete, setState, fb_get,
    fb_update, fb_set, await, throw, ret, bind in Hrun;
  cbn in Hrun; case_calls Hrun.

(** X1: A run of [handleAllocateCL] on a month that is not marked complete
    and that does not end with a success message returns normally with the
    feedback 'Allocation failed: ...' and the loading flag cleared; the
    month stays unmarked, attendance and leave applications are untouched,
    and with an empty faculty collection nothing at all is written. *)
Theorem allocation_failure_leaves_month_unlocked :
  ∀ (now : string) (c : State) (w : World) r c' w',
    handleAllocateCL now c w = (r, c', w') →
    isAllocationComplete c = false → ¬ ranToCompletion c' →
    r = Ok tt ∧
    (∃ msg, feedback c' = Some (mkFeedback error ("Allocation failed: " +:+ msg))) ∧
    isAllocationComplete c' = false ∧ isLoading c' = false ∧
    monthlyAllocations (db w') = monthlyAllocations (db w) ∧
    attendance (db w') = attendance (db w) ∧
    leaveApplications (db w') = leaveApplications (db w) ∧
    (faculty (db w) = ∅ → db w' = db w ∧ writesOf (log w') = writesOf (log w)).
Proof.
  intros now c w r c' w' Hrun Hlock Hfail.
  assert (Hframe : ∀ A d,
    let ups := (prepareUpdates A (facultyRecords d)).1 in
    attendance (applyWrites ups d) = attendance d ∧
    leaveApplications (applyWrites ups d) = leaveApplications d ∧
    monthlyAllocations (applyWrites ups d) = monthlyAllocations d).
  { intros A d. cbn zeta. rewrite prepareUpdates_spec. cbn [fst].
    apply applyWrites_casualLeaves_frame, Forall_fmap, Forall_forall. by intros. }
  run_allocation Hrun.
  all: rewrite Hlock in Hrun; cbn in Hrun.
  all: case_calls Hrun.
  all: inversion Hrun; subst; clear Hrun.
  all: try (exfalso; apply Hfail; eexists; split; [reflexivity|apply successFeedback_type]).
  all: cbn; rewrite ?Hlock.
  all: repeat split; eauto.
  all: try (intros He; congruence).
  all: try match goal with
       | H : prepareUpdates ?A (_ <$> map_to_list (faculty ?d)) = (?u, _) |- _ =>
           pose proof (Hframe A d) as Hf; cbv zeta in Hf; unfold facultyRecords in Hf;
           rewrite H in Hf; cbn [fst] in Hf; destruct Hf as (? & ? & ?); congruence
       end.
  all: try (unfold writesOf; rewrite !List.filter_app; cbn; by rewrite ?app_nil_r).
Qed.

(** The number of updates is the number of employees without an absence. *)
Lemma planned_count M d :
  (planned M d).2
  = Z.of_nat (size (dom (faculty d) ∖ facultyWithAbsences M (attendance d))).
Proof.
  unfold planned. rewrite prepareUpdates_spec. cbn [snd]. f_equal.
  set (A := facultyWithAbsences M (attendance d)).
  assert (Hnd : NoDup (empId <$> List.filter (eligible A) (facultyRecords d))).
  { apply filter_fmap_NoDup. rewrite facultyRecords_ids. apply NoDup_fst_map_to_list. }
  rewrite <- (length_fmap empId), <- (size_list_to_set (C := gset Z)) by done.
  f_equal. apply set_eq. intros e.
  rewrite elem_of_list_to_set, list_elem_of_fmap, elem_of_difference, elem_of_dom.
  split.
  - intros (f & -> & Hf). apply list_elem_of_In, filter_In in Hf as [Hf He].
    apply list_elem_of_In, elem_of_facultyRecords in Hf. split; [by eexists|].
    unfold eligible in He. apply negb_true_iff, bool_decide_eq_false in He. done.
  - intros [[n Hn] He]. exists (mkFacultyRecord e n). split; [done|].
    apply list_elem_of_In, filter_In. split.
    + apply list_elem_of_In, elem_of_facultyRecords. done.
    + unfold eligible. cbn. apply negb_true_iff, bool_decide_eq_false. done.
Qed.

(** X2: After a run of [handleAllocateCL] that ends with a success message,
    the marker of the selected month records as [updatedCount] the number of
    employees of [faculty/] without an Absent record in that month; the
    markers of other months, the set of employees, attendance and leave
    applications are unchanged. *)
Theorem allocation_marker_counts_the_unabsent :
  ∀ (now : string) (c : State) (w : World) r c' w',
    handleAllocateCL now c w = (r, c', w') → ranToCompletion c' →
    let M := selectedMonth c in
    (∃ a, monthlyAllocations (db w') !! M = Some a ∧
          updatedCount a
          = Z.of_nat (size (dom (faculty (db w)) ∖ facultyWithAbsences M (attendance (db w))))) ∧
    (∀ M', M' ≠ M → monthlyAllocations (db w') !! M' = monthlyAllocations (db w) !! M') ∧
    dom (faculty (db w')) = dom (faculty (db w)) ∧
    attendance (db w') = attendance (db w) ∧
    leaveApplications (db w') = leaveApplications (db w).
Proof.
  intros now c w r c' w' Hrun Hok M.
  destruct (handleAllocateCL_completes _ _ _ _ _ _ Hrun Hok) as (_ & _ & Hdb & _ & _).
  fold M in Hdb.
  assert (Hframe : attendance (applyWrites (planned M (db w)).1 (db w)) = attendance (db w) ∧
                   leaveApplications (applyWrites (planned M (db w)).1 (db w))
                   = leaveApplications (db w) ∧
                   monthlyAllocations (applyWrites (planned M (db w)).1 (db w))
                   = monthlyAllocations (db w)).
  { unfold planned. rewrite prepareUpdates_spec. cbn [fst].
    apply applyWrites_casualLeaves_frame, Forall_fmap, Forall_forall. by intros. }
  destruct Hframe as (Hatt & Hla & Hma).
  assert (Hdom : dom (faculty (db w')) = dom (faculty (db w))).
  { apply set_eq. intros e. rewrite !elem_of_dom.
    rewrite (handleAllocateCL_balances _ _ _ _ _ _ e Hrun Hok).
    by rewrite fmap_is_Some. }
  rewrite Hdb. unfold marker. cbn.
  split; [|split; [|split; [|split]]].
  - eexists. rewrite lookup_insert_eq. split; [done|]. cbn. apply planned_count.
  - intros M' HM'. rewrite lookup_insert_ne by done. destruct (0 <? _); [by rewrite Hma|done].
  - by rewrite Hdb in Hdom.
  - destruct (0 <? _); [by rewrite Hatt|done].
  - destruct (0 <? _); [by rewrite Hla|done].
Qed.

(** X3: When the three reads and the update of the balances resolve but the
    write of the marker is rejected, [handleAllocateCL] reports 'Allocation
    failed: ...' and the month stays unmarked, while every employee without
    an absence already holds the granted casual leave: the balances are not
    rolled back. *)
Theorem allocation_rejected_marker_keeps_the_grants :
  ∀ (now : string) (c : State) (w : World) (msg : string) (rest : list (option string)),
    isAllocationComplete c = false →
    net w = None :: None :: None :: Some msg :: rest →
    let M := selectedMonth c in
    0 < (planned M (db w)).2 →
    ∃ c' w',
      handleAllocateCL now c w = (Ok tt, c', w') ∧
      feedback c' = Some (mkFeedback error ("Allocation failed: " +:+ msg)) ∧
      isAllocationComplete c' = false ∧
      monthlyAllocations (db w') = monthlyAllocations (db w) ∧
      (∀ e n, faculty (db w) !! e = Some n → ¬ absentIn (db w) M e →
              faculty (db w') !! e = Some (granted n)) ∧
      writesOf (log w') = writesOf (log w) ++ [Update (planned M (db w)).1;
                                               Set_ (marker M now (db w))].
Proof.
  intros now c w msg rest Hlock Hnet M Hcount.
  assert (Hne : faculty (db w) ≠ ∅).
  { intros He. unfold planned, facultyRecords in Hcount. rewrite He, map_to_list_empty in Hcount.
    cbn in Hcount. lia. }
  unfold handleAllocateCL, bind, getState. rewrite Hlock.
  unfold tryCatch, setIsLoading, setFeedback, setIsAllocationComplete, setState, fb_get,
    fb_update, fb_set, await, throw, ret, bind, verdict.
  cbn. rewrite Hnet. cbn.
  destruct (decide (faculty (db w) = ∅)) as [He|_]; [done|]. cbn.
  unfold M, planned, facultyRecords in Hcount |- *.
  destruct (prepareUpdates _ _) as [updates count] eqn:Hp. cbn in Hcount |- *.
  apply Z.ltb_lt in Hcount. rewrite Hcount. cbn.
  eexists _, _. split; [reflexivity|]. cbn. rewrite Hlock.
  split; [done|]. split; [done|].
  assert (Hups : updates = grant <$> List.filter
                   (eligible (facultyWithAbsences (selectedMonth c) (attendance (db w))))
                   (facultyRecords (db w))).
  { unfold facultyRecords. rewrite prepareUpdates_spec in Hp. by inversion Hp. }
  split; [|split].
  - rewrite Hups. apply applyWrites_casualLeaves_frame, Forall_fmap, Forall_forall. by intros.
  - intros e n He Ha. rewrite Hups, faculty_after_grants, He. cbn.
    rewrite decide_False; [done|]. by rewrite absentees_absentIn.
  - unfold writesOf. rewrite !List.filter_app. cbn. rewrite ?app_nil_r, <- ?app_assoc.
    unfold marker, planned, facultyRecords. rewrite Hp. done.
Qed.

End AllocationFailures.

(** ** Monthly summary: the days of a row *)

Section SummaryInvariants.
Import SummaryData.

Lemma calculateSummary_elem s row :
  row ∈ calculateSummary s →
  0 < monthlyWorkingDays s ∧
  ∃ f, f ∈ facultyList s ∧
       row = summarize_steps (rawAttendance s) (selectedMonth s) (permissionLimit s)
               (actualWorkingDays s) f.
Proof.
  intros Hrow.
  destruct (decide (0 < monthlyWorkingDays s)) as [Hm|Hm].
  - split; [done|]. rewrite calculateSummary_rows in Hrow by done.
    apply list_elem_of_fmap in Hrow as (f & -> & Hf). exists f. split; [done|].
    apply summaryRow_steps.
  - unfold calculateSummary in Hrow.
    replace (monthlyWorkingDays s <=? 0) with true in Hrow by (symmetry; apply Z.leb_le; lia).
    rewrite orb_true_r in Hrow. by apply elem_of_nil in Hrow.
Qed.

(** X4: Every row of [calculateSummary] accounts for the working days:
    presentDays + casualLeavesUsed + unpaidLeave is the larger of
    presentDays and the working days, casualLeavesUsed is at most the
    balance, permissions are at most the limit and, for a limit that is not
    negative, permissions + halfDayLeaves is the number of Late records of
    the employee in the month; totalLeaves is unpaidLeave plus half the
    halfDayLeaves, and payableDays lies between 0 and the working days. *)
Theorem summary_row_accounts_for_every_day :
  ∀ (s : State) (row : MonthlySummary),
    row ∈ calculateSummary s →
    let wd := actualWorkingDays s in
    let lateCount :=
      count (λ r, inMonth (selectedMonth s) r && bool_decide (ar_empId r = ms_empId row)
                  && bool_decide (ar_status r = Late))%bool (rawAttendance s) in
    0 ≤ presentDays row ∧ 0 ≤ unpaidLeave row ∧
    casualLeavesUsed row ≤ casualLeavesAvailable row ∧
    presentDays row + casualLeavesUsed row + unpaidLeave row = Z.max (presentDays row) wd ∧
    0 ≤ halfDayLeaves row ∧ permissions row ≤ permissionLimit s ∧
    (0 ≤ permissionLimit s → permissions row + halfDayLeaves row = lateCount) ∧
    (totalLeaves row == inject_Z (unpaidLeave row) + inject_Z (halfDayLeaves row) * (1 # 2))%Q ∧
    (0 <= payableDays row)%Q ∧ (payableDays row <= inject_Z wd)%Q ∧
    (totalLeaves row <= inject_Z wd → payableDays row + totalLeaves row == inject_Z wd)%Q.
Proof.
  intros s row Hrow wd lateCount.
  destruct (calculateSummary_elem s row Hrow) as (Hm & f & Hf & ->).
  subst lateCount. fold wd. unfold summarize_steps.
  cbn [presentDays unpaidLeave casualLeavesUsed casualLeavesAvailable halfDayLeaves
       permissions totalLeaves payableDays ms_empId].
  set (P := count _ (rawAttendance s)).
  set (L := count (λ r, inMonth (selectedMonth s) r && bool_decide (ar_empId r = empId f)
                        && bool_decide (ar_status r = Late))%bool (rawAttendance s)).
  assert (HP : 0 ≤ P) by (unfold P, count; lia).
  assert (HL : 0 ≤ L) by (unfold L, count; lia).
  assert (Hwd : 0 ≤ wd) by (unfold wd, actualWorkingDays; lia).
  set (A := Z.max 0 (wd - P)).
  set (U := A - Z.min A (orZero (casualLeaves f))).
  set (H := Z.max 0 (L - permissionLimit s)).
  assert (HU : 0 ≤ U) by (unfold U; lia).
  assert (HH : 0 ≤ H) by (unfold H; lia).
  set (T := (inject_Z U + inject_Z H * (1 # 2))%Q).
  assert (HT : (0 <= T)%Q).
  { unfold T. apply Qle_trans with (inject_Z U + 0)%Q.
    - rewrite Qplus_0_r. change 0%Q with (inject_Z 0). by rewrite <- Zle_Qle.
    - apply Qplus_le_r. apply Qmult_le_0_compat; [|done].
      change 0%Q with (inject_Z 0). by rewrite <- Zle_Qle. }
  repeat split; try lia.
  - apply Qred_correct.
  - rewrite Qred_correct. apply Q.le_max_l.
  - rewrite Qred_correct. apply Q.max_lub.
    + change 0%Q with (inject_Z 0). by rewrite <- Zle_Qle.
    + rewrite Qred_correct. fold T.
      rewrite <- (Qplus_0_r (inject_Z wd)) at 2. apply Qplus_le_r.
      change 0%Q with (- 0)%Q. by apply Qopp_le_compat.
  - intros Hle. rewrite !Qred_correct in *. fold T in Hle |- *.
    rewrite Q.max_r; [ring|].
    apply Qle_minus_iff in Hle. unfold Qminus. done.
Qed.

End SummaryInvariants.

(** ** Casual-leave deduction: failures and fresh summaries *)

Section FinalizeEdges.
Import SummaryData.

(** X5: [finalizeAndDeductCLs] throws in two cases only: on an empty
    summary, with 'No summary data to process.' and without any call, and
    when its one update is rejected, with the message of the rejection.  In
    both the hook and the database are as before. *)
Theorem finalize_failure_changes_nothing :
  ∀ (s : State) (w : World) (msg : string) s' w',
    finalizeAndDeductCLs s w = (Throw msg, s', w') →
    s' = s ∧ db w' = db w ∧
    ((summaryData s = [] ∧ msg = "No summary data to process." ∧ w' = w) ∨
     (summaryData s ≠ [] ∧ verdict w = Some msg ∧
      ∃ updates, log w' = log w ++ [Update updates])).
Proof.
  intros s w msg s' w'.
  unfold finalizeAndDeductCLs, bind, getState, throw, ret.
  destruct (bool_decide (summaryData s = [])) eqn:He; cbn.
  - intros Hrun. inversion Hrun; subst. apply bool_decide_eq_true in He.
    split; [done|]. split; [done|]. by left.
  - apply bool_decide_eq_false in He.
    destruct (prepareDeductions (summaryData s)) as [updates deductions].
    destruct (deductions =? 0); [intros Hrun; by inversion Hrun|].
    unfold fb_update, await, setFacultyList, setState.
    destruct (verdict w) as [m|] eqn:Hv; cbn; intros Hrun; inversion Hrun; subst.
    cbn. split; [done|]. split; [done|]. right. split; [done|]. split; [done|]. by eexists.
Qed.

(** X6: When the summary is the one [calculateSummary] gives for the hook as
    it is, a successful [finalizeAndDeductCLs] stores, for each employee
    with casual leaves used, the balance casualLeaves - casualLeavesUsed,
    which is not negative, and sets the same balance in the faculty list; an
    employee with none used keeps the stored balance and the entry of the
    list. *)
Theorem finalize_fresh_summary_agrees :
  ∀ (s : State) (w : World) (m : string) s' w' (i : nat) (f : FacultyRecord),
    summaryData s = calculateSummary s →
    NoDup (empId <$> facultyList s) →
    facultyList s !! i = Some f →
    finalizeAndDeductCLs s w = (Ok m, s', w') →
    let row :=
      summaryRow (actualWorkingDays s) (permissionLimit s)
        (attendanceByEmp (List.filter (inMonth (selectedMonth s)) (rawAttendance s))) f in
    let b := orZero (casualLeaves f) - casualLeavesUsed row in
    (0 < casualLeavesUsed row →
     0 ≤ b ∧
     storedBalance (db w') (empId f) = Some b ∧
     ∃ f', facultyList s' !! i = Some f' ∧ empId f' = empId f ∧ casualLeaves f' = Some b) ∧
    (casualLeavesUsed row ≤ 0 →
     storedBalance (db w') (empId f) = storedBalance (db w) (empId f) ∧
     (facultyList s' !! i = Some f)).
Proof.
  intros s w m s' w' i f Hfresh Hnd Hi Hrun row b.
  assert (Hf : f ∈ facultyList s) by by eapply list_elem_of_lookup_2.
  assert (Hm : 0 < monthlyWorkingDays s).
  { destruct (decide (0 < monthlyWorkingDays s)) as [|Hn]; [done|]. exfalso.
    unfold finalizeAndDeductCLs, bind, getState, throw in Hrun.
    rewrite Hfresh in Hrun. unfold calculateSummary in Hrun.
    replace (monthlyWorkingDays s <=? 0) with true in Hrun by (symmetry; apply Z.leb_le; lia).
    rewrite orb_true_r in Hrun. cbn in Hrun. by inversion Hrun. }
  assert (Hrows : summaryData s
                  = summaryRow (actualWorkingDays s) (permissionLimit s)
                      (attendanceByEmp (List.filter (inMonth (selectedMonth s))
                                          (rawAttendance s))) <$> facultyList s).
  { rewrite Hfresh. by apply calculateSummary_rows. }
  assert (Hnd' : NoDup (ms_empId <$> summaryData s)).
  { rewrite Hrows, <- list_fmap_compose.
    by rewrite (list_fmap_ext (ms_empId ∘ _) empId) by done. }
  assert (Hrow : row ∈ summaryData s) by (rewrite Hrows; by apply list_elem_of_fmap_2).
  pose proof (finalize_stored _ _ _ _ _ row Hrun Hnd' Hrow) as Hst.
  change (ms_empId row) with (empId f) in Hst.
  assert (Hmem : facultyList s' !! i
                 = Some (if charged row then deducted (casualLeavesUsed row) f else f)).
  { destruct (finalize_returns _ _ _ _ _ Hrun) as [(Hnone & -> & _)|(_ & _ & _ & ->)].
    - rewrite Hi. f_equal. destruct (charged row) eqn:Hc; [|done].
      assert (Hin : row ∈ List.filter charged (summaryData s)).
      { apply list_elem_of_In, filter_In. split; [by apply list_elem_of_In|done]. }
      rewrite Hnone in Hin. by apply elem_of_nil in Hin.
    - cbn. by apply deductInMemory_lookup. }
  assert (Hused : ∃ A, 0 ≤ A ∧ casualLeavesUsed row = Z.min A (orZero (casualLeaves f))).
  { eexists. split; [|reflexivity]. lia. }
  destruct Hused as (A & HA & Hused).
  unfold newBalance in Hst.
  change (casualLeavesAvailable row) with (orZero (casualLeaves f)) in Hst.
  unfold charged in Hst, Hmem. subst b.
  set (U := casualLeavesUsed row) in *. clearbody U. clear row Hrow.
  split.
  - intros Hpos.
    replace (0 <? U) with true in * by (symmetry; apply Z.ltb_lt; lia).
    split; [lia|]. split; [done|].
    eexists. split; [done|]. split; [done|]. unfold deducted. cbn [casualLeaves details].
    unfold orZero in *. destruct (casualLeaves f) as [cl|]; cbn [default fmap option_fmap option_map] in *;
      [done|lia].
  - intros Hle.
    replace (0 <? U) with false in * by (symmetry; apply Z.ltb_ge; lia).
    done.
Qed.

End FinalizeEdges.

(** ** Leaves: what a rejection, an approval and a deletion leave behind *)

Section LeaveEdges.
Import JSDate.

Arguments DaysInYear : simpl never.
Arguments DayFromYear : simpl never.
Arguments YearFromTime : simpl never.

Lemma DayWithinYear_bounds t : 0 ≤ DayWithinYear t < DaysInYear (YearFromTime t).
Proof.
  unfold DayWithinYear. pose proof (YearFromTime_spec t).
  destruct (DaysInYear_cases (YearFromTime t)) as [_ E]. lia.
Qed.

Lemma civilOf_time t : civilTime (civilOf t) = Day t * msPerDay.
Proof.
  unfold civilTime, civilOf, MakeDate, MakeDay, DateFromTime. cbn [year month day].
  pose proof (MonthFromTime_range t) as Hm.
  replace (MonthFromTime t + 1 - 1) with (MonthFromTime t) by lia.
  replace (MonthFromTime t / 12) with 0 by (Z.div_mod_to_equations; lia).
  replace (MonthFromTime t mod 12) with (MonthFromTime t) by (Z.div_mod_to_equations; lia).
  rewrite !Z.add_0_r. fold (InLeapYear t). unfold DayWithinYear. f_equal. lia.
Qed.

Lemma civilOf_month_day t :
  1 ≤ DateFromTime t ≤ DaysInMonth (YearFromTime t) (MonthFromTime t + 1).
Proof.
  pose proof (DayWithinYear_bounds t) as Hb.
  unfold DateFromTime, MonthFromTime, InLeapYear in *.
  destruct (DaysInYear_cases (YearFromTime t)) as [Hc _].
  set (d := DayWithinYear t) in *. clearbody d.
  destruct (Z.eqb_spec (DaysInYear (YearFromTime t)) 365) as [E|E];
    repeat match goal with
           | |- context [?a <? ?b] => destruct (Z.ltb_spec a b)
           end;
    repeat match goal with
           | |- context [DaysInMonth ?y (?n + 1)] =>
               let v := eval vm_compute in (n + 1) in change (n + 1) with v
           end;
    cbn [DaysInMonth monthStart]; try lia.
  all: destruct (Z.eqb_spec (DaysInYear (YearFromTime t)) 365); lia.
Qed.

Lemma civilOf_valid t :
  100 ≤ YearFromTime t ≤ 9999 → validCivil (civilOf t).
Proof.
  intros Hy. unfold validCivil, civilOf. cbn [year month day].
  pose proof (MonthFromTime_range t). pose proof (civilOf_month_day t). lia.
Qed.

Lemma civil_le_total a b : civil_le a b ∨ civil_lt b a.
Proof.
  unfold civil_lt, civil_le. destruct a as [ya ma da], b as [yb mb db]. cbn.
  destruct (decide (ya < yb)); [by left; left|].
  destruct (decide (yb < ya)); [right; split; [by left|intros [=]; lia]|].
  destruct (decide (ma < mb)); [left; right; split; [lia|by left]|].
  destruct (decide (mb < ma)); [right; split; [right; split; [lia|by left]|intros [=]; lia]|].
  destruct (decide (da ≤ db)); [left; right; split; [lia|right; lia]|].
  right. split; [right; split; [lia|right; lia]|intros [=]; lia].
Qed.

(** Every whole day between two calendar dates is a calendar date between
    them. *)
Lemma day_between a b k :
  validCivil a → validCivil b → 0 ≤ k → civilTime a + k * msPerDay ≤ civilTime b →
  ∃ d, validCivil d ∧ civil_le a d ∧ civil_le d b ∧
       civilTime d = civilTime a + k * msPerDay ∧
       toISODate (civilTime a + k * msPerDay) = iso d.
Proof.
  intros Ha Hb Hk Hle. set (t := civilTime a + k * msPerDay) in *.
  assert (Hday : Day t * msPerDay = t).
  { unfold t. rewrite (civilTime_Day a) by apply Ha. unfold Day, msPerDay.
    rewrite <- Z.mul_add_distr_r, Z.div_mul by done. done. }
  assert (Hta : civilTime a ≤ t) by (unfold t, msPerDay; lia).
  assert (Hy : year a ≤ YearFromTime t ≤ year b).
  { pose proof (YearFromTime_spec t) as Ht.
    pose proof (YearFromTime_spec (civilTime a)) as Hsa.
    pose proof (YearFromTime_spec (civilTime b)) as Hsb.
    rewrite YearFromTime_civilTime in Hsa, Hsb by done.
    assert (Day (civilTime a) ≤ Day t) by (unfold Day, msPerDay; by apply Z.div_le_mono).
    assert (Day t ≤ Day (civilTime b)) by (unfold Day, msPerDay; by apply Z.div_le_mono).
    split.
    - destruct (decide (year a ≤ YearFromTime t)) as [|Hn]; [done|]. exfalso.
      pose proof (DayFromYear_mono (YearFromTime t + 1) (year a)). lia.
    - destruct (decide (YearFromTime t ≤ year b)) as [|Hn]; [done|]. exfalso.
      pose proof (DayFromYear_mono (year b + 1) (YearFromTime t)). lia. }
  assert (Hv : validCivil (civilOf t)).
  { apply civilOf_valid. destruct Ha as (? & _), Hb as (? & _). lia. }
  assert (Ht : civilTime (civilOf t) = t) by (by rewrite civilOf_time).
  exists (civilOf t). split; [done|]. split; [|split; [|split]].
  - destruct (civil_le_total a (civilOf t)) as [|Hlt]; [done|]. exfalso.
    apply civilTime_strict in Hlt; [lia|done..].
  - destruct (civil_le_total (civilOf t) b) as [|Hlt]; [done|]. exfalso.
    apply civilTime_strict in Hlt; [lia|done..].
  - done.
  - rewrite <- Ht at 1. by apply toISODate_civilTime.
Qed.

Lemma iso_inj a b : validCivil a → validCivil b → iso a = iso b → a = b.
Proof.
  intros Ha Hb Hiso. apply civilTime_inj; [done..|].
  pose proof (parse_iso a Ha) as H1. pose proof (parse_iso b Hb) as H2.
  rewrite Hiso in H1. congruence.
Qed.

(** An update leaves alone every attendance record it does not name. *)
Lemma applyWrites_attendance_frame ws d e k :
  RemoveAttendance e k ∉ ws →
  attendanceAt (applyWrites ws d) e k = attendanceAt d e k.
Proof.
  revert d. induction ws as [|w ws IH]; intros d Hnot; [done|].
  rewrite applyWrites_cons, IH by (intros H; apply Hnot; by right).
  destruct w as [e0 v|e0 day|id st|id|month al]; try done.
  unfold attendanceAt. cbn.
  destruct (decide (e0 = e)) as [->|He]; [|by rewrite lookup_alter_ne].
  rewrite lookup_alter_eq. destruct (attendance d !! e) as [records|]; [|done]. cbn.
  rewrite lookup_delete_ne; [done|]. intros ->. apply Hnot. by left.
Qed.

Lemma dayRemovals_elem e c n w :
  w ∈ LeaveApproval.dayRemovals e c n →
  ∃ k, 0 ≤ k < Z.of_nat n ∧ w = RemoveAttendance e (toISODate (c + k * msPerDay)).
Proof.
  unfold LeaveApproval.dayRemovals. intros Hw.
  apply list_elem_of_fmap in Hw as (k & -> & Hk). apply elem_of_seq in Hk.
  exists (Z.of_nat k). split; [lia|done].
Qed.

(** X7: A successful [rejectLeave] changes nothing outside the leave:
    faculty, allocation markers, the other leave applications, the
    attendance of other employees and the attendance of the employee on
    dates outside the range are as before, and the other applications stay
    in the list of the hook. *)
Theorem reject_touches_only_the_range :
  ∀ (leaveId : string) (s : LeaveApproval.State) (w : World)
    (L : LeaveApplicationRecord) (a b : Civil),
    List.find (λ app, String.eqb (la_id app) leaveId) (LeaveApproval.leaveApplications s)
    = Some L →
    validCivil a → validCivil b → startDate L = iso a → endDate L = iso b →
    verdict w = None →
    ∃ s' w',
      LeaveApproval.rejectLeave leaveId s w = (Ok tt, s', w') ∧
      faculty (db w') = faculty (db w) ∧
      monthlyAllocations (db w') = monthlyAllocations (db w) ∧
      (∀ id, id ≠ leaveId →
             leaveApplications (db w') !! id = leaveApplications (db w) !! id) ∧
      (∀ e k, e ≠ la_empId L → attendanceAt (db w') e k = attendanceAt (db w) e k) ∧
      (∀ k, (∀ d, validCivil d → civil_le a d → civil_le d b → k ≠ iso d) →
            attendanceAt (db w') (la_empId L) k = attendanceAt (db w) (la_empId L) k) ∧
      (∀ app, app ∈ LeaveApproval.leaveApplications s →
              la_id app ≠ leaveId → app ∈ LeaveApproval.leaveApplications s').
Proof.
  intros leaveId s w L a b Hfind Ha Hb Hs He Hv.
  rewrite (rejectLeave_resolves _ _ _ _ Hfind Hv). eexists _, _. split; [reflexivity|].
  cbn [db LeaveApproval.leaveApplications].
  rewrite (rejectUpdates_civil leaveId L a b) by done.
  set (n := Z.to_nat ((civilTime b - civilTime a) / msPerDay + 1)).
  set (removals := LeaveApproval.dayRemovals (la_empId L) (civilTime a) n).
  rewrite applyWrites_cons.
  destruct (applyWrites_removals_frame removals
              (applyWrite (db w) (SetLeaveStatus leaveId Rejected))
              (dayRemovals_are_removals _ _ _)) as (Hf & Hl & Hm).
  split; [by rewrite Hf|]. split; [by rewrite Hm|]. split; [|split; [|split]].
  - intros id Hid. rewrite Hl. cbn. by rewrite lookup_partial_alter_ne.
  - intros e k Hne. rewrite applyWrites_attendance_frame; [done|].
    intros Hin. apply dayRemovals_elem in Hin as (j & _ & [=]). done.
  - intros k Hout. rewrite applyWrites_attendance_frame; [done|].
    intros Hin. apply dayRemovals_elem in Hin as (j & Hj & [= ->]).
    assert (Hle : civilTime a + j * msPerDay ≤ civilTime b).
    { unfold n in Hj. unfold msPerDay in *.
      destruct (decide (civilTime a ≤ civilTime b)); [|Z.div_mod_to_equations; lia].
      rewrite Z2Nat.id in Hj by (Z.div_mod_to_equations; lia).
      Z.div_mod_to_equations. lia. }
    destruct (day_between a b j Ha Hb ltac:(lia) Hle) as (d & Hd & Had & Hdb & _ & Hiso).
    by apply (Hout d).
  - intros app Happ Hid. unfold LeaveApproval.markStatus.
    apply list_elem_of_fmap. exists app. split; [|done].
    apply String.eqb_neq in Hid. by rewrite Hid.
Qed.

(** X8: [rejectLeave] of an id that the hook does not hold throws 'Failed to
    reject leave. Please try again.' without any call.  Whenever
    [rejectLeave] throws it is with that message, for an unknown id or a
    rejected update, and the hook and the database are as before. *)
Theorem reject_failure_rolls_back :
  ∀ (leaveId : string) (s : LeaveApproval.State) (w : World),
    (List.find (λ app, String.eqb (la_id app) leaveId) (LeaveApproval.leaveApplications s)
     = None →
     LeaveApproval.rejectLeave leaveId s w
     = (Throw "Failed to reject leave. Please try again.", s, w)) ∧
    (∀ msg s' w',
       LeaveApproval.rejectLeave leaveId s w = (Throw msg, s', w') →
       msg = "Failed to reject leave. Please try again." ∧ s' = s ∧ db w' = db w ∧
       (List.find (λ app, String.eqb (la_id app) leaveId) (LeaveApproval.leaveApplications s)
        = None ∨ is_Some (verdict w))).
Proof.
  intros leaveId s w.
  unfold LeaveApproval.rejectLeave, LeaveApproval.setLeaveApplications, tryCatch, bind,
    getState, setState, throw, fb_update, await.
  destruct (List.find _ _) as [L|] eqn:Hfind; cbn.
  - split; [done|]. intros msg s' w'.
    destruct (verdict w) as [m|] eqn:Hv; cbn; intros Hrun; inversion Hrun; subst.
    split; [done|]. split; [by destruct s|]. split; [done|]. right. by eexists.
  - split; [by destruct s|]. intros msg s' w' Hrun. inversion Hrun; subst.
    split; [done|]. split; [by destruct s|]. split; [done|]. by left.
Qed.

(** X9: Approving a leave that has been rejected sets its status to Approved
    and does not bring back the attendance records that the rejection
    removed: the dates of the range stay without a record. *)
Theorem approval_does_not_restore_attendance :
  ∀ (leaveId : string) (s : LeaveApproval.State) (w : World)
    (L : LeaveApplicationRecord) (a b : Civil),
    List.find (λ app, String.eqb (la_id app) leaveId) (LeaveApproval.leaveApplications s)
    = Some L →
    validCivil a → validCivil b → startDate L = iso a → endDate L = iso b →
    (∀ v, v ∈ take 2 (net w) → v = None) →
    ∃ s1 w1 s2 w2,
      LeaveApproval.rejectLeave leaveId s w = (Ok tt, s1, w1) ∧
      LeaveApproval.approveLeave leaveId s1 w1 = (Ok tt, s2, w2) ∧
      nodeStatus <$> leaveApplications (db w2) !! leaveId = Some Approved ∧
      (∀ app, app ∈ LeaveApproval.leaveApplications s2 → la_id app = leaveId →
              la_status app = Approved) ∧
      attendance (db w2) = attendance (db w1) ∧
      (∀ d, validCivil d → civil_le a d → civil_le d b →
            attendanceAt (db w2) (la_empId L) (iso d) = None).
Proof.
  intros leaveId s w L a b Hfind Ha Hb Hs He Hnet.
  assert (Hv : verdict w = None).
  { unfold verdict. destruct (net w) as [|v l]; [done|]. cbn.
    rewrite (Hnet v); [done|]. cbn. by left. }
  rewrite (rejectLeave_resolves _ _ _ _ Hfind Hv).
  eexists _, _.
  unfold LeaveApproval.approveLeave, LeaveApproval.setLeaveApplications, tryCatch, bind,
    getState, setState, throw, fb_update, await.
  assert (Hv2 : ∀ d l, verdict (mkWorld d (tail (net w)) l) = None).
  { intros d l. unfold verdict. cbn. destruct (net w) as [|v [|v' l']]; [done..|]. cbn.
    rewrite (Hnet v'); [done|]. cbn. right. by left. }
  rewrite Hv2. cbn. eexists _, _. split; [done|]. split; [done|]. split; [|split; [|split]].
  - cbn [db leaveApplications]. rewrite lookup_partial_alter_eq. unfold writeLeaveStatus. cbn.
    by destruct (leaveApplications _ !! leaveId) as [[]|].
  - intros app Happ Hid. by eapply markStatus_status.
  - done.
  - intros d Hd Had Hdb. unfold attendanceAt. cbn.
    fold (attendanceAt (applyWrites (LeaveApproval.rejectUpdates leaveId L) (db w))
            (la_empId L) (iso d)).
    apply applyWrites_removed. rewrite (rejectUpdates_civil leaveId L a b) by done.
    right. by apply dayRemovals_cover.
Qed.

(** In a zone whose offset from UTC never changes, adding one to the
    local day of the month advances the date by a day. *)
Lemma setDate_next z k t :
  (∀ u, offsetAtUTC z u = k) → (∀ u, offsetAtLocal z u = k) →
  setDate z t (getDate z t + 1) = TimeClip (t + msPerDay).
Proof.
  intros Hu Hl. unfold setDate, getDate, toUTC, LocalTime. rewrite Hu, Hl. f_equal.
  set (tl := t + k).
  unfold DateFromTime, MakeDay, MakeDate.
  pose proof (MonthFromTime_range tl) as Hm.
  replace (MonthFromTime tl / 12) with 0 by (Z.div_mod_to_equations; lia).
  replace (MonthFromTime tl mod 12) with (MonthFromTime tl) by (Z.div_mod_to_equations; lia).
  rewrite Z.add_0_r. fold (InLeapYear tl). unfold DayWithinYear, TimeWithinDay, Day, msPerDay.
  subst tl. Z.div_mod_to_equations. lia.
Qed.

Lemma deleteLoop_run z k fuel e c l ups :
  (∀ u, offsetAtUTC z u = k) → (∀ u, offsetAtLocal z u = k) →
  Z.abs c ≤ 8640000000000000 → Z.abs l ≤ 8640000000000000 →
  (Z.to_nat ((l - c) / msPerDay + 1) ≤ fuel)%nat →
  FacultyDetail.deleteLoop z fuel e (Some c) (Some l) ups
  = Some (ups ++ LeaveApproval.dayRemovals e c (Z.to_nat ((l - c) / msPerDay + 1))).
Proof.
  intros Hu Hlo. revert c ups. induction fuel as [|fuel IH]; intros c ups Hc Hl Hfuel.
  - assert (E : Z.to_nat ((l - c) / msPerDay + 1) = 0%nat) by lia. rewrite E.
    cbn. rewrite app_nil_r.
    destruct (Z.leb_spec c l) as [Hle|]; [|done]. exfalso.
    unfold msPerDay in *. Z.div_mod_to_equations. lia.
  - cbn [FacultyDetail.deleteLoop]. destruct (Z.leb_spec c l) as [Hle|Hgt].
    + rewrite (setDate_next z k) by done. unfold TimeClip.
      assert (E : Z.to_nat ((l - c) / msPerDay + 1)
                  = S (Z.to_nat ((l - (c + msPerDay)) / msPerDay + 1))).
      { unfold msPerDay. Z.div_mod_to_equations. lia. }
      destruct (Z.leb_spec (Z.abs (c + msPerDay)) 8640000000000000) as [Hin|Hout].
      * rewrite IH by (try done; lia). rewrite E, dayRemovals_S.
        by rewrite <- app_assoc.
      * assert (E1 : Z.to_nat ((l - (c + msPerDay)) / msPerDay + 1) = 0%nat).
        { unfold msPerDay in *. Z.div_mod_to_equations. lia. }
        rewrite E, E1, dayRemovals_S. by destruct fuel.
    + assert (E : Z.to_nat ((l - c) / msPerDay + 1) = 0%nat).
      { unfold msPerDay. Z.div_mod_to_equations. lia. }
      rewrite E. cbn. by rewrite app_nil_r.
Qed.

Lemma leavesOf_elem e (leaves : gmap string LeaveNode) r :
  r ∈ FacultyDetail.leavesOf e leaves →
  ∃ key, leaves !! key = Some (FullLeave r) ∧ la_empId r = e.
Proof.
  unfold FacultyDetail.leavesOf. intros Hr.
  apply list_elem_of_omap in Hr as ([key n] & Hin & Hsome).
  apply elem_of_map_to_list in Hin. destruct n as [r'|st]; [|done].
  destruct (Z.eqb_spec (la_empId r') e); [|done]. inversion Hsome; subst. by exists key.
Qed.

(** X10: On a host whose time zone has a constant offset, [deleteLeave]
    removes the leave application and the attendance of the employee on
    every date of the range, and leaves faculty and the attendance of other
    employees as they were; when the reload resolves, the list of the hook
    holds no application with the deleted id. *)
Theorem delete_clears_the_range_in_a_fixed_zone :
  ∀ (h : FacultyDetail.Host) (k : Z) (fuel : nat) (e : Z) (sd : FacultyDetail.State)
    (w : World) (leave : LeaveApplicationRecord) (a b : Civil),
    e ≠ 0 →
    (∀ u, offsetAtUTC (FacultyDetail.tz h) u = k) →
    (∀ u, offsetAtLocal (FacultyDetail.tz h) u = k) →
    validCivil a → validCivil b → startDate leave = iso a → endDate leave = iso b →
    (Z.to_nat ((civilTime b - civilTime a) / msPerDay + 1) ≤ fuel)%nat →
    verdict w = None →
    ∃ s' w',
      FacultyDetail.deleteLeave h fuel e leave sd w = Some (Ok tt, s', w') ∧
      leaveApplications (db w') !! la_id leave = None ∧
      (∀ d, validCivil d → civil_le a d → civil_le d b →
            attendanceAt (db w') e (iso d) = None) ∧
      (∀ e' day, e' ≠ e → attendanceAt (db w') e' day = attendanceAt (db w) e' day) ∧
      faculty (db w') = faculty (db w) ∧
      ((∀ v, v ∈ take 4 (net w) → v = None) → is_Some (faculty (db w) !! e) →
       (∀ l x, x ∈ FacultyDetail.sortLeaves h l → x ∈ l) →
       (∀ key r, leaveApplications (db w) !! key = Some (FullLeave r) → la_id r = key) →
       ∀ x, x ∈ FacultyDetail.leaveApplications s' → la_id x ≠ la_id leave ∧ la_empId x = e).
Proof.
  intros h k fuel e sd w leave a b Hne Hu Hl Ha Hb Hs He Hfuel Hv.
  unfold FacultyDetail.deleteLeave, FacultyDetail.deleteUpdates.
  apply Z.eqb_neq in Hne as Hne'. rewrite Hne', Hs, He, !parse_iso by done.
  rewrite (deleteLoop_run _ k) by (try apply civilTime_bounds; done).
  cbn [mbind option_bind].
  set (n := Z.to_nat ((civilTime b - civilTime a) / msPerDay + 1)).
  set (removals := LeaveApproval.dayRemovals e (civilTime a) n).
  unfold tryCatch, bind, FacultyDetail.setError, setState, fb_update, await at 1.
  rewrite Hv. cbv beta iota.
  set (d1 := applyWrites ([RemoveLeave (la_id leave)] ++ removals) (db w)).
  assert (Hd1 : d1 = applyWrites removals (applyWrite (db w) (RemoveLeave (la_id leave)))) by done.
  destruct (applyWrites_removals_frame removals
              (applyWrite (db w) (RemoveLeave (la_id leave)))
              (dayRemovals_are_removals _ _ _)) as (Hf & Hla & Hm).
  assert (Hf' : faculty d1 = faculty (db w)) by (rewrite Hd1; exact Hf).
  assert (Hla' : leaveApplications d1 = delete (la_id leave) (leaveApplications (db w)))
    by (rewrite Hd1; exact Hla).
  clear Hf Hla Hm.
  match goal with
  | |- context [FacultyDetail.fetchData h e ?s1 ?w1] =>
      destruct (fetchData_reads h e s1 w1 Hne) as [s' Hfetch];
      pose proof Hfetch as Hfetch'; rewrite Hfetch
  end.
  eexists _, _. split; [done|]. cbn [db].
  split; [by rewrite Hla', lookup_delete_eq|]. split; [|split; [|split; [done|]]].
  - intros d Hd Had Hdb. rewrite Hd1. apply applyWrites_removed.
    by apply dayRemovals_cover.
  - intros e' day He'. rewrite Hd1, applyWrites_attendance_frame; [done|].
    intros Hin. apply dayRemovals_elem in Hin as (j & _ & [=]). done.
  - intros Hnet [nd Hnd] Hsort Hkeys x Hx. clear Hd1 Hfetch. clearbody d1.
    unfold FacultyDetail.fetchData, FacultyDetail.getAll3, FacultyDetail.setLoading,
      FacultyDetail.setError, FacultyDetail.setFaculty, FacultyDetail.setAttendance,
      FacultyDetail.setLeaveApplications, tryCatch, bind, setState, throw, ret in Hfetch'.
    rewrite Hne' in Hfetch'. cbn in Hfetch'.
    assert (Hall : List.find (λ v : option string, bool_decide (is_Some v))
                     (take 3 (tail (net w))) = None).
    { destruct (List.find _ _) as [v|] eqn:Hfd; [|done]. exfalso.
      apply find_some in Hfd as [Hin Hsome]. apply list_elem_of_In in Hin.
      assert (Hv4 : v ∈ take 4 (net w)).
      { destruct (net w) as [|v0 l]; [done|]. cbn in Hin |- *. by right. }
      rewrite (Hnet v Hv4) in Hsome. cbn in Hsome. discriminate Hsome. }
    rewrite Hall in Hfetch'. cbn in Hfetch'. rewrite Hf', Hnd in Hfetch'. cbn in Hfetch'.
    inversion Hfetch'; subst s'. cbn in Hx.
    apply Hsort, leavesOf_elem in Hx as (key & Hkey & Hemp). split; [|done].
    rewrite Hla' in Hkey. intros Hid.
    destruct (decide (key = la_id leave)) as [->|Hk].
    + by rewrite lookup_delete_eq in Hkey.
    + rewrite lookup_delete_ne in Hkey by done. apply Hkeys in Hkey. congruence.
Qed.

End LeaveEdges.

(** ** Sorted lists *)

Lemma insertBy_Permutation {A} (compare : A → A → Z) x l :
  insertBy compare x l ≡ₚ x :: l.
Proof.
  induction l as [|y l IH]; [done|]. cbn. destruct (compare x y <=? 0); [done|].
  rewrite IH. apply Permutation_swap.
Qed.

Lemma sortBy_Permutation {A} (compare : A → A → Z) l : sortBy compare l ≡ₚ l.
Proof.
  induction l as [|x l IH]; [done|]. cbn. rewrite insertBy_Permutation. by rewrite IH.
Qed.

(** A list in the order of a rank. *)
Lemma ordered_cons {A} (rank : A → Z) x l :
  (∀ y, y ∈ l → rank x ≤ rank y) →
  (∀ i j a b, (i < j)%nat → l !! i = Some a → l !! j = Some b → rank a ≤ rank b) →
  ∀ i j a b, (i < j)%nat → (x :: l) !! i = Some a → (x :: l) !! j = Some b →
             rank a ≤ rank b.
Proof.
  intros Hx Hl i j a b Hij Hi Hj. destruct j as [|j]; [lia|]. cbn in Hj.
  destruct i as [|i]; cbn in Hi.
  - inversion Hi; subst. apply Hx. by eapply list_elem_of_lookup_2.
  - apply (Hl i j); [lia|done..].
Qed.

(** A comparison that follows a rank leaves the ranks in order. *)
Lemma sortBy_ranked {A} (compare : A → A → Z) (rank : A → Z) l :
  (∀ a b, compare a b ≤ 0 → rank a ≤ rank b) →
  (∀ a b, 0 < compare a b → rank b ≤ rank a) →
  ∀ i j a b, (i < j)%nat → sortBy compare l !! i = Some a → sortBy compare l !! j = Some b →
             rank a ≤ rank b.
Proof.
  intros Hle Hgt. induction l as [|x l IH]; [by intros [] ?|]. cbn [sortBy foldr].
  fold (sortBy compare l). revert IH. generalize (sortBy compare l). clear l. intros l Hl.
  induction l as [|y l IH]; cbn.
  - intros [|i] [|j] a b Hij; cbn; try done; lia.
  - assert (Hy : ∀ z, z ∈ l → rank y ≤ rank z).
    { intros z Hz. apply list_elem_of_lookup_1 in Hz as [k Hk].
      apply (Hl 0%nat (S k)); [lia|done..]. }
    assert (Hl' : ∀ i j a b, (i < j)%nat → l !! i = Some a → l !! j = Some b →
                             rank a ≤ rank b).
    { intros i j a b Hij Hi Hj. apply (Hl (S i) (S j)); [lia|done..]. }
    destruct (Z.leb_spec (compare x y) 0) as [H|H].
    + apply ordered_cons; [|done].
      intros z Hz. apply elem_of_cons in Hz as [->|Hz]; [by apply Hle|].
      pose proof (Hle _ _ H). pose proof (Hy z Hz). lia.
    + apply ordered_cons; [|by apply IH].
      intros z Hz. rewrite insertBy_Permutation in Hz.
      apply elem_of_cons in Hz as [->|Hz]; [by apply Hgt|by apply Hy].
Qed.

(** ** The faculty list *)

Section Faculty.
Import Act FacultyData.

Ltac run :=
  unfold addFaculty, updateFaculty, deleteFaculty, fetchData, setFaculty, setFacultyData, send,
    setFacultyList,
    setError, setLoading, finally, tryCatch, await, bind, getState, setState, throw, ret.

(** [addFaculty] of an employee id that the list holds sets the error and
    makes no call. *)
Lemma known_employee_id_is_not_added_twice :
  ∀ (h : Host) (newFaculty : FacultyRecord) (s : State) (v : Server Db Call),
    (∃ f, f ∈ facultyList s ∧ empId f = empId newFaculty) →
    addFaculty h newFaculty s v
    = (Ok tt, mkState (facultyList s) (Some (alreadyExists (empId newFaculty))) (loading s), v).
Proof.
  intros h nf s v (f & Hf & Hid). run.
  assert (Hex : existsb (λ f, empId f =? empId nf) (facultyList s) = true).
  { apply existsb_exists. exists f. split; [by apply list_elem_of_In|]. by apply Z.eqb_eq. }
  by rewrite Hex.
Qed.

Lemma existsb_id_false (l : list FacultyRecord) e :
  existsb (λ f, empId f =? e) l = false → e ∉ empId <$> l.
Proof.
  intros Hex Hin. apply list_elem_of_fmap in Hin as (f & -> & Hf).
  assert (existsb (λ g, empId g =? empId f) l = true); [|congruence].
  apply existsb_exists. exists f. split; [by apply list_elem_of_In|]. by apply Z.eqb_eq.
Qed.

(** X11: [addFaculty], [updateFaculty] and [deleteFaculty], whatever their
    outcome, keep the faculty list of the hook free of duplicate employee
    ids; [addFaculty], [deleteFaculty], and [updateFaculty] when the data
    it is given has a name, keep it free of records without a name.
    [updateFaculty] does not ask for a name. *)
Theorem faculty_list_keeps_ids_unique :
  ∀ (h : Host) (s : State) (v : Server Db Call),
    (∀ l, sortByName h l ≡ₚ l) →
    let sound (l : list FacultyRecord) :=
      NoDup (empId <$> l) ∧ ∀ f : FacultyRecord, f ∈ l → is_Some (name f) in
    sound (facultyList s) →
    (∀ f r s' v', addFaculty h f s v = (r, s', v') → sound (facultyList s')) ∧
    (∀ e n r s' v', is_Some (name n) → updateFaculty h e n s v = (r, s', v') →
                    sound (facultyList s')) ∧
    (∀ e r s' v', deleteFaculty e s v = (r, s', v') → sound (facultyList s')).
Proof.
  intros h s v Hsort sound [Hnd Hnames]. subst sound. cbv beta. split; [|split].
  - intros f r s' v'. run.
    destruct (existsb _ _) eqn:Hex; cbn; [intros H; by inversion H|].
    destruct (storable _) eqn:Hst; cbn; [|intros H; by inversion H].
    destruct (next v); cbn; intros H; inversion H; subst; cbn; [done|].
    split.
    + rewrite Hsort, fmap_app. cbn. apply NoDup_app. split; [done|]. split.
      * intros e He Hin. apply list_elem_of_singleton in Hin as ->.
        by apply existsb_id_false in Hex.
      * apply NoDup_singleton.
    + intros g. rewrite Hsort, elem_of_app, list_elem_of_singleton.
      intros [Hg | ->]; [by apply Hnames|].
      unfold storable in Hst. cbn in Hst. repeat (apply andb_true_iff in Hst as [Hst ?]).
      by apply bool_decide_eq_true in Hst.
  - intros e n r s' v' Hn. run.
    destruct (finiteNumbers n); cbn; [|intros H; by inversion H].
    destruct (next v); cbn; intros H; inversion H; subst; cbn; [done|].
    split.
    + rewrite Hsort, <- list_fmap_compose.
      rewrite (list_fmap_ext _ empId (facultyList s)); [done|].
      intros _ f _. cbn. destruct (Z.eqb_spec (empId f) e); by subst.
    + intros g. rewrite Hsort, list_elem_of_fmap. intros (f & -> & Hf).
      destruct (empId f =? e); [done|by apply Hnames].
  - intros e r s' v'. run.
    destruct (next v); cbn; intros H; inversion H; subst; cbn; [done|].
    split; [by apply filter_fmap_NoDup|].
    intros f Hf. apply list_elem_of_In, filter_In in Hf as [Hf _].
    by apply Hnames, list_elem_of_In.
Qed.

(** X12: A successful [deleteFaculty] removes, in one update, the faculty
    record and all attendance of the employee; other employees, the
    allocation markers and all leave applications, those of the deleted
    employee too, are untouched, and the employee leaves the list of the
    hook. *)
Theorem deleted_employee_leaves_no_attendance :
  ∀ (e : Z) (s : State) (v : Server Db Call),
    next v = None →
    ∃ s' v',
      deleteFaculty e s v = (Ok tt, s', v') ∧
      faculty (data v') !! e = None ∧
      (∀ day, attendanceAt (data v') e day = None) ∧
      (∀ e', e' ≠ e →
             faculty (data v') !! e' = faculty (data v) !! e' ∧
             attendance (data v') !! e' = attendance (data v) !! e') ∧
      leaveApplications (data v') = leaveApplications (data v) ∧
      monthlyAllocations (data v') = monthlyAllocations (data v) ∧
      (∀ f, f ∈ facultyList s' ↔ f ∈ facultyList s ∧ empId f ≠ e) ∧
      error s' = None ∧ loading s' = false ∧
      calls v' = calls v ++ [DeleteFaculty e].
Proof.
  intros e s v Hv. run. rewrite Hv. cbn. eexists _, _. split; [done|]. cbn.
  split; [by rewrite lookup_delete_eq|].
  split; [intros day; unfold attendanceAt; cbn; by rewrite lookup_delete_eq|].
  split; [intros e' He'; by rewrite !lookup_delete_ne|].
  split; [done|]. split; [done|]. split; [|done].
  intros f. rewrite list_elem_of_In, filter_In, <- list_elem_of_In.
  by rewrite negb_true_iff, Z.eqb_neq.
Qed.

(** A rejected write leaves the list and the database as they were;
    [addFaculty] reports it in the error alone, [updateFaculty] and
    [deleteFaculty] rethrow. *)
Lemma rejected_faculty_write_changes_nothing :
  ∀ (h : Host) (s : State) (v : Server Db Call) (msg : string),
    next v = Some msg →
    let failed (text : string) (c : Call) :=
      (mkState (facultyList s) (Some text) false,
       mkServer (data v) (tail (verdicts v)) (calls v ++ [c])) in
    (∀ f, empId f ∉ empId <$> facultyList s →
          let n := mkFacultyNode (name f) (dept f) (designation f) (salary f)
                     (Some (orZero (casualLeaves f))) in
          storable n = true →
          addFaculty h f s v
          = (Ok tt, (failed "Failed to add faculty member." (SetFaculty (empId f) n)).1,
             (failed "Failed to add faculty member." (SetFaculty (empId f) n)).2)) ∧
    (∀ e n, finiteNumbers n = true →
            updateFaculty h e n s v
            = (Throw msg, (failed "Failed to update faculty member." (SetFaculty e n)).1,
               (failed "Failed to update faculty member." (SetFaculty e n)).2)) ∧
    (∀ e, deleteFaculty e s v
          = (Throw msg, (failed "Failed to delete faculty member." (DeleteFaculty e)).1,
             (failed "Failed to delete faculty member." (DeleteFaculty e)).2)).
Proof.
  intros h s v msg Hv failed. subst failed. cbn [fst snd]. split; [|split].
  - intros f Hf Hst. run.
    assert (Hex : existsb (λ g, empId g =? empId f) (facultyList s) = false).
    { apply not_true_iff_false. intros Hex. apply existsb_exists in Hex as (g & Hg & Hid).
      apply Hf, list_elem_of_fmap. exists g. apply Z.eqb_eq in Hid.
      split; [done|by apply list_elem_of_In]. }
    rewrite Hex. cbn. rewrite Hst. cbn. by rewrite Hv.
  - intros e n Hst. run. rewrite Hst. cbn. by rewrite Hv.
  - intros e. run. by rewrite Hv.
Qed.

(** A value that [set] refuses never reaches the database. *)
Lemma refused_faculty_value_is_not_sent :
  ∀ (h : Host) (s : State) (v : Server Db Call),
    (∀ f, empId f ∉ empId <$> facultyList s →
          let n := mkFacultyNode (name f) (dept f) (designation f) (salary f)
                     (Some (orZero (casualLeaves f))) in
          storable n = false →
          addFaculty h f s v
          = (Ok tt, mkState (facultyList s) (Some "Failed to add faculty member.") false, v)) ∧
    (∀ e n, finiteNumbers n = false →
            updateFaculty h e n s v
            = (Throw (refusal h n),
               mkState (facultyList s) (Some "Failed to update faculty member.") false, v)).
Proof.
  intros h s v. split.
  - intros f Hf n Hst. run.
    assert (Hex : existsb (λ g, empId g =? empId f) (facultyList s) = false).
    { apply not_true_iff_false. intros Hex. apply existsb_exists in Hex as (g & Hg & Hid).
      apply Hf, list_elem_of_fmap. exists g. apply Z.eqb_eq in Hid.
      split; [done|by apply list_elem_of_In]. }
    rewrite Hex. cbn. fold n. by rewrite Hst.
  - intros e n Hst. run. by rewrite Hst.
Qed.

(** X13: A new employee with a fresh id and complete data is stored under
    [faculty/{id}] with [casualLeaves || 0] while the other employees,
    attendance, leave applications and allocation markers stay; a
    [fetchData] that follows lists exactly the stored employees, the new one
    among them. *)
Theorem added_faculty_is_fetched_back :
  ∀ (h : Host) (f : FacultyRecord) (s : State) (v : Server Db Call),
    let stored := mkFacultyNode (name f) (dept f) (designation f) (salary f)
                    (Some (orZero (casualLeaves f))) in
    (∀ l x, x ∈ sortByName h l ↔ x ∈ l) →
    empId f ∉ empId <$> facultyList s →
    storable stored = true →
    (∀ g : FacultyRecord, g ∈ facultyList s → is_Some (name g)) →
    (∀ e n, faculty (data v) !! e = Some n → is_Some (name n)) →
    (∀ x, x ∈ take 2 (verdicts v) → x = None) →
    ∃ s1 v1 s2 v2,
      addFaculty h f s v = (Ok tt, s1, v1) ∧
      f ∈ facultyList s1 ∧
      faculty (data v1) !! empId f = Some stored ∧
      (∀ e, e ≠ empId f → faculty (data v1) !! e = faculty (data v) !! e) ∧
      attendance (data v1) = attendance (data v) ∧
      leaveApplications (data v1) = leaveApplications (data v) ∧
      monthlyAllocations (data v1) = monthlyAllocations (data v) ∧
      fetchData h s1 v1 = (Ok tt, s2, v2) ∧
      data v2 = data v1 ∧
      (∀ g, g ∈ facultyList s2 ↔ faculty (data v1) !! empId g = Some (details g)) ∧
      mkFacultyRecord (empId f) stored ∈ facultyList s2.
Proof.
  intros h f s v stored Hsort Hf Hst _ _ Hnet.
  assert (Hv : next v = None).
  { unfold next. destruct (verdicts v) as [|x l]; [done|]. cbn.
    rewrite (Hnet x); [done|]. cbn. by left. }
  assert (Hv2 : ∀ (d : Db) (l : list Call), next (mkServer d (tail (verdicts v)) l) = None).
  { intros d l. unfold next. cbn. destruct (verdicts v) as [|x [|x' l']]; [done..|]. cbn.
    rewrite (Hnet x'); [done|]. cbn. right. by left. }
  assert (Hex : existsb (λ g, empId g =? empId f) (facultyList s) = false).
  { apply not_true_iff_false. intros Hex. apply existsb_exists in Hex as (g & Hg & Hid).
    apply Hf, list_elem_of_fmap. exists g. apply Z.eqb_eq in Hid.
    split; [done|by apply list_elem_of_In]. }
  assert (Hmem : ∀ g, g ∈ sortByName h ((λ '(e, n), mkFacultyRecord e n)
                        <$> map_to_list (<[empId f := stored]> (faculty (data v))))
                      ↔ <[empId f := stored]> (faculty (data v)) !! empId g = Some (details g)).
  { intros g. rewrite Hsort, list_elem_of_fmap. split.
    - intros ([e n] & -> & Hin). by apply elem_of_map_to_list in Hin.
    - intros Hg. exists (empId g, details g). split; [by destruct g|].
      by apply elem_of_map_to_list. }
  run. rewrite Hex. cbn. fold stored. rewrite Hst. cbn. rewrite Hv. cbn.
  eexists _, _, _, _. split; [reflexivity|]. cbn. rewrite Hv2. cbn.
  match goal with
  | |- context [decide (?a = ∅)] =>
      destruct (decide (a = ∅)) as [He|_]; [by apply insert_non_empty in He|]
  end. cbn.
  split; [apply Hsort, elem_of_app; right; by left|].
  split; [by rewrite lookup_insert_eq|].
  split; [intros e He; by rewrite lookup_insert_ne|].
  split; [done|]. split; [done|]. split; [done|].
  split; [reflexivity|]. cbn. split; [done|]. split; [done|].
  apply Hmem. cbn. by rewrite lookup_insert_eq.
Qed.

End Faculty.

(** ** Manual attendance *)

Section Marking.
Import Act ManualAttendance.

Ltac run :=
  unfold handleMarkAttendance, fetchDataForDate, setLoading, setFacultyWithAttendance,
    setUpdatingStatus, setError, alert, tryCatch, await, bind, getState, setState, throw, ret.

(** Marking an employee that the rows do not hold makes no call. *)
Lemma marking_an_unlisted_employee_writes_nothing :
  ∀ (e : Z) (markAs : Mark) (s : State) (v : Server Db Call),
    (∀ f, f ∈ facultyWithAttendance s → empId (member f) ≠ e) →
    handleMarkAttendance e markAs s v
    = (Ok tt,
       mkState (selectedDate s) (loading s) (facultyWithAttendance s)
         (<[e := false]> (<[e := true]> (updatingStatus s))) (error s) (alerts s),
       v).
Proof.
  intros e markAs s v Hnone. run.
  assert (Hfind : List.find (λ f, empId (member f) =? e) (facultyWithAttendance s) = None).
  { destruct (List.find _ _) as [f|] eqn:Hfd; [|done]. exfalso.
    apply find_some in Hfd as [Hin Hid]. apply Z.eqb_eq in Hid.
    by apply (Hnone f); [apply list_elem_of_In|]. }
  by rewrite Hfind.
Qed.

(** The record of one day after a write of the component. *)
Lemma effect_SetRecord e day st t d e' day' :
  attendanceAt (effect (SetRecord e day st t) d) e' day'
  = if decide (e' = e ∧ day' = day) then Some (mkAttendanceNode t st None)
    else attendanceAt d e' day'.
Proof.
  unfold attendanceAt. cbn.
  destruct (decide (e' = e)) as [->|He].
  - rewrite lookup_partial_alter_eq. cbn. destruct (decide (day' = day)) as [->|Hd].
    + rewrite lookup_insert_eq. by rewrite decide_True.
    + rewrite lookup_insert_ne by done. rewrite decide_False by (by intros [_ ?]).
      by destruct (attendance d !! e).
  - rewrite lookup_partial_alter_ne by done. by rewrite decide_False by (by intros [? _]).
Qed.

Lemma effect_SetStatus e day st d e' day' :
  attendanceAt (effect (SetStatus e day st) d) e' day'
  = if decide (e' = e ∧ day' = day) then writeStatus st (attendanceAt d e day)
    else attendanceAt d e' day'.
Proof.
  unfold attendanceAt. cbn.
  destruct (decide (e' = e)) as [->|He].
  - rewrite lookup_partial_alter_eq. cbn. destruct (decide (day' = day)) as [->|Hd].
    + rewrite lookup_partial_alter_eq. rewrite decide_True by done.
      by destruct (attendance d !! e).
    + rewrite lookup_partial_alter_ne by done. rewrite decide_False by (by intros [_ ?]).
      by destruct (attendance d !! e).
  - rewrite lookup_partial_alter_ne by done. by rewrite decide_False by (by intros [? _]).
Qed.

Arguments effect : simpl never.

(** X14: A successful [handleMarkAttendance] stores the new status, which is
    never Late, for the employee on the selected date: on a Late row the
    status alone changes and the time of arrival and the leave link stay; on
    any other row the record becomes { status, inTime }.  No other date,
    employee, faculty record or leave application is touched, and the row of
    the employee shows the new status. *)
Theorem marking_writes_the_day :
  ∀ (e : Z) (markAs : Mark) (s : State) (v : Server Db Call) (current : Row),
    List.find (λ f, empId (member f) =? e) (facultyWithAttendance s) = Some current →
    next v = None →
    ∃ s' v',
      handleMarkAttendance e markAs s v = (Ok tt, s', v') ∧
      status <$> attendanceAt (data v') e (selectedDate s) = Some (newStatus markAs) ∧
      newStatus markAs ≠ Late ∧
      (row_status current = Some Late →
       ∀ n, attendanceAt (data v) e (selectedDate s) = Some n →
            attendanceAt (data v') e (selectedDate s)
            = Some (mkAttendanceNode (inTime n) (newStatus markAs) (leaveApplicationId n))) ∧
      (row_status current ≠ Some Late →
       attendanceAt (data v') e (selectedDate s)
       = Some (mkAttendanceNode (newInTime markAs) (newStatus markAs) None)) ∧
      (∀ e' day, ¬ (e' = e ∧ day = selectedDate s) →
                 attendanceAt (data v') e' day = attendanceAt (data v) e' day) ∧
      faculty (data v') = faculty (data v) ∧
      leaveApplications (data v') = leaveApplications (data v) ∧
      (∀ f, f ∈ facultyWithAttendance s' → empId (member f) = e →
            row_status f = Some (newStatus markAs)) ∧
      member <$> facultyWithAttendance s' = member <$> facultyWithAttendance s ∧
      updatingStatus s' !! e = Some false ∧ alerts s' = alerts s.
Proof.
  intros e markAs s v current Hfind Hv. run. rewrite Hfind.
  assert (Hrows : ∀ (g : Row → Row) f,
            (∀ x, member (g x) = member x) →
            (∀ x, row_status (g x) = Some (newStatus markAs)) →
            f ∈ (λ x, if empId (member x) =? e then g x else x) <$> facultyWithAttendance s →
            empId (member f) = e → row_status f = Some (newStatus markAs)).
  { intros g f Hg1 Hg2 Hf Hid. apply list_elem_of_fmap in Hf as (x & -> & Hx).
    destruct (Z.eqb_spec (empId (member x)) e) as [|Hne]; [done|].
    by rewrite Hid in Hne. }
  assert (Hmembers : ∀ (g : Row → Row),
            (∀ x, member (g x) = member x) →
            member <$> ((λ x, if empId (member x) =? e then g x else x)
                          <$> facultyWithAttendance s)
            = member <$> facultyWithAttendance s).
  { intros g Hg. rewrite <- list_fmap_compose. apply list_fmap_ext. intros _ x _. cbn.
    by destruct (empId (member x) =? e). }
  destruct (bool_decide (row_status current = Some Late)) eqn:Hlate; cbn; rewrite Hv; cbn.
  - apply bool_decide_eq_true in Hlate.
    eexists _, _. split; [done|]. cbn [data facultyWithAttendance updatingStatus alerts].
    rewrite effect_SetStatus, decide_True by done.
    split; [by destruct (attendanceAt _ _ _)|]. split; [by destruct markAs|].
    split; [intros _ n Hn; by rewrite Hn|]. split; [done|].
    split; [intros e' day Hne; by rewrite effect_SetStatus, decide_False|].
    split; [done|]. split; [done|].
    split; [intros f Hf; by eapply (Hrows (λ x, mkRow (member x) (Some (newStatus markAs)) (row_inTime x)))|].
    split; [by apply (Hmembers (λ x, mkRow (member x) (Some (newStatus markAs)) (row_inTime x)))|].
    split; [by rewrite lookup_insert_eq|done].
  - apply bool_decide_eq_false in Hlate.
    eexists _, _. split; [done|]. cbn [data facultyWithAttendance updatingStatus alerts].
    rewrite effect_SetRecord, decide_True by done.
    split; [done|]. split; [by destruct markAs|].
    split; [done|]. split; [done|].
    split; [intros e' day Hne; by rewrite effect_SetRecord, decide_False|].
    split; [done|]. split; [done|].
    split; [intros f Hf; by eapply (Hrows (λ x, mkRow (member x) (Some (newStatus markAs)) (Some (newInTime markAs))))|].
    split; [by apply (Hmembers (λ x, mkRow (member x) (Some (newStatus markAs)) (Some (newInTime markAs))))|].
    split; [by rewrite lookup_insert_eq|done].
Qed.

(** X15: When the write of [handleMarkAttendance] is rejected the handler
    still returns normally: the database and the rows are as before, the
    error of the component is not set, the one trace is the alert 'Failed to
    update attendance. Check console for details.', and the updating flag of
    the employee is cleared. *)
Theorem rejected_marking_is_only_alerted :
  ∀ (e : Z) (markAs : Mark) (s : State) (v : Server Db Call) (current : Row) (msg : string),
    List.find (λ f, empId (member f) =? e) (facultyWithAttendance s) = Some current →
    next v = Some msg →
    ∃ s' v',
      handleMarkAttendance e markAs s v = (Ok tt, s', v') ∧
      data v' = data v ∧
      facultyWithAttendance s' = facultyWithAttendance s ∧
      alerts s' = alerts s ++ [alertText] ∧
      error s' = error s ∧
      updatingStatus s' !! e = Some false.
Proof.
  intros e markAs s v current msg Hfind Hv. run. rewrite Hfind.
  destruct (bool_decide (row_status current = Some Late)); cbn; rewrite Hv; cbn;
    eexists _, _; (split; [done|]); cbn; by rewrite lookup_insert_eq.
Qed.

Lemma marking_resolves e markAs s v current :
  List.find (λ f, empId (member f) =? e) (facultyWithAttendance s) = Some current →
  next v = None →
  ∃ s', handleMarkAttendance e markAs s v
        = (Ok tt, s',
           mkServer (effect (markingCall e markAs s current) (data v)) (tail (verdicts v))
             (calls v ++ [markingCall e markAs s current])).
Proof.
  intros Hfind Hv. run. rewrite Hfind. unfold markingCall.
  destruct (bool_decide (row_status current = Some Late)); cbn; rewrite Hv; cbn; by eexists.
Qed.

Lemma marking_status e markAs s current d :
  status <$> attendanceAt (effect (markingCall e markAs s current) d) e (selectedDate s)
  = Some (newStatus markAs) ∧
  faculty (effect (markingCall e markAs s current) d) = faculty d ∧
  ∀ e' day, ¬ (e' = e ∧ day = selectedDate s) →
            attendanceAt (effect (markingCall e markAs s current) d) e' day
            = attendanceAt d e' day.
Proof.
  unfold markingCall. destruct (bool_decide (row_status current = Some Late)).
  - rewrite effect_SetStatus, decide_True by done.
    split; [by destruct (attendanceAt _ _ _)|]. split; [done|].
    intros e' day Hne. by rewrite effect_SetStatus, decide_False.
  - rewrite effect_SetRecord, decide_True by done. split; [done|]. split; [done|].
    intros e' day Hne. by rewrite effect_SetRecord, decide_False.
Qed.

(** X16: Manual marking feeds the monthly allocation: an employee marked
    Leave on a date of the month is not granted the casual leave by a
    completed [handleAllocateCL]; an employee marked Present or On-Duty on
    the only absent date of the month is. *)
Theorem marking_decides_the_allocation :
  ∀ (e : Z) (markAs : Mark) (s : State) (v : Server Db Call) (current : Row) s' v'
    (now : string) (c : MonthlyActions.State) (w : World) r c' w' (n : FacultyNode),
    List.find (λ f, empId (member f) =? e) (facultyWithAttendance s) = Some current →
    next v = None →
    handleMarkAttendance e markAs s v = (Ok tt, s', v') →
    String.prefix (MonthlyActions.selectedMonth c) (selectedDate s) = true →
    db w = data v' →
    MonthlyActions.handleAllocateCL now c w = (r, c', w') →
    MonthlyActions.ranToCompletion c' →
    faculty (data v) !! e = Some n →
    (markAs = Leave → faculty (db w') !! e = Some n) ∧
    (markAs ≠ Leave →
     (∀ day a, attendanceAt (data v) e day = Some a →
               String.prefix (MonthlyActions.selectedMonth c) day = true →
               status a = Absent → day = selectedDate s) →
     faculty (db w') !! e = Some (MonthlyActions.granted n)).
Proof.
  intros e markAs s v current s' v' now c w r c' w' n Hfind Hv Hmark Hmonth Hdb Hrun Hok Hn.
  destruct (marking_resolves e markAs s v current Hfind Hv) as [s1 Hmark'].
  rewrite Hmark' in Hmark. inversion Hmark; subst s' v'. clear Hmark Hmark'.
  cbn [data] in Hdb.
  destruct (marking_status e markAs s current (data v)) as (Hst & Hfac & Hframe).
  pose proof (handleAllocateCL_balances _ _ _ _ _ _ e Hrun Hok) as Hb.
  rewrite Hdb, Hfac, Hn in Hb. cbn in Hb. split.
  - intros ->. rewrite decide_True in Hb; [done|].
    apply absentees_absentIn.
    destruct (attendanceAt _ e (selectedDate s)) as [a|] eqn:Ha; [|done].
    exists (selectedDate s), a. cbn in Hst. inversion Hst. done.
  - intros Hne Honly. rewrite decide_False in Hb; [done|].
    rewrite absentees_absentIn. intros (day & a & Ha & Hp & Habs).
    destruct (decide (day = selectedDate s)) as [->|Hd].
    + rewrite Ha in Hst. cbn in Hst. inversion Hst as [Hst']. rewrite Habs in Hst'.
      by destruct markAs.
    + rewrite Hframe in Ha by (by intros [_ ?]). by apply Hd, (Honly day a).
Qed.

(** X17: [fetchDataForDate] makes two reads and lists every faculty member
    once, with the status and the time of arrival of the record stored for
    the date, or Not Marked, in the order Not Marked, Late, On-time, Absent,
    On-Duty. *)
Theorem fetched_rows_follow_the_day :
  ∀ (h : Host) (date : string) (s : State) (v : Server Db Call),
    faculty (data v) ≠ ∅ →
    (∀ e n, faculty (data v) !! e = Some n → is_Some (name n)) →
    (∀ x, x ∈ take 2 (verdicts v) → x = None) →
    ∃ s' v',
      fetchDataForDate h date s v = (Ok tt, s', v') ∧
      data v' = data v ∧ calls v' = calls v ++ [GetFaculty; GetAttendance] ∧
      error s' = None ∧ loading s' = false ∧
      member <$> facultyWithAttendance s' ≡ₚ MonthlyActions.facultyRecords (data v) ∧
      (∀ row, row ∈ facultyWithAttendance s' →
              let record := attendanceAt (data v) (empId (member row)) date in
              row_status row = status <$> record ∧ row_inTime row = inTime <$> record) ∧
      (∀ i j a b, (i < j)%nat →
                  facultyWithAttendance s' !! i = Some a →
                  facultyWithAttendance s' !! j = Some b →
                  sortOrder (row_status a) ≤ sortOrder (row_status b)).
Proof.
  intros h date s v Hne _ Hnet.
  assert (Hv : next v = None).
  { unfold next. destruct (verdicts v) as [|x l]; [done|]. cbn.
    rewrite (Hnet x); [done|]. cbn. by left. }
  assert (Hv2 : ∀ (d : Db) (l : list Call), next (mkServer d (tail (verdicts v)) l) = None).
  { intros d l. unfold next. cbn. destruct (verdicts v) as [|x [|x' l']]; [done..|]. cbn.
    rewrite (Hnet x'); [done|]. cbn. right. by left. }
  run. cbn. rewrite Hv. cbn. rewrite Hv2. cbn.
  destruct (decide (faculty (data v) = ∅)) as [|_]; [done|]. cbn.
  eexists _, _. split; [done|]. cbn.
  split; [done|]. split; [by rewrite <- app_assoc|]. split; [done|]. split; [done|].
  fold (MonthlyActions.facultyRecords (data v)).
  split; [|split].
  - rewrite sortBy_Permutation, <- list_fmap_compose.
    rewrite (list_fmap_ext _ id (MonthlyActions.facultyRecords (data v))).
    + by rewrite list_fmap_id.
    + intros _ f _. cbn. unfold merge. by destruct (_ ≫= _).
  - intros row Hrow. rewrite sortBy_Permutation in Hrow.
    apply list_elem_of_fmap in Hrow as (f & -> & _). unfold merge, attendanceAt.
    destruct (_ ≫= _) as [record|] eqn:Hr; cbn; by rewrite Hr.
  - apply sortBy_ranked.
    + intros a b. unfold compareRows.
      destruct (Z.eqb_spec (sortOrder (row_status a)) (sortOrder (row_status b))); cbn; lia.
    + intros a b. unfold compareRows.
      destruct (Z.eqb_spec (sortOrder (row_status a)) (sortOrder (row_status b))); cbn; lia.
Qed.

End Marking.

(** ** The holiday calendar *)

Section HolidayCalendar.
Import Act Holidays.

Ltac run :=
  unfold addHoliday, updateHoliday, deleteHoliday, send, setHolidays, setError,
    tryCatch, await, bind, getState, setState, throw, ret.

Lemma existsb_holiday (l : list Holiday) id :
  existsb (λ x, String.eqb (h_id x) id) l = true ↔ id ∈ h_id <$> l.
Proof.
  rewrite existsb_exists, list_elem_of_fmap. split.
  - intros (x & Hx & Hid). apply String.eqb_eq in Hid. exists x.
    split; [done|by apply list_elem_of_In].
  - intros (x & -> & Hx). exists x. split; [by apply list_elem_of_In|apply String.eqb_refl].
Qed.

(** [addHoliday] for a date that the list holds sets the error, throws, and
    makes no call. *)
Lemma known_holiday_date_is_not_added_twice :
  ∀ (h : Host) (date text : string) (s : State) (v : Server (gmap string Node) Call),
    date ∈ h_id <$> holidays s →
    addHoliday h date text s v
    = (Throw (alreadyExists date),
       mkState (holidays s) (Some (alreadyExists date)) (loading s), v).
Proof.
  intros h date text s v Hin. run. apply existsb_holiday in Hin. by rewrite Hin.
Qed.

(** X18: [addHoliday], [updateHoliday] and [deleteHoliday], whatever their
    outcome, keep the holiday list of the hook free of duplicate ids;
    [updateHoliday] keeps its dates. *)
Theorem holiday_list_keeps_ids_unique :
  ∀ (h : Host) (s : State) (v : Server (gmap string Node) Call),
    (∀ l, sortByDate h l ≡ₚ l) →
    NoDup (h_id <$> holidays s) →
    (∀ date text r s' v', addHoliday h date text s v = (r, s', v') →
                          NoDup (h_id <$> holidays s')) ∧
    (∀ id text r s' v', updateHoliday h id text s v = (r, s', v') →
                        NoDup (h_id <$> holidays s') ∧
                        (h_date <$> holidays s') ≡ₚ (h_date <$> holidays s)) ∧
    (∀ id r s' v', deleteHoliday id s v = (r, s', v') → NoDup (h_id <$> holidays s')).
Proof.
  intros h s v Hsort Hnd. split; [|split].
  - intros date text r s' v'. run.
    destruct (existsb _ _) eqn:Hex; cbn; [intros H; by inversion H|].
    destruct (next v); cbn; intros H; inversion H; subst; cbn; [done|].
    rewrite Hsort, fmap_app. cbn. apply NoDup_app. split; [done|]. split.
    + intros id Hid Hin. apply list_elem_of_singleton in Hin as ->.
      apply existsb_holiday in Hid. congruence.
    + apply NoDup_singleton.
  - intros id text r s' v'. run.
    destruct (next v); cbn; intros H; inversion H; subst; cbn; [done|].
    rewrite !Hsort, <- !list_fmap_compose.
    rewrite (list_fmap_ext _ h_id (holidays s)), (list_fmap_ext (h_date ∘ _) h_date (holidays s));
      [done|..]; intros _ x _; cbn; by destruct (String.eqb (h_id x) id).
  - intros id r s' v'. run.
    destruct (next v); cbn; intros H; inversion H; subst; cbn; [done|].
    by apply filter_fmap_NoDup.
Qed.

(** X19: Adding a holiday for a new date stores { date, description } under
    [holidays/{date}]; deleting it again removes the node and gives back the
    list of the hook, with one [set] and one [remove] issued. *)
Theorem added_holiday_can_be_deleted_again :
  ∀ (h : Host) (date text : string) (s : State) (v : Server (gmap string Node) Call),
    (∀ l x, x ∈ sortByDate h l ↔ x ∈ l) →
    date ∉ h_id <$> holidays s →
    (∀ x, x ∈ take 2 (verdicts v) → x = None) →
    ∃ s1 v1 s2 v2,
      addHoliday h date text s v = (Ok tt, s1, v1) ∧
      data v1 !! date = Some (mkNode (Some date) (Some text)) ∧
      mkHoliday date date text ∈ holidays s1 ∧
      deleteHoliday date s1 v1 = (Ok tt, s2, v2) ∧
      data v2 = delete date (data v) ∧
      (∀ x, x ∈ holidays s2 ↔ x ∈ holidays s) ∧
      calls v2 = calls v ++ [SetHoliday date date text; RemoveHoliday date].
Proof.
  intros h date text s v Hsort Hnew Hnet.
  assert (Hv : next v = None).
  { unfold next. destruct (verdicts v) as [|x l]; [done|]. cbn.
    rewrite (Hnet x); [done|]. cbn. by left. }
  assert (Hv2 : ∀ (d : gmap string Node) (l : list Call),
            next (mkServer d (tail (verdicts v)) l) = None).
  { intros d l. unfold next. cbn. destruct (verdicts v) as [|x [|x' l']]; [done..|]. cbn.
    rewrite (Hnet x'); [done|]. cbn. right. by left. }
  assert (Hex : existsb (λ x, String.eqb (h_id x) date) (holidays s) = false).
  { apply not_true_iff_false. by rewrite existsb_holiday. }
  run. rewrite Hex. cbn. rewrite Hv. cbn.
  eexists _, _, _, _. split; [reflexivity|]. cbn. rewrite Hv2. cbn.
  split; [by rewrite lookup_insert_eq|].
  split; [apply Hsort, elem_of_app; right; by left|].
  split; [reflexivity|]. cbn. split; [by rewrite delete_insert_eq|].
  split; [|by rewrite <- app_assoc].
  intros x. rewrite list_elem_of_In, filter_In, <- list_elem_of_In, Hsort, elem_of_app.
  rewrite negb_true_iff, String.eqb_neq, list_elem_of_singleton. split.
  - intros [[Hx| ->] Hid]; [done|]. by cbn in Hid.
  - intros Hx. split; [by left|]. intros Hid. apply Hnew, list_elem_of_fmap. by exists x.
Qed.

(** [updateHoliday] writes the description and keeps the date that is
    stored. *)
Lemma holiday_update_touches_only_the_description :
  ∀ (h : Host) (id text : string) (s : State) (v : Server (gmap string Node) Call),
    next v = None →
    ∃ s' v',
      updateHoliday h id text s v = (Ok tt, s', v') ∧
      node_date <$> data v' !! id = Some (data v !! id ≫= node_date) ∧
      node_description <$> data v' !! id = Some (Some text) ∧
      (∀ id', id' ≠ id → data v' !! id' = data v !! id') ∧
      holidays s'
      = sortByDate h ((λ x, if String.eqb (h_id x) id
                            then mkHoliday (h_id x) (h_date x) text else x) <$> holidays s).
Proof.
  intros h id text s v Hv. run. rewrite Hv. cbn. eexists _, _. split; [done|]. cbn.
  rewrite lookup_partial_alter_eq. cbn. split; [done|]. split; [done|]. split; [|done].
  intros id' Hne. by rewrite lookup_partial_alter_ne.
Qed.

(** A rejected write leaves the calendar as it was and is rethrown. *)
Lemma rejected_holiday_write_changes_nothing :
  ∀ (h : Host) (s : State) (v : Server (gmap string Node) Call) (msg : string),
    next v = Some msg →
    let failed (text : string) (c : Call) :=
      (Throw (A := unit) msg, mkState (holidays s) (Some text) (loading s),
       mkServer (data v) (tail (verdicts v)) (calls v ++ [c])) in
    (∀ date text, date ∉ h_id <$> holidays s →
                  addHoliday h date text s v
                  = failed "Failed to add holiday." (SetHoliday date date text)) ∧
    (∀ id text, updateHoliday h id text s v
                = failed "Failed to update holiday." (UpdateHoliday id text)) ∧
    (∀ id, deleteHoliday id s v = failed "Failed to delete holiday." (RemoveHoliday id)).
Proof.
  intros h s v msg Hv failed. subst failed. cbn beta. split; [|split].
  - intros date text Hnew. run.
    assert (Hex : existsb (λ x, String.eqb (h_id x) date) (holidays s) = false).
    { apply not_true_iff_false. by rewrite existsb_holiday. }
    rewrite Hex. cbn. by rewrite Hv.
  - intros id text. run. by rewrite Hv.
  - intros id. run. by rewrite Hv.
Qed.

End HolidayCalendar.

(** ** Settings *)

Section SettingsStore.
Import Act Settings.

(** X20: Settings saved by [updateSettings] are the ones [fetchSettings]
    reads back.  [fetchSettings] always returns normally, with
    [DEFAULT_SETTINGS] when the read is rejected or nothing is stored and
    with the default of each missing key otherwise.  A rejected
    [updateSettings] rethrows and changes neither the settings of the
    provider nor the database. *)
Theorem settings_are_read_back_or_defaulted :
  ∀ (s : State) (v : Server (option Stored) Call),
    (∀ new, (∀ x, x ∈ take 2 (verdicts v) → x = None) →
            ∃ s1 v1 s2 v2,
              updateSettings new s v = (Ok tt, s1, v1) ∧ settings s1 = new ∧
              fetchSettings s1 v1 = (Ok tt, s2, v2) ∧ settings s2 = new ∧
              error s2 = None ∧ loading s2 = false) ∧
    (∃ s' v', fetchSettings s v = (Ok tt, s', v') ∧ loading s' = false ∧
              match next v, data v with
              | Some _, _ =>
                  settings s' = DEFAULT_SETTINGS ∧
                  error s' = Some "Failed to load settings. Using defaults."
              | None, None => settings s' = DEFAULT_SETTINGS ∧ error s' = None
              | None, Some stored =>
                  settings s' = spread DEFAULT_SETTINGS stored ∧ error s' = None ∧
                  permissionLimit (settings s') = default 2 (st_permissionLimit stored) ∧
                  onTimeThreshold (settings s')
                  = default "08:15:00" (st_onTimeThreshold stored)
              end) ∧
    (∀ new msg, next v = Some msg →
                ∃ v', updateSettings new s v
                      = (Throw msg,
                         mkState (settings s) false (Some "Failed to save settings."), v') ∧
                      data v' = data v).
Proof.
  intros s v. split; [|split].
  - intros new Hnet.
    assert (Hv : next v = None).
    { unfold next. destruct (verdicts v) as [|x l]; [done|]. cbn.
      rewrite (Hnet x); [done|]. cbn. by left. }
    assert (Hv2 : ∀ (d : option Stored) (l : list Call),
              next (mkServer d (tail (verdicts v)) l) = None).
    { intros d l. unfold next. cbn. destruct (verdicts v) as [|x [|x' l']]; [done..|]. cbn.
      rewrite (Hnet x'); [done|]. cbn. right. by left. }
    unfold updateSettings, fetchSettings, setSettings, setLoading, setError, finally,
      tryCatch, await, bind, setState, throw.
    rewrite Hv. cbn. eexists _, _, _, _. split; [reflexivity|]. cbn. rewrite Hv2. cbn.
    split; [done|]. split; [reflexivity|]. cbn. by destruct new.
  - unfold fetchSettings, setSettings, setLoading, setError, finally,
      tryCatch, await, bind, setState, throw.
    destruct (next v) as [msg|]; cbn; [by eexists _, _|].
    destruct (data v) as [stored|]; cbn; by eexists _, _.
  - intros new msg Hv.
    unfold updateSettings, setSettings, setLoading, setError, finally,
      tryCatch, await, bind, setState, throw.
    rewrite Hv. cbn. by eexists.
Qed.

End SettingsStore.

(** ** Attendance sheets *)

Section Ingestion.
Import AttendanceData.

Lemma classify_cases inTime threshold :
  (classify inTime threshold = Absent ∧ inTime = "00:00:00") ∨
  (classify inTime threshold = OnTime ∧ inTime ≠ "00:00:00" ∧
   String.leb inTime threshold = true) ∨
  (classify inTime threshold = Late ∧ inTime ≠ "00:00:00" ∧
   String.leb inTime threshold = false).
Proof.
  unfold classify. destruct (String.eqb_spec inTime "00:00:00") as [->|Hne]; [by left|].
  right. destruct (String.leb inTime threshold); [left|right]; done.
Qed.

(** X21: [processRawData] gives one record for each row of the sheet, with
    the date of the upload, the id '{date}-{empId}' and a status that
    follows the time of arrival: Absent exactly when the time is 00:00:00,
    On-time only when the time is at most the threshold as a string, Late
    only when it is not, and never On-Duty. *)
Theorem ingested_status_follows_the_time :
  ∀ (h : Host) (jsonData : list SheetRow) (date threshold : string),
    length (processRawData h jsonData date threshold) = length jsonData ∧
    ∀ i r, processRawData h jsonData date threshold !! i = Some r →
           up_date r = date ∧
           up_id r = date +:+ "-" +:+ toString h (up_empId r) ∧
           (up_status r = Absent ↔ up_inTime r = "00:00:00") ∧
           (up_status r = OnTime → String.leb (up_inTime r) threshold = true) ∧
           (up_status r = Late → String.leb (up_inTime r) threshold = false) ∧
           up_status r ≠ OnDuty.
Proof.
  intros h jsonData date threshold. unfold processRawData. split; [apply length_imap|].
  intros i r Hr. apply list_lookup_imap_Some in Hr as (row & _ & ->).
  unfold processRow. cbn [up_date up_id up_empId up_status up_inTime].
  set (t := readInTime h _).
  destruct (classify_cases t threshold) as [[-> Ht]|[(-> & Hne & Hle)|(-> & Hne & Hle)]].
  - rewrite bool_decide_eq_true_2 by done. done.
  - rewrite bool_decide_eq_false_2 by done. repeat split; try done.
  - rewrite bool_decide_eq_false_2 by done. repeat split; try done.
Qed.

Ltac digit_cases k :=
  let H := fresh in
  assert (H : k = 0 ∨ k = 1 ∨ k = 2 ∨ k = 3 ∨ k = 4 ∨ k = 5 ∨ k = 6 ∨ k = 7 ∨ k = 8 ∨ k = 9)
    by lia;
  destruct H as [->|[->|[->|[->|[->|[->|[->|[->|[->| ->]]]]]]]]].

(** Strings that start with digits compare by the digits first. *)
Lemma compare_digit a b r1 r2 :
  0 ≤ a ≤ 9 → 0 ≤ b ≤ 9 →
  String.compare (String (JSDate.digitChar a) r1) (String (JSDate.digitChar b) r2)
  = match a ?= b with Eq => String.compare r1 r2 | c => c end.
Proof. intros Ha Hb. digit_cases a; digit_cases b; reflexivity. Qed.

Lemma compare_pad2 x y r1 r2 :
  0 ≤ x ≤ 99 → 0 ≤ y ≤ 99 →
  String.compare (JSDate.pad2 x +:+ r1) (JSDate.pad2 y +:+ r2)
  = match x ?= y with Eq => String.compare r1 r2 | c => c end.
Proof.
  intros Hx Hy. unfold JSDate.pad2. cbv [String.append].
  fold (String.append r1). fold (String.append r2).
  rewrite !compare_digit by (Z.div_mod_to_equations; lia).
  destruct (Z.compare_spec (x / 10 mod 10) (y / 10 mod 10)) as [E1|E1|E1];
    destruct (Z.compare_spec (x mod 10) (y mod 10)) as [E2|E2|E2];
    destruct (Z.compare_spec x y) as [E|E|E]; try done;
    exfalso; Z.div_mod_to_equations; lia.
Qed.

Lemma compare_clock h m s H M S :
  0 ≤ h ≤ 99 → 0 ≤ m ≤ 99 → 0 ≤ s ≤ 99 → 0 ≤ H ≤ 99 → 0 ≤ M ≤ 99 → 0 ≤ S ≤ 99 →
  String.compare (clock h m s) (clock H M S)
  = match h ?= H with
    | Eq => match m ?= M with Eq => s ?= S | c => c end
    | c => c
    end.
Proof.
  intros. unfold clock. rewrite compare_pad2 by done. destruct (h ?= H); try done.
  change (":" +:+ ?r) with (String ":" r). cbn [String.compare].
  change (Ascii.compare ":" ":") with Eq. cbv beta iota.
  rewrite compare_pad2 by done. destruct (m ?= M); try done.
  change (":" +:+ ?r) with (String ":" r). cbn [String.compare].
  change (Ascii.compare ":" ":") with Eq. cbv beta iota.
  pose proof (compare_pad2 s S "" "" ltac:(done) ltac:(done)) as Hc.
  change (JSDate.pad2 s +:+ "") with (JSDate.pad2 s) in Hc.
  change (JSDate.pad2 S +:+ "") with (JSDate.pad2 S) in Hc.
  rewrite Hc. by destruct (s ?= S).
Qed.

(** X22: For times written HH:MM:SS with two digits each, the comparison of
    strings that classifies a record is the comparison of the times of day:
    00:00:00 is Absent, a time up to the threshold is On-time, a later one
    is Late. *)
Theorem classification_compares_times_of_day :
  ∀ (h m s H M S : Z),
    0 ≤ h ≤ 99 → 0 ≤ m ≤ 59 → 0 ≤ s ≤ 59 → 0 ≤ H ≤ 99 → 0 ≤ M ≤ 59 → 0 ≤ S ≤ 59 →
    classify (clock h m s) (clock H M S)
    = if (h =? 0) && (m =? 0) && (s =? 0) then Absent
      else if 3600 * h + 60 * m + s <=? 3600 * H + 60 * M + S then OnTime
      else Late.
Proof.
  intros h m s H M S Hh Hm Hs HH HM HS. unfold classify.
  assert (Heq : String.eqb (clock h m s) "00:00:00" = (h =? 0) && (m =? 0) && (s =? 0)).
  { destruct (String.eqb_spec (clock h m s) "00:00:00") as [E|E].
    - assert (Hc : String.compare (clock h m s) (clock 0 0 0) = Eq) by (by rewrite E).
      rewrite compare_clock in Hc by lia.
      destruct (Z.compare_spec h 0), (Z.compare_spec m 0), (Z.compare_spec s 0);
        try done; subst; done.
    - symmetry. apply not_true_iff_false. intros Hz.
      apply andb_true_iff in Hz as [Hz Hz3]. apply andb_true_iff in Hz as [Hz1 Hz2].
      apply Z.eqb_eq in Hz1, Hz2, Hz3. subst. by apply E. }
  rewrite Heq. destruct ((h =? 0) && (m =? 0) && (s =? 0)); [done|].
  unfold String.leb. rewrite compare_clock by lia.
  destruct (Z.compare_spec h H), (Z.compare_spec m M), (Z.compare_spec s S);
    destruct (Z.leb_spec (3600 * h + 60 * m + s) (3600 * H + 60 * M + S)); try done; lia.
Qed.

(** X23: A time of arrival written H:MM with one hour digit from 1 to 9 is
    completed to H:MM:00 without a leading zero and, against a threshold
    that starts with 0 such as the default 08:15:00, is classified Late
    whatever the hour. *)
Theorem hours_without_leading_zero_are_late :
  ∀ (host : Host) (k m : Z) (rest : string),
    1 ≤ k ≤ 9 → 0 ≤ m ≤ 99 →
    let written := String (JSDate.digitChar k) (":" +:+ JSDate.pad2 m) in
    readInTime host (Str written) = written +:+ ":00" ∧
    classify (readInTime host (Str written)) (String "0" rest) = Late.
Proof.
  intros host k m rest Hk Hm written.
  assert (Hread : readInTime host (Str written) = written +:+ ":00").
  { unfold readInTime, written, JSDate.pad2.
    assert (Hd : ∀ d, 0 ≤ d ≤ 9 → isDigit (JSDate.digitChar d) = true)
      by (intros d Hd; digit_cases d; reflexivity).
    cbv [String.append]. cbn [shortTime minutesToEnd].
    rewrite !Hd by (Z.div_mod_to_equations; lia). by rewrite Ascii.eqb_refl. }
  split; [done|]. rewrite Hread. unfold classify, written.
  digit_cases k; try lia; reflexivity.
Qed.

End Ingestion.

(** ** Strings in order *)

Lemma string_compare_trans a b c :
  String.compare a b ≠ Gt → String.compare b c ≠ Gt → String.compare a c ≠ Gt.
Proof.
  revert b c. induction a as [|x a IH]; intros [|y b] [|z c]; cbn; try done.
  unfold Ascii.compare.
  destruct (N.compare_spec (N_of_ascii x) (N_of_ascii y)) as [E1|E1|E1];
    destruct (N.compare_spec (N_of_ascii y) (N_of_ascii z)) as [E2|E2|E2];
    destruct (N.compare_spec (N_of_ascii x) (N_of_ascii z)) as [E3|E3|E3];
    try done; try lia.
  apply IH.
Qed.

Lemma string_leb_trans a b c :
  String.leb a b = true → String.leb b c = true → String.leb a c = true.
Proof.
  unfold String.leb. intros H1 H2.
  pose proof (string_compare_trans a b c) as H.
  destruct (String.compare a b), (String.compare b c), (String.compare a c);
    try done; exfalso; by apply H.
Qed.

Lemma size_list_to_set_le (l : list Z) : (size (list_to_set l : gset Z) ≤ length l)%nat.
Proof.
  induction l as [|x l IH]; [done|]. cbn [list_to_set length].
  destruct (decide (x ∈ (list_to_set l : gset Z))) as [Hx|Hx].
  - rewrite (subseteq_union_1_L (C := gset Z)) by (by apply singleton_subseteq_l). lia.
  - rewrite size_union by (by apply disjoint_singleton_l). rewrite size_singleton. lia.
Qed.

Lemma size_list_to_set_0 (l : list Z) : size (list_to_set l : gset Z) = 0%nat → l = [].
Proof.
  intros Hs. apply size_empty_inv in Hs. destruct l as [|x l]; [done|]. exfalso.
  apply (not_elem_of_empty (C := gset Z) x). rewrite <- Hs. cbn.
  apply elem_of_union. left. by apply elem_of_singleton.
Qed.

(** ** Filters and statistics *)

Section Filters.
Import AttendanceData.

Lemma status_partition (l : list AttendanceRecord) :
  countStatus OnTime l + countStatus Late l + countStatus Absent l + countStatus OnDuty l
  = Z.of_nat (length l).
Proof.
  unfold countStatus in *. induction l as [|r l IH]; [done|]. cbn [List.filter].
  destruct (ar_status r); repeat case_bool_decide; try congruence; cbn [length]; lia.
Qed.

(** X24: The four status counts of [stats] add up to the number of filtered
    records; [total], the number of distinct employees, is at most that
    number and is 0 only for an empty result.  Every filtered record lies in
    the range of dates, an inverted range gives an empty result, and with
    the department 'all' and no name filter every record in the range is
    kept. *)
Theorem filtered_attendance_is_counted_once :
  ∀ (m : Matcher) (f : Filters) (allData : list AttendanceRecord),
    let filtered := filteredData m f allData in
    let st := stats filtered in
    onTime st + late st + absent st + onDuty st = Z.of_nat (length filtered) ∧
    0 ≤ total st ≤ Z.of_nat (length filtered) ∧
    (total st = 0 ↔ filtered = []) ∧
    (∀ r, r ∈ filtered →
          r ∈ allData ∧
          String.leb (startDateFilter f) (date r) = true ∧
          String.leb (date r) (endDateFilter f) = true) ∧
    (String.leb (startDateFilter f) (endDateFilter f) = false → filtered = []) ∧
    (departmentFilter f = "all" → facultyNameFilter f = "" →
     ∀ r, r ∈ allData → String.leb (startDateFilter f) (date r) = true →
          String.leb (date r) (endDateFilter f) = true → r ∈ filtered).
Proof.
  intros m f allData filtered st.
  assert (Hin : ∀ r, r ∈ filtered →
            r ∈ allData ∧ String.leb (startDateFilter f) (date r) = true ∧
            String.leb (date r) (endDateFilter f) = true).
  { intros r Hr. apply list_elem_of_In, filter_In in Hr as [Hr Hp].
    apply list_elem_of_In in Hr.
    repeat (apply andb_true_iff in Hp as [Hp ?]). done. }
  split; [apply status_partition|]. split; [|split; [|split; [done|split]]].
  - subst st. unfold stats. cbn [total]. split; [lia|].
    apply inj_le. rewrite <- (length_fmap ar_empId filtered). apply size_list_to_set_le.
  - subst st. unfold stats. cbn [total]. split.
    + intros Hz. assert (Hs : size (list_to_set (ar_empId <$> filtered) : gset Z) = 0%nat)
        by lia.
      apply size_list_to_set_0 in Hs. by apply fmap_nil_inv in Hs.
    + by intros ->.
  - intros Hinv. destruct filtered as [|r l] eqn:E; [done|]. exfalso.
    destruct (Hin r) as (_ & H1 & H2); [by left|].
    by rewrite (string_leb_trans _ _ _ H1 H2) in Hinv.
  - intros Hd Hn r Hr H1 H2. apply list_elem_of_In, filter_In.
    split; [by apply list_elem_of_In|]. rewrite H1, H2, Hd, Hn. done.
Qed.

End Filters.

(** ** The month of the detail page *)

Section DetailMonth.
Import MonthView.

Lemma month_status_partition (l : list AttendanceRecord) :
  countStatus OnTime l + countStatus Late l + countStatus Absent l + countStatus OnDuty l
  = Z.of_nat (length l).
Proof.
  unfold countStatus in *. induction l as [|r l IH]; [done|]. cbn [List.filter].
  destruct (ar_status r); repeat case_bool_decide; try congruence; cbn [length]; lia.
Qed.

(** X25: [monthStats] counts every record of the selected month once: onTime
    + late + absent + onDuty, and present + absent, are the number of
    records of the month; clUsedThisMonth + unpaidLeave is absent, with
    clUsedThisMonth at most the balance; a negative balance makes
    unpaidLeave exceed the absences. *)
Theorem month_stats_account_for_every_record :
  ∀ (s : FacultyDetail.State),
    let st := monthStats s in
    let records := Z.of_nat (length (filteredAttendance s)) in
    let balance := default 0 (FacultyDetail.faculty s ≫= λ f : FacultyRecord, casualLeaves f) in
    onTime st + late st + absent st + onDuty st = records ∧
    present st + absent st = records ∧
    clUsedThisMonth st + unpaidLeave st = absent st ∧
    clUsedThisMonth st ≤ balance ∧ 0 ≤ unpaidLeave st ∧
    (0 ≤ balance → 0 ≤ clUsedThisMonth st ∧ unpaidLeave st ≤ absent st) ∧
    (balance < 0 → absent st < unpaidLeave st) ∧
    0 ≤ appliedLeave st ≤ records.
Proof.
  intros s st records balance. subst st records. unfold monthStats.
  cbn [onTime late absent onDuty present clUsedThisMonth unpaidLeave appliedLeave].
  fold balance.
  pose proof (month_status_partition (filteredAttendance s)) as Hp.
  assert (Ha : 0 ≤ countStatus Absent (filteredAttendance s)) by (unfold countStatus; lia).
  pose proof (filter_length_le linked (filteredAttendance s)).
  repeat split; lia.
Qed.

End DetailMonth.

(** ** Payable days set by hand *)

Section Overrides.
Import SummaryData PayableDays.

Lemma find_faculty (l : list FacultyRecord) f :
  NoDup (empId <$> l) → f ∈ l → List.find (λ g, empId g =? empId f) l = Some f.
Proof.
  induction l as [|g l IH]; intros Hnd Hf; [by apply elem_of_nil in Hf|].
  cbn in Hnd. apply NoDup_cons in Hnd as [Hg Hnd]. cbn.
  apply elem_of_cons in Hf as [->|Hf]; [by rewrite Z.eqb_refl|].
  destruct (Z.eqb_spec (empId g) (empId f)) as [E|_]; [|by apply IH].
  exfalso. apply Hg. rewrite E. by apply list_elem_of_fmap_2.
Qed.

(** X26: [updatePayableDays] makes no database call and changes the row of
    the given employee only: its payableDays become the new value while its
    other counts and every other row stay; on a summary just calculated, the
    value that the row already has changes nothing. *)
Theorem payable_days_override_is_local :
  ∀ (e : Z) (q : Q) (s : State) (w : World),
    ∃ s',
      updatePayableDays e q s w = (Ok tt, s', w) ∧
      facultyList s' = facultyList s ∧
      length (summaryData s') = length (summaryData s) ∧
      (∀ i item, summaryData s !! i = Some item →
         ∃ item', summaryData s' !! i = Some item' ∧
           ms_empId item' = ms_empId item ∧
           presentDays item' = presentDays item ∧
           casualLeavesUsed item' = casualLeavesUsed item ∧
           unpaidLeave item' = unpaidLeave item ∧
           totalLeaves item' = totalLeaves item ∧
           (ms_empId item ≠ e → item' = item) ∧
           (ms_empId item = e → payableDays item' = q)) ∧
      (summaryData s = calculateSummary s → NoDup (empId <$> facultyList s) →
       ∀ item, item ∈ summaryData s → ms_empId item = e → q = payableDays item →
               summaryData s' = summaryData s).
Proof.
  intros e q s w. unfold updatePayableDays, bind, getState, setSummaryData, setState.
  cbn. eexists. split; [done|]. cbn. split; [done|]. split; [by rewrite length_fmap|].
  split.
  - intros i item Hi. rewrite list_lookup_fmap, Hi. cbn. eexists. split; [done|].
    unfold override. destruct (Z.eqb_spec (ms_empId item) e) as [He|He]; cbn; by repeat split.
  - intros Hfresh Hnd item Hitem He ->.
    rewrite <- (list_fmap_id (summaryData s)) at 2. apply list_fmap_ext.
    intros k x Hx. cbn. unfold override.
    destruct (Z.eqb_spec (ms_empId x) e) as [Hxe|Hxe]; [|done]. cbn.
    assert (Hm : 0 < monthlyWorkingDays s).
    { destruct (decide (0 < monthlyWorkingDays s)) as [|Hn]; [done|]. exfalso.
      rewrite Hfresh in Hitem. unfold calculateSummary in Hitem.
      replace (monthlyWorkingDays s <=? 0) with true in Hitem
        by (symmetry; apply Z.leb_le; lia).
      rewrite orb_true_r in Hitem. by apply elem_of_nil in Hitem. }
    apply list_elem_of_lookup_2 in Hx.
    rewrite Hfresh, calculateSummary_rows in Hitem, Hx by done.
    apply list_elem_of_fmap in Hitem as (f & -> & Hf).
    apply list_elem_of_fmap in Hx as (g & -> & Hg).
    cbn in He, Hxe. subst e.
    assert (g = f) as ->.
    { apply list_elem_of_lookup_1 in Hf as [i Hi], Hg as [j Hj].
      assert (i = j) as ->; [|congruence].
      eapply NoDup_lookup; [exact Hnd|..]; rewrite list_lookup_fmap.
      - by rewrite Hi.
      - rewrite Hj. cbn. by rewrite Hxe. }
    rewrite find_faculty by done. reflexivity.
Qed.

End Overrides.

(** ** User accounts *)

Section EmailKeys.
Import UserManagement.

(** X27: [encodeEmailForKey] keeps the length, leaves no dot, does nothing
    when applied again, and gives different keys to different emails that
    contain no comma. *)
Theorem email_keys_are_dot_free_and_faithful :
  ∀ (a b : string),
    String.length (encodeEmailForKey a) = String.length a ∧
    (∀ i, String.get i (encodeEmailForKey a) ≠ Some "."%char) ∧
    encodeEmailForKey (encodeEmailForKey a) = encodeEmailForKey a ∧
    ((∀ i, String.get i a ≠ Some ","%char) → (∀ i, String.get i b ≠ Some ","%char) →
     encodeEmailForKey a = encodeEmailForKey b → a = b).
Proof.
  intros a b. split; [|split; [|split]].
  - induction a as [|c a IH]; [done|]. cbn. by rewrite IH.
  - induction a as [|c a IH]; intros i; [done|]. cbn. destruct i as [|i]; [|apply IH].
    destruct (Ascii.eqb_spec c "."); [done|]. by intros [=].
  - induction a as [|c a IH]; [done|]. cbn. rewrite IH. f_equal.
    destruct (Ascii.eqb c ".") eqn:Hc; [done|]. by rewrite Hc.
  - revert b. induction a as [|c a IH]; intros [|d b] Ha Hb Heq; try done.
    cbn in Heq. inversion Heq as [[Hc Hrest]].
    assert (Hc' : c ≠ ","%char) by (intros ->; by apply (Ha 0%nat)).
    assert (Hd' : d ≠ ","%char) by (intros ->; by apply (Hb 0%nat)).
    f_equal.
    + destruct (Ascii.eqb_spec c "."), (Ascii.eqb_spec d "."); try congruence.
    + apply IH; [intros i; apply (Ha (S i))|intros i; apply (Hb (S i))|done].
Qed.

End EmailKeys.

Section Accounts.
Import Act UserManagement.

Ltac run :=
  unfold approveUser, rejectUser, deleteUser, fetchUsers, send, setPendingUsers,
    setAllUsers, setError, setLoading, finally, tryCatch, await, awaitAll3, bind,
    getState, setState, throw, ret.

Lemma adminAccounts_elem (nodes : gmap string UserAccount) key name pass :
  nodes !! key = Some (mkUserAccount (Some name) pass) → name ≠ "" →
  mkUnifiedUser name (Some "N/A") None admin ∈ adminAccounts nodes.
Proof.
  intros Hkey Hne. unfold adminAccounts. apply list_elem_of_omap.
  exists (key, mkUserAccount (Some name) pass). split; [by apply elem_of_map_to_list|].
  cbn. apply String.eqb_neq in Hne. by rewrite Hne.
Qed.

(** X28: A fully successful [approveUser] stores the account under
    [users/{key}] and removes [pendingUsers/{key}]; the pending list read
    back holds the other requests and the user is listed as an admin.  When
    the removal is rejected after the store has resolved, the call throws
    the rejection again and the error of the hook is set to 'Failed to
    approve user. Please try again.', while the account exists under
    [users/] and is still pending. *)
Theorem approval_moves_the_account :
  ∀ (h : Host) (name pass : string) (s : State) (v : Server Users Call),
    let key := encodeEmailForKey name in
    ((∀ x, x ∈ take 5 (verdicts v) → x = None) →
     (∀ l x, x ∈ sortByUsername h l ↔ x ∈ l) →
     ∃ s' v',
       approveUser h name pass s v = (Ok tt, s', v') ∧
       userNodes (data v') !! key = Some (mkUserAccount (Some name) (Some pass)) ∧
       pendingNodes (data v') !! key = None ∧
       facultyNodes (data v') = facultyNodes (data v) ∧
       (∀ u, u ∈ pendingUsers s' ↔
             ∃ k, k ≠ key ∧ pendingNodes (data v) !! k = Some u) ∧
       (name ≠ "" → mkUnifiedUser name (Some "N/A") None admin ∈ allUsers s')) ∧
    (∀ msg rest, verdicts v = None :: Some msg :: rest →
       ∃ v',
         approveUser h name pass s v
         = (Throw msg,
            mkState (pendingUsers s) (allUsers s)
              (Some "Failed to approve user. Please try again.") (loading s), v') ∧
         userNodes (data v') !! key = Some (mkUserAccount (Some name) (Some pass)) ∧
         pendingNodes (data v') = pendingNodes (data v)).
Proof.
  intros h name pass s v key. split.
  - intros Hnet Hsort.
    assert (Hv : next v = None).
    { unfold next. destruct (verdicts v) as [|x l]; [done|]. cbn.
      rewrite (Hnet x); [done|]. cbn. by left. }
    assert (Hv2 : ∀ (d : Users) (l : list Call),
              next (mkServer d (tail (verdicts v)) l) = None).
    { intros d l. unfold next. cbn. destruct (verdicts v) as [|x [|x' l']]; [done..|]. cbn.
      rewrite (Hnet x'); [done|]. cbn. right. by left. }
    assert (Hall : List.find (λ x : option string, bool_decide (is_Some x))
                     (take 3 (tail (tail (verdicts v)))) = None).
    { destruct (List.find _ _) as [x|] eqn:Hfd; [|done]. exfalso.
      apply find_some in Hfd as [Hin Hsome]. apply list_elem_of_In in Hin.
      assert (Hx : x ∈ take 5 (verdicts v)).
      { destruct (verdicts v) as [|x0 [|x1 l]]; cbn in Hin |- *;
          [by apply elem_of_nil in Hin..|]. right. by right. }
      rewrite (Hnet x Hx) in Hsome. discriminate Hsome. }
    run. rewrite Hv. cbn. rewrite Hv2. cbn. rewrite Hall. cbn.
    eexists _, _. split; [done|]. cbn.
    split; [by rewrite lookup_insert_eq|]. split; [by rewrite lookup_delete_eq|].
    split; [done|]. split.
    + intros u. rewrite list_elem_of_fmap. split.
      * intros ([k u'] & -> & Hin). apply elem_of_map_to_list in Hin.
        exists k. destruct (decide (k = encodeEmailForKey name)) as [->|Hk].
        -- by rewrite lookup_delete_eq in Hin.
        -- by rewrite lookup_delete_ne in Hin.
      * intros (k & Hk & Hu). exists (k, u). split; [done|].
        apply elem_of_map_to_list. by rewrite lookup_delete_ne.
    + intros Hne. apply Hsort, elem_of_app. right.
      eapply adminAccounts_elem; [|done]. by rewrite lookup_insert_eq.
  - intros msg rest Hnet. run. unfold next. rewrite Hnet. cbn.
    eexists. split; [done|]. cbn. by rewrite lookup_insert_eq.
Qed.

(** X29: [deleteUser] of a faculty user without an employee id fails with
    'Failed to process request. Please try again.' before any call; for a
    faculty user it clears username, password and registered of
    [faculty/{empId}] and keeps the record, so that the account is no longer
    listed; for an admin it removes [users/{key}] and leaves faculty alone. *)
Theorem user_deletion_by_role :
  ∀ (h : Host) (user : UnifiedUser) (s : State) (v : Server Users Call),
    (u_role user = faculty → u_empId user = None ∨ u_empId user = Some 0 →
     deleteUser h user s v
     = (Throw deleteFailed,
        mkState (pendingUsers s) (allUsers s) (Some deleteFailed) (loading s), v)) ∧
    (∀ e, u_role user = faculty → u_empId user = Some e → e ≠ 0 → next v = None →
          ∃ s' v',
            deleteUser h user s v = (Ok tt, s', v') ∧
            userNodes (data v') = userNodes (data v) ∧
            pendingNodes (data v') = pendingNodes (data v) ∧
            (∀ n, facultyNodes (data v) !! e = Some n →
                  facultyNodes (data v') !! e = Some (mkFacultyUser (fu_name n) None None false)) ∧
            (facultyNodes (data v) !! e = None → facultyNodes (data v') !! e = None) ∧
            (∀ u, u ∈ facultyAccounts (facultyNodes (data v')) → u_empId u ≠ Some e)) ∧
    (u_role user = admin → next v = None →
     ∃ s' v',
       deleteUser h user s v = (Ok tt, s', v') ∧
       userNodes (data v') = delete (encodeEmailForKey (u_username user)) (userNodes (data v)) ∧
       facultyNodes (data v') = facultyNodes (data v)).
Proof.
  intros h user s v. split; [|split].
  - intros Hrole Hemp. run. rewrite Hrole. by destruct Hemp as [-> | ->].
  - intros e Hrole Hemp Hne Hv. run. rewrite Hrole, Hemp.
    apply Z.eqb_neq in Hne as Hne'. rewrite Hne'. cbn. rewrite Hv. cbn.
    set (nodes := alter _ e (facultyNodes (data v))).
    assert (Hfacts : (∀ n, facultyNodes (data v) !! e = Some n →
                           nodes !! e = Some (mkFacultyUser (fu_name n) None None false)) ∧
                     (facultyNodes (data v) !! e = None → nodes !! e = None) ∧
                     (∀ u, u ∈ facultyAccounts nodes → u_empId u ≠ Some e)).
    { split; [|split].
      - intros n Hn. unfold nodes. by rewrite lookup_alter_eq, Hn.
      - intros Hn. unfold nodes. by rewrite lookup_alter_eq, Hn.
      - intros u Hu Hid. unfold facultyAccounts in Hu.
        apply list_elem_of_omap in Hu as ([e' n] & Hin & Hsome).
        apply elem_of_map_to_list in Hin. cbn in Hsome.
        destruct (fu_registered n) eqn:Hreg; [|done].
        destruct (nonEmpty (fu_username n)); [|done]. inversion Hsome; subst u.
        cbn in Hid. inversion Hid; subst e'. unfold nodes in Hin.
        rewrite lookup_alter_eq in Hin.
        destruct (facultyNodes (data v) !! e); [|done]. cbn in Hin. inversion Hin; subst n.
        done. }
    clearbody nodes.
    destruct (List.find _ _) as [[m|]|]; cbn; eexists _, _; (split; [done|]); cbn;
      by repeat split; try apply Hfacts.
  - intros Hrole Hv. run. rewrite Hrole. cbn. rewrite Hv. cbn.
    destruct (List.find _ _) as [[m|]|]; cbn; by eexists _, _.
Qed.

End Accounts.

(** ** The detail page against the summary *)

Section DetailAndSummary.
Import SummaryData.

(** The records of one employee in the flattened attendance are the
    records stored for that employee, in the order of the store. *)
Lemma flatten_inner_app e n d (l : list (string * AttendanceNode)) acc :
  foldl (λ fl '(day, r),
           fl ++ [mkAttendanceRecord (day +:+ "-" +:+ pretty e) e n d day
                    (inTime r) (status r) (leaveApplicationId r)])
        acc l
  = acc ++ ((λ '(day, r), mkAttendanceRecord (day +:+ "-" +:+ pretty e) e n d day
                            (inTime r) (status r) (leaveApplicationId r)) <$> l).
Proof.
  revert acc. induction l as [|[day r] l IH]; intros acc; cbn; [by rewrite app_nil_r|].
  by rewrite IH, <- app_assoc.
Qed.

Lemma recordsOf_app e l1 l2 : recordsOf e (l1 ++ l2) = recordsOf e l1 ++ recordsOf e l2.
Proof. unfold recordsOf. apply List.filter_app. Qed.

Lemma recordsOf_block e e' n d (l : list (string * AttendanceNode)) :
  recordsOf e ((λ '(day, r), mkAttendanceRecord (day +:+ "-" +:+ pretty e') e' n d day
                               (inTime r) (status r) (leaveApplicationId r)) <$> l)
  = if decide (e' = e)
    then (λ '(day, r), mkAttendanceRecord (day +:+ "-" +:+ pretty e') e' n d day
                         (inTime r) (status r) (leaveApplicationId r)) <$> l
    else [].
Proof.
  unfold recordsOf. induction l as [|[day r] l IH]; cbn; [by destruct (decide _)|].
  rewrite IH. destruct (decide (e' = e)) as [->|Hne].
  - by rewrite bool_decide_eq_true_2.
  - by rewrite bool_decide_eq_false_2.
Qed.

Lemma filter_fmap_length {A B} (P : B → bool) (f : A → B) (l : list A) :
  length (List.filter P (f <$> l)) = length (List.filter (λ x, P (f x)) l).
Proof.
  induction l as [|x l IH]; [done|]. cbn. destruct (P (f x)); cbn; by rewrite IH.
Qed.

Lemma flatten_present fl (data : gmap Z (gmap string AttendanceNode)) M e :
  count (λ r, inMonth M r && bool_decide (ar_empId r = e)
              && negb (bool_decide (ar_status r = Absent)))%bool
        (flattenAttendance fl data)
  = MonthView.presentIn M (default ∅ (data !! e)).
Proof.
  unfold flattenAttendance, MonthView.presentIn.
  set (facultyMap := foldl _ ∅ fl). clearbody facultyMap.
  assert (Hgen : ∀ (L : list (Z * gmap string AttendanceNode)) acc,
    NoDup L.*1 →
    count (λ r, inMonth M r && bool_decide (ar_empId r = e)
                && negb (bool_decide (ar_status r = Absent)))%bool
      (foldl (λ flattened '(e0, records),
                let '(n, d) := match (facultyMap !! e0 : option FacultyRecord) with
                               | Some f => (name f, dept f)
                               | None => (Some ("Unknown (" +:+ pretty e0 +:+ ")"),
                                          Some "Unknown")
                               end in
                foldl (λ fl0 '(day, r),
                         fl0 ++ [mkAttendanceRecord (day +:+ "-" +:+ pretty e0) e0 n d day
                                   (inTime r) (status r) (leaveApplicationId r)])
                      flattened (map_to_list records))
             acc L)
    = count (λ r, inMonth M r && bool_decide (ar_empId r = e)
                  && negb (bool_decide (ar_status r = Absent)))%bool acc
      + Z.of_nat (length (List.filter
                   (λ '(day, r), String.prefix M day
                                 && negb (bool_decide (status r = Absent)))%bool
                   (map_to_list (default ∅ ((list_to_map L : gmap Z (gmap string AttendanceNode)) !! e)))))).
  { induction L as [|[e0 records] L IH]; intros acc Hnd.
    - cbn. rewrite lookup_empty. cbn. rewrite map_to_list_empty. cbn. lia.
    - cbn in Hnd. apply NoDup_cons in Hnd as [Hnotin Hnd]. cbn [foldl].
      destruct (match (facultyMap !! e0 : option FacultyRecord) with
                | Some f => (name f, dept f)
                | None => _ end) as [n d].
      rewrite IH by done. rewrite flatten_inner_app.
      unfold count at 1. rewrite List.filter_app, length_app, Nat2Z.inj_add.
      fold (count (λ r, inMonth M r && bool_decide (ar_empId r = e)
                        && negb (bool_decide (ar_status r = Absent)))%bool acc).
      rewrite <- Z.add_assoc. f_equal. cbn [list_to_map foldr].
      destruct (decide (e0 = e)) as [->|Hne].
      + rewrite lookup_insert_eq. cbn.
        assert (Hnone : (list_to_map L : gmap Z (gmap string AttendanceNode)) !! e = None)
          by (by apply not_elem_of_list_to_map_1).
        rewrite Hnone. cbn [default]. rewrite map_to_list_empty. cbn [List.filter length].
        rewrite Z.add_0_r. f_equal. rewrite filter_fmap_length. f_equal.
        apply List.filter_ext. intros [day r]. unfold inMonth. cbn.
        rewrite bool_decide_eq_true_2 by done. by rewrite andb_true_r.
      + rewrite lookup_insert_ne by done. rewrite filter_fmap_length.
        rewrite (List.filter_ext _ (λ _, false)).
        * assert (Hz : ∀ {A} (l : list A), List.filter (λ _, false) l = [])
            by (intros A l; induction l; done).
          rewrite Hz. cbn [length]. lia.
        * intros [day r]. cbn. rewrite bool_decide_eq_false_2 by done.
          by rewrite andb_false_r. }
  rewrite Hgen by apply NoDup_fst_map_to_list.
  rewrite list_to_map_to_list. unfold count. cbn. lia.
Qed.

Lemma filter_Permutation_length {A} (P : A → bool) (l1 l2 : list A) :
  l1 ≡ₚ l2 → length (List.filter P l1) = length (List.filter P l2).
Proof.
  induction 1 as [|x l1 l2 _ IH|x y l|l1 l2 l3 _ IH1 _ IH2]; cbn.
  - done.
  - destruct (P x); cbn; by rewrite IH.
  - by destruct (P x), (P y).
  - by rewrite IH1.
Qed.

Lemma filter_filter_length {A} (P Q : A → bool) (l : list A) :
  length (List.filter P (List.filter Q l)) = length (List.filter (λ x, Q x && P x)%bool l).
Proof.
  induction l as [|x l IH]; [done|]. cbn. destruct (Q x); cbn; [|done].
  destruct (P x); cbn; by rewrite IH.
Qed.

Lemma month_present (l : list AttendanceRecord) :
  MonthView.countStatus OnTime l + MonthView.countStatus Late l
  + MonthView.countStatus OnDuty l
  = Z.of_nat (length (List.filter (λ r, negb (bool_decide (ar_status r = Absent))) l)).
Proof.
  unfold MonthView.countStatus. induction l as [|r l IH]; [done|]. cbn [List.filter].
  destruct (ar_status r); repeat case_bool_decide; try congruence; cbn [negb length]; lia.
Qed.

(** X30: For the same database and month, the present days on the faculty
    detail page are the presentDays of the employee's row of
    [calculateSummary]; when the records of the month do not exceed the
    working days, the absences on the page are at most casualLeavesUsed +
    unpaidLeave of the row. *)
Theorem detail_page_and_summary_agree_on_present_days :
  ∀ (h : FacultyDetail.Host) (e : Z) (sd : FacultyDetail.State) (w : World) sd' w'
    (s : State) (f : FacultyRecord),
    e ≠ 0 →
    FacultyDetail.fetchData h e sd w = (Ok tt, sd', w') →
    FacultyDetail.error sd' = None →
    (∀ l, FacultyDetail.sortAttendance h l ≡ₚ l) →
    rawAttendance s = flattenAttendance (facultyList s) (attendance (db w)) →
    selectedMonth s = FacultyDetail.selectedMonth sd →
    0 < monthlyWorkingDays s → f ∈ facultyList s → empId f = e →
    let st := MonthView.monthStats sd' in
    ∃ row,
      row ∈ calculateSummary s ∧ ms_empId row = e ∧
      presentDays row = MonthView.present st ∧
      (Z.of_nat (length (MonthView.filteredAttendance sd')) ≤ actualWorkingDays s →
       MonthView.absent st ≤ casualLeavesUsed row + unpaidLeave row).
Proof.
  intros h e sd w sd' w' s f Hne Hfetch Herr Hsort Hraw Hmonth Hm Hf He st.
  set (records := default ∅ (attendance (db w) !! e)).
  assert (Hdetail : ∃ n,
    FacultyDetail.attendance sd'
    = FacultyDetail.sortAttendance h
        ((λ '(day, r), mkAttendanceRecord (day +:+ "-" +:+ pretty e) e (name n) (dept n)
                         day (inTime r) (status r) (leaveApplicationId r))
           <$> map_to_list records) ∧
    FacultyDetail.selectedMonth sd' = FacultyDetail.selectedMonth sd).
  { apply Z.eqb_neq in Hne as Hne'.
    unfold FacultyDetail.fetchData, FacultyDetail.getAll3, FacultyDetail.setLoading,
      FacultyDetail.setError, FacultyDetail.setFaculty, FacultyDetail.setAttendance,
      FacultyDetail.setLeaveApplications, tryCatch, bind, setState, throw, ret in Hfetch.
    rewrite Hne' in Hfetch. cbn in Hfetch.
    destruct (List.find _ (take 3 (net w))) as [[msg|]|]; cbn in Hfetch;
      try (inversion Hfetch; subst sd'; discriminate Herr);
      (destruct (faculty (db w) !! e) as [n|]; cbn in Hfetch;
       inversion Hfetch; subst sd'; [|discriminate Herr]);
      by exists n. }
  destruct Hdetail as (n & Hatt & Hsel).
  exists (summaryRow (actualWorkingDays s) (permissionLimit s)
            (attendanceByEmp (List.filter (inMonth (selectedMonth s)) (rawAttendance s))) f).
  split; [rewrite calculateSummary_rows by done; by apply list_elem_of_fmap_2|].
  split; [done|].
  assert (Hpresent : presentDays (summaryRow (actualWorkingDays s) (permissionLimit s)
            (attendanceByEmp (List.filter (inMonth (selectedMonth s)) (rawAttendance s))) f)
          = MonthView.present st).
  { rewrite summaryRow_steps. unfold summarize_steps. cbn [presentDays].
    rewrite Hraw, He, flatten_present. fold records.
    subst st. unfold MonthView.monthStats. cbn [MonthView.present].
    rewrite month_present. unfold MonthView.filteredAttendance, MonthView.presentIn.
    rewrite filter_filter_length, Hatt, (filter_Permutation_length _ _ _ (Hsort _)).
    rewrite filter_fmap_length, Hsel, Hmonth. do 2 f_equal.
    apply List.filter_ext. by intros [day r]. }
  split; [done|].
  intros Hle.
  set (row := summaryRow _ _ _ f) in *.
  assert (Habs : casualLeavesUsed row + unpaidLeave row
                 = Z.max 0 (actualWorkingDays s - presentDays row)).
  { unfold row, summaryRow. cbn [casualLeavesUsed unpaidLeave presentDays]. lia. }
  rewrite Habs, Hpresent.
  pose proof (month_status_partition (MonthView.filteredAttendance sd')) as Hp.
  subst st. unfold MonthView.monthStats in *.
  cbn [MonthView.present MonthView.absent] in *. lia.
Qed.

End DetailAndSummary.

(** ** Further worked instances *)

Section MoreInstances.
Import Sample Cases.

Ltac by_computation := vm_compute; reflexivity.

(** A valid calendar date, and dates in order, by computation. *)
Lemma validCivil_by_test y m d :
  (100 <=? y) && (y <=? 9999) && (1 <=? m) && (m <=? 12)
  && (1 <=? d) && (d <=? JSDate.DaysInMonth y m) = true →
  JSDate.validCivil (JSDate.mkCivil y m d).
Proof.
  intros H. unfold JSDate.validCivil. cbn [JSDate.year JSDate.month JSDate.day].
  repeat (apply andb_true_iff in H as [H ?]). lia.
Qed.

Lemma civil_le_by_test x y :
  (JSDate.year x <? JSDate.year y)
  || (JSDate.year x =? JSDate.year y)
     && ((JSDate.month x <? JSDate.month y)
         || (JSDate.month x =? JSDate.month y) && (JSDate.day x <=? JSDate.day y)) = true
  ↔ JSDate.civil_le x y.
Proof.
  unfold JSDate.civil_le.
  rewrite orb_true_iff, !andb_true_iff, orb_true_iff, andb_true_iff. lia.
Qed.

(** The roster allocated while the database cannot be reached. *)
Lemma allocation_failure_leaves_month_unlocked_witness :
  failedAllocation.1.1 = Ok tt ∧
  MonthlyActions.feedback failedAllocation.1.2
  = Some (MonthlyActions.mkFeedback MonthlyActions.error "Allocation failed: offline") ∧
  MonthlyActions.isAllocationComplete failedAllocation.1.2 = false ∧
  monthlyAllocations (db failedAllocation.2) = monthlyAllocations roster.
Proof.
  assert (Hrun : MonthlyActions.handleAllocateCL clock actions offline
                 = (failedAllocation.1.1, failedAllocation.1.2, failedAllocation.2))
    by by_computation.
  assert (Hfail : ¬ MonthlyActions.ranToCompletion failedAllocation.1.2).
  { intros (f & Hf & Hty). vm_compute in Hf. inversion Hf; subst f. discriminate Hty. }
  destruct (allocation_failure_leaves_month_unlocked clock actions offline _ _ _
              Hrun eq_refl Hfail) as (Hr & _ & Hflag & _ & Hma & _).
  split; [exact Hr|]. split; [by_computation|]. split; [exact Hflag | exact Hma].
Defined.

(** On the roster two of the three employees have no absence in April. *)
Lemma allocation_marker_counts_the_unabsent_witness :
  ∃ a, monthlyAllocations (db allocation.2) !! "2024-04" = Some a ∧ updatedCount a = 2.
Proof.
  destruct allocation_ran as [Hrun Hok].
  destruct (allocation_marker_counts_the_unabsent clock actions (online roster) _ _ _ Hrun Hok)
    as ((a & Ha & Hcount) & _).
  exists a. split; [exact Ha|]. rewrite Hcount. by_computation.
Defined.

(** Ravi holds the casual leave of April although the month is not
    marked. *)
Lemma allocation_rejected_marker_keeps_the_grants_witness :
  ∃ c' w',
    MonthlyActions.handleAllocateCL clock actions markerRefused = (Ok tt, c', w') ∧
    MonthlyActions.isAllocationComplete c' = false ∧
    monthlyAllocations (db w') = ∅ ∧
    faculty (db w') !! 2 = Some (member "Ravi" 4000 1).
Proof.
  assert (Hcount : 0 < (MonthlyActions.planned "2024-04" roster).2) by by_computation.
  destruct (allocation_rejected_marker_keeps_the_grants clock actions markerRefused "denied" []
              eq_refl eq_refl Hcount) as (c' & w' & Hrun & _ & Hflag & Hma & Hgrant & _).
  exists c', w'. split; [exact Hrun|]. split; [exact Hflag|]. split; [exact Hma|].
  apply (Hgrant 2 (member "Ravi" 4000 0) eq_refl).
  rewrite <- absentees_absentIn. refine (bool_decide_eq_false_1 _ _). by_computation.
Defined.

(** The row of the payroll scenario: 15 + 2 + 3 days are the 20 working
    days. *)
Lemma summary_row_accounts_for_every_day_witness :
  presentDays ashaRow + casualLeavesUsed ashaRow + unpaidLeave ashaRow = 20 ∧
  (0 <= payableDays ashaRow)%Q.
Proof.
  assert (Hrow : ashaRow ∈ SummaryData.calculateSummary payroll).
  { replace (SummaryData.calculateSummary payroll) with [ashaRow] by by_computation. left. }
  destruct (summary_row_accounts_for_every_day payroll ashaRow Hrow)
    as (_ & _ & _ & Hsum & _ & _ & _ & _ & Hpay & _).
  split; [rewrite Hsum; by_computation | exact Hpay].
Defined.

(** The payroll scenario finalized while the database cannot be reached. *)
Lemma finalize_failure_changes_nothing_witness :
  failedFinalize.1.1 = Throw "offline" ∧
  failedFinalize.1.2 = payrollReady ∧ db failedFinalize.2 = roster.
Proof.
  assert (Hrun : SummaryData.finalizeAndDeductCLs payrollReady offline
                 = (Throw "offline", failedFinalize.1.2, failedFinalize.2)) by by_computation.
  destruct (finalize_failure_changes_nothing payrollReady offline "offline" _ _ Hrun)
    as (Hs & Hdb & _).
  split; [by_computation|]. split; [exact Hs | exact Hdb].
Defined.

(** Asha's two casual leaves are used up by the payroll scenario. *)
Lemma finalize_fresh_summary_agrees_witness :
  SummaryData.storedBalance (db finalizedOnce.2) 1 = Some 0.
Proof.
  destruct finalized_runs as (H1 & _).
  assert (Hfresh : SummaryData.summaryData payrollReady
                   = SummaryData.calculateSummary payrollReady) by by_computation.
  assert (Hnd : NoDup (empId <$> SummaryData.facultyList payrollReady)).
  { refine (bool_decide_unpack _ _). by_computation. }
  destruct (finalize_fresh_summary_agrees payrollReady (online roster) _ _ _ 0%nat asha
              Hfresh Hnd eq_refl H1) as [Hused _].
  destruct Hused as (_ & Hstored & _); [by_computation|].
  change (empId asha) with 1 in Hstored. rewrite Hstored. by_computation.
Defined.

(** The leave of 27 February to 2 March rejected: the day before and the
    leave of 7 March keep their records. *)
Lemma reject_touches_only_the_range_witness :
  ∃ s' w',
    LeaveApproval.rejectLeave "L1" approvals (online leaves) = (Ok tt, s', w') ∧
    attendanceAt (db w') 7 "2024-02-26" = Some onTime ∧
    leaveApplications (db w') !! "L2" = Some (FullLeave leave2) ∧
    leave2 ∈ LeaveApproval.leaveApplications s'.
Proof.
  set (a := JSDate.mkCivil 2024 2 27). set (b := JSDate.mkCivil 2024 3 2).
  destruct (reject_touches_only_the_range "L1" approvals (online leaves) leave1 a b
              eq_refl (validCivil_by_test 2024 2 27 eq_refl)
              (validCivil_by_test 2024 3 2 eq_refl) eq_refl eq_refl eq_refl)
    as (s' & w' & Hrun & _ & _ & Hother & _ & Hout & Hlist).
  exists s', w'. split; [exact Hrun|]. split; [|split].
  - rewrite Hout; [by_computation|].
    intros d Hd Had _ Heq.
    assert (Hd' : d = JSDate.mkCivil 2024 2 26).
    { apply iso_inj; [exact Hd | exact (validCivil_by_test 2024 2 26 eq_refl) |].
      rewrite <- Heq. by_computation. }
    subst d. apply civil_le_by_test in Had. discriminate Had.
  - rewrite Hother; [by_computation|]. intros H; discriminate H.
  - apply Hlist; [|intros H; discriminate H]. cbn. right. left.
Defined.

(** The same rejection while the database cannot be reached. *)
Lemma reject_failure_rolls_back_witness :
  failedReject.1.1 = Throw "Failed to reject leave. Please try again." ∧
  failedReject.1.2 = approvals ∧ db failedReject.2 = leaves.
Proof.
  assert (Hrun : LeaveApproval.rejectLeave "L1" approvals leavesOffline
                 = (Throw "Failed to reject leave. Please try again.",
                    failedReject.1.2, failedReject.2)) by by_computation.
  destruct (reject_failure_rolls_back "L1" approvals leavesOffline) as [_ Hthrow].
  destruct (Hthrow _ _ _ Hrun) as (_ & Hs & Hdb & _).
  split; [by_computation|]. split; [exact Hs | exact Hdb].
Defined.

(** The leave rejected and then approved: 28 February stays without a
    record. *)
Lemma approval_does_not_restore_attendance_witness :
  attendanceAt leaves 7 "2024-02-28" = Some (onLeave "L1") ∧
  ∃ s1 w1 s2 w2,
    LeaveApproval.rejectLeave "L1" approvals (online leaves) = (Ok tt, s1, w1) ∧
    LeaveApproval.approveLeave "L1" s1 w1 = (Ok tt, s2, w2) ∧
    nodeStatus <$> leaveApplications (db w2) !! "L1" = Some Approved ∧
    attendanceAt (db w2) 7 "2024-02-28" = None.
Proof.
  split; [by_computation|].
  set (a := JSDate.mkCivil 2024 2 27). set (b := JSDate.mkCivil 2024 3 2).
  assert (Hnet : ∀ v, v ∈ take 2 (net (online leaves)) → v = None).
  { intros v Hv. by apply elem_of_nil in Hv. }
  destruct (approval_does_not_restore_attendance "L1" approvals (online leaves) leave1 a b
              eq_refl (validCivil_by_test 2024 2 27 eq_refl)
              (validCivil_by_test 2024 3 2 eq_refl) eq_refl eq_refl Hnet)
    as (s1 & w1 & s2 & w2 & Hrej & Happ & Hst & _ & _ & Hgone).
  exists s1, w1, s2, w2. split; [exact Hrej|]. split; [exact Happ|]. split; [exact Hst|].
  apply (Hgone (JSDate.mkCivil 2024 2 28) (validCivil_by_test 2024 2 28 eq_refl)).
  - apply civil_le_by_test. reflexivity.
  - apply civil_le_by_test. reflexivity.
Defined.

(** The leave deleted on a host on UTC. *)
Lemma delete_clears_the_range_in_a_fixed_zone_witness :
  ∃ s' w',
    FacultyDetail.deleteLeave host 10 7 leave1 detail (online leaves) = Some (Ok tt, s', w') ∧
    leaveApplications (db w') !! "L1" = None ∧
    attendanceAt (db w') 7 "2024-02-29" = None.
Proof.
  set (a := JSDate.mkCivil 2024 2 27). set (b := JSDate.mkCivil 2024 3 2).
  assert (H7 : 7 ≠ 0) by lia.
  assert (Hfuel : (Z.to_nat ((JSDate.civilTime b - JSDate.civilTime a) / JSDate.msPerDay + 1)
                   ≤ 10)%nat).
  { apply Nat.leb_le. by_computation. }
  destruct (delete_clears_the_range_in_a_fixed_zone host 0 10 7 detail (online leaves) leave1
              a b H7 (λ _, eq_refl) (λ _, eq_refl) (validCivil_by_test 2024 2 27 eq_refl)
              (validCivil_by_test 2024 3 2 eq_refl) eq_refl eq_refl Hfuel eq_refl)
    as (s' & w' & Hrun & Hleave & Hgone & _).
  exists s', w'. split; [exact Hrun|]. split; [exact Hleave|].
  apply (Hgone (JSDate.mkCivil 2024 2 29) (validCivil_by_test 2024 2 29 eq_refl)).
  - apply civil_le_by_test. reflexivity.
  - apply civil_le_by_test. reflexivity.
Defined.

(** Asha's payable days of the payroll scenario set to 18: her other
    counts stay. *)
Lemma payable_days_override_is_local_witness :
  ∃ s',
    PayableDays.updatePayableDays 1 18 payrollReady (online roster)
    = (Ok tt, s', online roster) ∧
    ∃ item, SummaryData.summaryData s' !! 0%nat = Some item ∧
            payableDays item = 18%Q ∧ presentDays item = 15.
Proof.
  destruct (payable_days_override_is_local 1 18 payrollReady (online roster))
    as (s' & Hrun & _ & _ & Hrows & _).
  exists s'. split; [exact Hrun|].
  destruct (Hrows 0%nat ashaRow ltac:(by_computation))
    as (item & Hitem & _ & Hp & _ & _ & _ & _ & Hq).
  exists item. split; [exact Hitem|]. split; [by apply Hq|]. rewrite Hp. by_computation.
Defined.

(** Kiran's page in March 2024: two absences against a balance of one. *)
Lemma month_stats_account_for_every_record_witness :
  MonthView.absent (MonthView.monthStats kiranPage) = 2 ∧
  MonthView.clUsedThisMonth (MonthView.monthStats kiranPage)
  + MonthView.unpaidLeave (MonthView.monthStats kiranPage) = 2 ∧
  0 ≤ MonthView.clUsedThisMonth (MonthView.monthStats kiranPage).
Proof.
  pose proof (month_stats_account_for_every_record kiranPage) as H. cbv zeta in H.
  destruct H as (_ & _ & Hsplit & _ & _ & Hpos & _).
  split; [by_computation|]. split; [rewrite Hsplit; by_computation|].
  apply Hpos, Z.leb_le. by_computation.
Defined.

(** Asha in April 2024: one day present on her page and in her row. *)
Lemma detail_page_and_summary_agree_on_present_days_witness :
  MonthView.present (MonthView.monthStats ashaPage.1.2) = 1 ∧
  ∃ row, row ∈ SummaryData.calculateSummary ashaSummary ∧ ms_empId row = 1 ∧
         presentDays row = 1.
Proof.
  assert (H1 : 1 ≠ 0) by lia.
  assert (Hrun : FacultyDetail.fetchData host 1 april (online roster)
                 = (Ok tt, ashaPage.1.2, ashaPage.2)) by by_computation.
  assert (Hm : 0 < SummaryData.monthlyWorkingDays ashaSummary) by (cbn; lia).
  assert (Hf : asha ∈ SummaryData.facultyList ashaSummary) by (cbn; left).
  destruct (detail_page_and_summary_agree_on_present_days host 1 april (online roster) _ _
              ashaSummary asha H1 Hrun ltac:(by_computation) (λ l, reflexivity l)
              eq_refl eq_refl Hm Hf eq_refl) as (row & Hrow & Hid & Hp & _).
  split; [by_computation|]. exists row. split; [exact Hrow|]. split; [exact Hid|].
  rewrite Hp. by_computation.
Defined.

(** Mira added to the list that holds Asha, and Asha's salary raised. *)
Lemma faculty_list_keeps_ids_unique_witness :
  NoDup (empId <$> FacultyData.facultyList
                     (FacultyData.addFaculty office mira staff (registry allAbsent)).1.2) ∧
  FacultyData.facultyList
    (FacultyData.updateFaculty office 1 (member "Asha" 3200 2) staff (registry allAbsent)).1.2
  = [mkFacultyRecord 1 (member "Asha" 3200 2)].
Proof.
  split; [|by_computation].
  assert (Hsound : NoDup (empId <$> FacultyData.facultyList staff) ∧
                   ∀ f : FacultyRecord, f ∈ FacultyData.facultyList staff → is_Some (name f)).
  { split; [refine (bool_decide_unpack _ _); by_computation|].
    intros f Hf. apply list_elem_of_singleton in Hf as ->. by eexists. }
  destruct (faculty_list_keeps_ids_unique office staff (registry allAbsent)
              (λ l, reflexivity l) Hsound) as (Hadd & _).
  apply (Hadd mira (FacultyData.addFaculty office mira staff (registry allAbsent)).1.1 _
           (FacultyData.addFaculty office mira staff (registry allAbsent)).2).
  by_computation.
Defined.

(** Asha deleted from the roster: her absence of 3 April goes with her. *)
Lemma deleted_employee_leaves_no_attendance_witness :
  attendanceAt roster 1 "2024-04-03" = Some absent ∧
  ∃ s' v',
    FacultyData.deleteFaculty 1 staff (registry roster) = (Ok tt, s', v') ∧
    attendanceAt (Act.data v') 1 "2024-04-03" = None ∧
    FacultyData.facultyList s' = [].
Proof.
  split; [by_computation|].
  destruct (deleted_employee_leaves_no_attendance 1 staff (registry roster) eq_refl)
    as (s' & v' & Hrun & _ & Hgone & _ & _ & _ & Hlist & _).
  exists s', v'. split; [exact Hrun|]. split; [apply Hgone|].
  destruct (FacultyData.facultyList s') as [|f l] eqn:Hl; [done|].
  assert (Hf : f ∈ f :: l) by left. apply Hlist in Hf as [Hf Hid].
  apply list_elem_of_singleton in Hf. by subst f.
Defined.

(** Mira added and the list fetched again. *)
Lemma added_faculty_is_fetched_back_witness :
  ∃ s1 v1 s2 v2,
    FacultyData.addFaculty office mira staff (registry allAbsent) = (Ok tt, s1, v1) ∧
    faculty (Act.data v1) !! 3 = Some (member "Mira" 5000 1) ∧
    FacultyData.fetchData office s1 v1 = (Ok tt, s2, v2) ∧
    mira ∈ FacultyData.facultyList s2.
Proof.
  assert (Hnew : empId mira ∉ empId <$> FacultyData.facultyList staff).
  { intros H. apply list_elem_of_singleton in H. discriminate H. }
  assert (Hnames : ∀ g : FacultyRecord, g ∈ FacultyData.facultyList staff → is_Some (name g)).
  { intros g Hg. apply list_elem_of_singleton in Hg as ->. by eexists. }
  assert (Hstored : ∀ e n, faculty (Act.data (registry allAbsent)) !! e = Some n →
                           is_Some (name n)).
  { intros e n H. change (faculty (Act.data (registry allAbsent)))
      with ({[ 1 := member "Asha" 3000 2 ]} : gmap Z FacultyNode) in H.
    apply lookup_singleton_Some in H as [_ <-]. by eexists. }
  assert (Hnet : ∀ x, x ∈ take 2 (Act.verdicts (registry allAbsent)) → x = None).
  { intros x Hx. by apply elem_of_nil in Hx. }
  destruct (added_faculty_is_fetched_back office mira staff (registry allAbsent)
              (λ l x, reflexivity _) Hnew eq_refl Hnames Hstored Hnet)
    as (s1 & v1 & s2 & v2 & Hadd & _ & Hnode & _ & _ & _ & _ & Hfetch & _ & _ & Hin).
  exists s1, v1, s2, v2. split; [exact Hadd|]. split; [exact Hnode|].
  split; [exact Hfetch | exact Hin].
Defined.

(** The administrator account deleted. *)
Lemma user_deletion_by_role_witness :
  UserManagement.userNodes (Act.data requests) !! "root@x,org"
  = Some (UserManagement.mkUserAccount (Some "root@x.org") (Some "cm9vdA==")) ∧
  ∃ s' v',
    UserManagement.deleteUser accountsHost root console requests = (Ok tt, s', v') ∧
    UserManagement.userNodes (Act.data v') !! "root@x,org" = None.
Proof.
  split; [by_computation|].
  destruct (user_deletion_by_role accountsHost root console requests) as (_ & _ & Hadmin).
  destruct (Hadmin eq_refl eq_refl) as (s' & v' & Hrun & Hnodes & _).
  exists s', v'. split; [exact Hrun|]. rewrite Hnodes. by_computation.
Defined.

(** Ravi, late on 3 April 2024, marked present: the time of arrival
    stays. *)
Lemma marking_writes_the_day_witness :
  ∃ s' v',
    ManualAttendance.handleMarkAttendance 2 ManualAttendance.Present (opened "2024-04-03")
      (station roster []) = (Ok tt, s', v') ∧
    attendanceAt (Act.data v') 2 "2024-04-03" = Some (mkAttendanceNode "08:30:00" OnTime None) ∧
    attendanceAt (Act.data v') 1 "2024-04-03" = Some absent.
Proof.
  set (ravi := ManualAttendance.mkRow (mkFacultyRecord 2 (member "Ravi" 4000 0)) (Some Late)
                 (Some "08:30:00")).
  assert (Hfind : List.find (λ f, empId (ManualAttendance.member f) =? 2)
                    (ManualAttendance.facultyWithAttendance (opened "2024-04-03"))
                  = Some ravi) by by_computation.
  destruct (marking_writes_the_day 2 ManualAttendance.Present (opened "2024-04-03")
              (station roster []) ravi Hfind eq_refl)
    as (s' & v' & Hrun & _ & _ & Hlate & _ & Hframe & _).
  exists s', v'. split; [exact Hrun|]. split.
  - apply (Hlate eq_refl late). by_computation.
  - rewrite Hframe; [by_computation|]. intros [H _]. discriminate H.
Defined.

(** The same marking while the database cannot be reached. *)
Lemma rejected_marking_is_only_alerted_witness :
  ∃ s' v',
    ManualAttendance.handleMarkAttendance 2 ManualAttendance.Present (opened "2024-04-03")
      (station roster [Some "offline"]) = (Ok tt, s', v') ∧
    Act.data v' = roster ∧
    ManualAttendance.alerts s' = [ManualAttendance.alertText] ∧
    ManualAttendance.error s' = None.
Proof.
  set (ravi := ManualAttendance.mkRow (mkFacultyRecord 2 (member "Ravi" 4000 0)) (Some Late)
                 (Some "08:30:00")).
  assert (Hfind : List.find (λ f, empId (ManualAttendance.member f) =? 2)
                    (ManualAttendance.facultyWithAttendance (opened "2024-04-03"))
                  = Some ravi) by by_computation.
  destruct (rejected_marking_is_only_alerted 2 ManualAttendance.Present (opened "2024-04-03")
              (station roster [Some "offline"]) ravi "offline" Hfind eq_refl)
    as (s' & v' & Hrun & Hdata & _ & Halerts & Herror & _).
  exists s', v'. split; [exact Hrun|]. split; [exact Hdata|].
  split; [rewrite Halerts; by_computation | rewrite Herror; by_computation].
Defined.

(** Mira, marked on leave on 5 April 2024, is not granted the casual leave
    of April. *)
Lemma marking_decides_the_allocation_witness :
  faculty (db laterAllocation.2) !! 3 = Some (member "Mira" 5000 1).
Proof.
  set (row := ManualAttendance.mkRow mira None None).
  assert (Hfind : List.find (λ f, empId (ManualAttendance.member f) =? 3)
                    (ManualAttendance.facultyWithAttendance (opened "2024-04-05"))
                  = Some row) by by_computation.
  assert (Hmark : ManualAttendance.handleMarkAttendance 3 ManualAttendance.Leave
                    (opened "2024-04-05") (station roster [])
                  = (Ok tt, miraOnLeave.1.2, miraOnLeave.2)) by by_computation.
  assert (Hrun : MonthlyActions.handleAllocateCL clock actions
                   (online (Act.data miraOnLeave.2))
                 = (laterAllocation.1.1, laterAllocation.1.2, laterAllocation.2))
    by by_computation.
  assert (Hok : MonthlyActions.ranToCompletion laterAllocation.1.2)
    by (eexists; split; by_computation).
  destruct (marking_decides_the_allocation 3 ManualAttendance.Leave (opened "2024-04-05")
              (station roster []) row _ _ clock actions (online (Act.data miraOnLeave.2))
              _ _ _ (member "Mira" 5000 1) Hfind eq_refl Hmark eq_refl eq_refl Hrun Hok
              eq_refl) as [Hleave _].
  exact (Hleave eq_refl).
Defined.

(** The desk opened on 3 April 2024. *)
Lemma fetched_rows_follow_the_day_witness :
  ∃ s' v',
    ManualAttendance.fetchDataForDate desk "2024-04-03" (closed "2024-04-03")
      (station roster []) = (Ok tt, s', v') ∧
    Act.data v' = roster ∧ ManualAttendance.error s' = None ∧
    ManualAttendance.loading s' = false.
Proof.
  assert (Hne : faculty (Act.data (station roster [])) ≠ ∅).
  { intros H. apply (f_equal (λ m, m !! 1)) in H. vm_compute in H. discriminate H. }
  assert (Hnames : ∀ e n, faculty (Act.data (station roster [])) !! e = Some n →
                          is_Some (name n)).
  { assert (Hall : map_Forall (λ _ n, is_Some (name n)) (faculty roster)).
    { refine (bool_decide_unpack _ _). by_computation. }
    exact Hall. }
  assert (Hnet : ∀ x, x ∈ take 2 (Act.verdicts (station roster [])) → x = None).
  { intros x Hx. by apply elem_of_nil in Hx. }
  destruct (fetched_rows_follow_the_day desk "2024-04-03" (closed "2024-04-03")
              (station roster []) Hne Hnames Hnet)
    as (s' & v' & Hrun & Hdata & _ & Herr & Hload & _).
  by exists s', v'.
Defined.

(** 7 April 2024 added to the calendar that holds 6 April. *)
Lemma holiday_list_keeps_ids_unique_witness :
  NoDup (h_id <$> Holidays.holidays
                    (Holidays.addHoliday calendarHost "2024-04-07" "Sunday" calendar
                       calendarServer).1.2).
Proof.
  assert (Hnd : NoDup (h_id <$> Holidays.holidays calendar)).
  { refine (bool_decide_unpack _ _). by_computation. }
  destruct (holiday_list_keeps_ids_unique calendarHost calendar calendarServer
              (λ l, reflexivity l) Hnd) as (Hadd & _).
  apply (Hadd "2024-04-07" "Sunday"
           (Holidays.addHoliday calendarHost "2024-04-07" "Sunday" calendar
              calendarServer).1.1 _
           (Holidays.addHoliday calendarHost "2024-04-07" "Sunday" calendar calendarServer).2).
  by_computation.
Defined.

(** 7 April 2024 added and deleted again. *)
Lemma added_holiday_can_be_deleted_again_witness :
  ∃ s1 v1 s2 v2,
    Holidays.addHoliday calendarHost "2024-04-07" "Sunday" calendar calendarServer
    = (Ok tt, s1, v1) ∧
    Act.data v1 !! "2024-04-07" = Some (Holidays.mkNode (Some "2024-04-07") (Some "Sunday")) ∧
    Holidays.deleteHoliday "2024-04-07" s1 v1 = (Ok tt, s2, v2) ∧
    Act.data v2 = Act.data calendarServer.
Proof.
  assert (Hnew : "2024-04-07" ∉ h_id <$> Holidays.holidays calendar).
  { intros H. apply list_elem_of_singleton in H. discriminate H. }
  assert (Hnet : ∀ x, x ∈ take 2 (Act.verdicts calendarServer) → x = None).
  { intros x Hx. by apply elem_of_nil in Hx. }
  destruct (added_holiday_can_be_deleted_again calendarHost "2024-04-07" "Sunday" calendar
              calendarServer (λ l x, reflexivity _) Hnew Hnet)
    as (s1 & v1 & s2 & v2 & Hadd & Hnode & _ & Hdel & Hdata & _).
  exists s1, v1, s2, v2. split; [exact Hadd|]. split; [exact Hnode|].
  split; [exact Hdel|]. rewrite Hdata. by_computation.
Defined.

(** The sheet of three rows read on 3 April 2024 against 08:15:00. *)
Lemma ingested_status_follows_the_time_witness :
  length (AttendanceData.processRawData reader sheet "2024-04-03" "08:15:00") = 3%nat ∧
  ∃ r, AttendanceData.processRawData reader sheet "2024-04-03" "08:15:00" !! 2%nat = Some r ∧
       AttendanceData.up_status r = Absent ∧ AttendanceData.up_inTime r = "00:00:00".
Proof.
  destruct (ingested_status_follows_the_time reader sheet "2024-04-03" "08:15:00")
    as [Hlen Hrows].
  split; [exact Hlen|].
  destruct (AttendanceData.processRawData reader sheet "2024-04-03" "08:15:00" !! 2%nat)
    as [r|] eqn:Hr; [|vm_compute in Hr; discriminate Hr].
  exists r. split; [done|].
  destruct (Hrows 2%nat r Hr) as (_ & _ & Habsent & _).
  assert (Hst : AttendanceData.up_status r = Absent).
  { vm_compute in Hr. inversion Hr. reflexivity. }
  split; [exact Hst | by apply Habsent].
Defined.

(** Half past eight against a quarter past eight. *)
Lemma classification_compares_times_of_day_witness :
  AttendanceData.classify "08:30:00" "08:15:00" = Late ∧
  AttendanceData.classify "08:15:00" "08:15:00" = OnTime.
Proof.
  split.
  - exact (classification_compares_times_of_day 8 30 0 8 15 0 ltac:(lia) ltac:(lia)
             ltac:(lia) ltac:(lia) ltac:(lia) ltac:(lia)).
  - exact (classification_compares_times_of_day 8 15 0 8 15 0 ltac:(lia) ltac:(lia)
             ltac:(lia) ltac:(lia) ltac:(lia) ltac:(lia)).
Defined.

(** Five past seven, written [7:05], is late for a quarter past eight. *)
Lemma hours_without_leading_zero_are_late_witness :
  AttendanceData.readInTime reader (AttendanceData.Str "7:05") = "7:05:00" ∧
  AttendanceData.classify "7:05:00" "08:15:00" = Late.
Proof.
  assert (Hk : 1 ≤ 7 ≤ 9) by lia. assert (Hm : 0 ≤ 5 ≤ 99) by lia.
  pose proof (hours_without_leading_zero_are_late reader 7 5 "8:15:00" Hk Hm) as H.
  cbv zeta in H. destruct H as [Hread Hlate]. split; [exact Hread | exact Hlate].
Defined.

(** The five late days filtered to 2 to 4 April 2024. *)
Lemma filtered_attendance_is_counted_once_witness :
  length (AttendanceData.filteredData anyName threeDays fiveLate) = 3%nat ∧
  AttendanceData.late (AttendanceData.stats
                         (AttendanceData.filteredData anyName threeDays fiveLate)) = 3 ∧
  lateRecord "2024-04-03" ∈ AttendanceData.filteredData anyName threeDays fiveLate.
Proof.
  pose proof (filtered_attendance_is_counted_once anyName threeDays fiveLate) as H.
  cbv zeta in H. destruct H as (Hsum & _ & _ & _ & _ & Hkept).
  split; [by_computation|]. split; [by_computation|].
  apply (Hkept eq_refl eq_refl); [|by_computation..].
  cbn. do 2 right. left.
Defined.

(** The key of [a.b@x.org]. *)
Lemma email_keys_are_dot_free_and_faithful_witness :
  UserManagement.encodeEmailForKey "a.b@x.org" = "a,b@x,org" ∧
  String.get 1 (UserManagement.encodeEmailForKey "a.b@x.org") ≠ Some "."%char ∧
  ("a.b@x.org" ≠ "a.b@x.com" →
   UserManagement.encodeEmailForKey "a.b@x.org" ≠ UserManagement.encodeEmailForKey "a.b@x.com").
Proof.
  destruct (email_keys_are_dot_free_and_faithful "a.b@x.org" "a.b@x.com")
    as (_ & Hdots & _ & Hinj).
  split; [by_computation|]. split; [apply Hdots|].
  intros Hne Heq. apply Hne, Hinj; [| |exact Heq].
  - intros i. destruct i as [|[|[|[|[|[|[|[|[|[|i]]]]]]]]]]; cbn; try discriminate.
  - intros i. destruct i as [|[|[|[|[|[|[|[|[|[|i]]]]]]]]]]; cbn; try discriminate.
Defined.

(** The pending request approved. *)
Lemma approval_moves_the_account_witness :
  UserManagement.pendingNodes (Act.data requests) !! "a,b@x,org"
  = Some (UserManagement.mkUserAccount (Some "a.b@x.org") (Some "cHc=")) ∧
  ∃ s' v',
    UserManagement.approveUser accountsHost "a.b@x.org" "cHc=" console requests
    = (Ok tt, s', v') ∧
    UserManagement.userNodes (Act.data v') !! "a,b@x,org"
    = Some (UserManagement.mkUserAccount (Some "a.b@x.org") (Some "cHc=")) ∧
    UserManagement.pendingNodes (Act.data v') !! "a,b@x,org" = None.
Proof.
  split; [by_computation|].
  pose proof (approval_moves_the_account accountsHost "a.b@x.org" "cHc=" console requests)
    as H.
  cbv zeta in H. destruct H as [Hok _].
  assert (Hnet : ∀ x, x ∈ take 5 (Act.verdicts requests) → x = None).
  { intros x Hx. by apply elem_of_nil in Hx. }
  destruct (Hok Hnet (λ l x, reflexivity _)) as (s' & v' & Hrun & Huser & Hpending & _).
  exists s', v'. split; [exact Hrun|]. split; [exact Huser | exact Hpending].
Defined.

(** Settings saved on a database without settings and read back. *)
Lemma settings_are_read_back_or_defaulted_witness :
  ∃ s1 v1 s2 v2,
    Settings.updateSettings lenient fresh noSettings = (Ok tt, s1, v1) ∧
    Settings.fetchSettings s1 v1 = (Ok tt, s2, v2) ∧
    Settings.settings s2 = lenient.
Proof.
  destruct (settings_are_read_back_or_defaulted fresh noSettings) as (Hback & _).
  assert (Hnet : ∀ x, x ∈ take 2 (Act.verdicts noSettings) → x = None).
  { intros x Hx. by apply elem_of_nil in Hx. }
  destruct (Hback lenient Hnet) as (s1 & v1 & s2 & v2 & Hsave & _ & Hfetch & Hread & _).
  by exists s1, v1, s2, v2.
Defined.

End MoreInstances.
